(** * WeatherAPIService: a shallow embedding of [weatherAPI.py]

    The definitions follow the source file top to bottom:

    - [Py]: the Python values the program manipulates (parsed JSON), the
      exceptions it can raise, and the primitives it calls on them
      ([d[k]], [d.get(k, default)], [float], [int], [round], [max],
      [sorted], ...), with the monad the program is written in;
    - [Net]: the outside world as the program sees it (the outcome of each
      successive [requests.get], the clock, the log) and [safe_request];
    - [Agg]: [aggregated_current_from_providers] and
      [aggregated_forecast_from_providers], statement by statement, with
      the local variables kept in an explicit frame so that a [try] block
      interrupted by an exception leaves behind what it already did;
    - [Cache]: [cachetools.TTLCache] and the [cached] decorator, as
      cachetools 5 defines them;
    - [Routes]: the view functions of [/weather/current] and
      [/weather/forecast];
    - [Search]: the view function of [/locations/search];
    - [Health]: the view function of [/health] and the hook that records
      the start time.

    The other modules describe rather than embed: [Reports] says what
    each provider's response yields and what properties are stated with,
    [Threads] interleaves several callers of the cached functions,
    [Traffic] and [Describe] name the requests the program makes and
    what further properties are stated with, and [Examples] and [Cases]
    hold concrete configurations, payloads and worlds.  The lemmas and
    the theorems come after all the definitions.

    Conventions.  A Python [float] is modelled by an exact rational: there
    is no rounding error, overflow, infinity or NaN.  A string is the
    sequence of its code points, restricted to U+0000..U+00FF.  A JSON
    object is an association list whose first binding of a key is the
    dict's value for it.  The rate limiter and the Swagger pages are not
    modelled. *)

From Stdlib Require Import ZArith QArith Lqa List String Ascii Bool Lia.
Import ListNotations.

Set Warnings "-register-all".

Local Open Scope string_scope.
Local Open Scope list_scope.
Local Open Scope Z_scope.

(* ================================================================== *)
(** * Python values, exceptions and primitives *)
(* ================================================================== *)

Module Py.

(** What [resp.json()] returns; Python's [None] is [JNull]. *)
Inductive json : Type :=
| JNull
| JBool (b : bool)
| JNum (q : Q)
| JStr (s : string)
| JArr (l : list json)
| JObj (kv : list (string * json)).

(** The ways a [requests] call fails, all subclasses of
    [requests.RequestException] (since requests 2.27 the error of
    [resp.json()] on an undecodable body is one of them). *)
Inductive request_failure : Type :=
| Timeout
| ConnectionError
| HTTPError (status : Z)
| InvalidJSON.

Inductive exn : Type :=
| RequestException (f : request_failure)
| KeyError (key : string)
| IndexError
| TypeError
| ValueError
| AttributeError
| ZeroDivisionError
| UnboundLocalError (name : string)
| RuntimeError (msg : string).

Inductive result (A : Type) : Type :=
| Ok (a : A)
| Raise (e : exn).
Arguments Ok {A} a.
Arguments Raise {A} e.

Definition and_then {A B} (r : result A) (f : A -> result B) : result B :=
  match r with Ok a => f a | Raise e => Raise e end.

Definition is_ok {A} (r : result A) : bool :=
  match r with Ok _ => true | Raise _ => false end.

Definition is_RuntimeError (e : exn) : bool :=
  match e with RuntimeError _ => true | _ => false end.


Definition is_RequestException (e : exn) : bool :=
  match e with RequestException _ => true | _ => false end.

(** The part of the interpreter and of the standard library the program
    relies on and that is not modelled here: parsing a number out of a
    string, printing a value that is not a string, and the calendar. *)
Class Runtime : Type := {
  (** [float(s)] for a [str]; [None] is [ValueError]. *)
  float_of_str : string -> option Q;
  (** [int(s)] for a [str]; [None] is [ValueError]. *)
  int_of_str : string -> option Z;
  (** [str(v)] for a number, a list or a dict. *)
  repr : json -> string;
  (** [time.strftime("%Y-%m-%d", time.gmtime(v))]. *)
  gmtime_date : json -> result string
}.

Fixpoint assoc {A} (k : string) (kv : list (string * A)) : option A :=
  match kv with
  | [] => None
  | (k', v) :: rest => if String.eqb k k' then Some v else assoc k rest
  end.

(** [d[k] = v] on a dict held as an association list. *)
Fixpoint assoc_set {A} (k : string) (v : A) (kv : list (string * A))
  : list (string * A) :=
  match kv with
  | [] => [(k, v)]
  | (k', v') :: rest =>
      if String.eqb k k' then (k, v) :: rest else (k', v') :: assoc_set k v rest
  end.

(** [j[k]] with a string key. *)
Definition getitem (j : json) (k : string) : result json :=
  match j with
  | JObj kv => match assoc k kv with Some v => Ok v | None => Raise (KeyError k) end
  | _ => Raise TypeError
  end.

(** [j[0]].  A JSON object has string keys only, so [0] is never a key. *)
Definition getitem0 (j : json) : result json :=
  match j with
  | JArr (x :: _) => Ok x
  | JArr [] => Raise IndexError
  | JStr (String c _) => Ok (JStr (String c EmptyString))
  | JStr EmptyString => Raise IndexError
  | JObj _ => Raise (KeyError "0")
  | _ => Raise TypeError
  end.

(** [j.get(k, default)]: only a dict has the method. *)
Definition dict_get (j : json) (k : string) (default : json) : result json :=
  match j with
  | JObj kv => Ok (match assoc k kv with Some v => v | None => default end)
  | _ => Raise AttributeError
  end.

(** Looking up the method [j.get], which happens before the arguments of
    the call are evaluated. *)
Definition attr_get (j : json) : result unit :=
  match j with JObj _ => Ok tt | _ => Raise AttributeError end.

(** What [for x in j] and [j[:n]] range over: the items of a list, the
    characters of a string. *)
Fixpoint chars (s : string) : list json :=
  match s with
  | EmptyString => []
  | String c rest => JStr (String c EmptyString) :: chars rest
  end.

(** [for x in j]: a dict yields its keys. *)
Definition iterate (j : json) : result (list json) :=
  match j with
  | JArr l => Ok l
  | JStr s => Ok (chars s)
  | JObj kv => Ok (map (fun p => JStr (fst p)) kv)
  | _ => Raise TypeError
  end.

Definition Q_of_bool (b : bool) : Q := if b then 1%Q else 0%Q.

(** The numeric value of a value that is a number for Python ([bool] is a
    subclass of [int]). *)
Definition as_number (j : json) : option Q :=
  match j with
  | JNum q => Some q
  | JBool b => Some (Q_of_bool b)
  | _ => None
  end.

(** [int(x)] of a number truncates toward zero. *)
Definition Qtruncate (q : Q) : Z := Z.quot (Qnum q) (Zpos (Qden q)).

Definition py_float `{Runtime} (j : json) : result Q :=
  match j with
  | JNum q => Ok q
  | JBool b => Ok (Q_of_bool b)
  | JStr s => match float_of_str s with Some q => Ok q | None => Raise ValueError end
  | _ => Raise TypeError
  end.

Definition py_int `{Runtime} (j : json) : result Z :=
  match j with
  | JNum q => Ok (Qtruncate q)
  | JBool b => Ok (if b then 1 else 0)
  | JStr s => match int_of_str s with Some z => Ok z | None => Raise ValueError end
  | _ => Raise TypeError
  end.

(** [str(v)], as an f-string formats a value. *)
Definition py_str `{Runtime} (j : json) : string :=
  match j with
  | JStr s => s
  | JNull => "None"
  | JBool true => "True"
  | JBool false => "False"
  | _ => repr j
  end.

(** Truth value of a value in [if v:]. *)
Definition truthy (j : json) : bool :=
  match j with
  | JNull => false
  | JBool b => b
  | JNum q => negb (Qeq_bool q 0)
  | JStr s => negb (String.eqb s "")
  | JArr l => match l with [] => false | _ => true end
  | JObj kv => match kv with [] => false | _ => true end
  end.

(** [round(x, 2)]: to the nearest multiple of 1/100, a tie going to the
    even one. *)
Definition round_half_even (q : Q) : Z :=
  let n := Qnum q in
  let d := Zpos (Qden q) in
  let f := n / d in
  let r := n mod d in
  match (2 * r ?= d) with
  | Lt => f
  | Gt => f + 1
  | Eq => if Z.even f then f else f + 1
  end.

Definition round2 (q : Q) : Q := Qred (round_half_even (q * 100) # 100).

Definition Qsum (l : list Q) : Q := fold_left Qplus l 0%Q.

Definition Qlen {A} (l : list A) : Q := inject_Z (Z.of_nat (List.length l)).

(** [sum(lst) / len(lst)] on a list that is not empty. *)
Definition average (lst : list Q) : Q := Qred (Qsum lst / Qlen lst).

(** The nested [mean] of the source. *)
Definition mean (lst : list Q) : result Q :=
  match lst with
  | [] => Raise ZeroDivisionError
  | _ => Ok (average lst)
  end.

(** Python's [==] on parsed JSON: numbers and booleans compare by value,
    lists pointwise, dicts as finite maps. *)
Fixpoint py_eqb (a b : json) {struct a} : bool :=
  match a, b with
  | JNull, JNull => true
  | JStr s, JStr t => String.eqb s t
  | JArr l, JArr m =>
      (fix all2 (l m : list json) : bool :=
         match l, m with
         | [], [] => true
         | x :: l', y :: m' => py_eqb x y && all2 l' m'
         | _, _ => false
         end) l m
  | JObj kv, JObj kv' =>
      Nat.eqb (List.length kv) (List.length kv') &&
      (fix sub (kv : list (string * json)) : bool :=
         match kv with
         | [] => true
         | (k, v) :: rest =>
             match assoc k kv' with
             | Some v' => py_eqb v v'
             | None => false
             end && sub rest
         end) kv
  | _, _ =>
      match as_number a, as_number b with
      | Some p, Some q => Qeq_bool p q
      | _, _ => false
      end
  end.

(** [lst.count(x)]. *)
Definition count (x : json) (lst : list json) : nat :=
  List.length (filter (fun y => py_eqb y x) lst).

(** [max(lst, key=key)] keeps the first of the items whose key is largest:
    the running best is replaced only by a strictly larger key. *)
Fixpoint max_from {A} (key : A -> nat) (best : A) (rest : list A) : A :=
  match rest with
  | [] => best
  | x :: rest' =>
      if Nat.ltb (key best) (key x) then max_from key x rest'
      else max_from key best rest'
  end.

(** [max(lst, key=lambda x: lst.count(x)) if lst else ""]. *)
Definition most_common (lst : list json) : json :=
  match lst with
  | [] => JStr ""
  | x :: rest => max_from (fun y => count y lst) x rest
  end.

(** A list or a dict cannot be a dict key. *)
Definition hashable (j : json) : bool :=
  match j with JArr _ | JObj _ => false | _ => true end.

(** [sorted]: the keys it orders are pairwise distinct dict keys, so the
    order between two of them is decided by [<] on the keys alone, which
    Python defines between two strings and between two numbers only. *)
Inductive sort_class : Type := AllStr | AllNum | Mixed.

Definition is_str (j : json) : bool :=
  match j with JStr _ => true | _ => false end.

Definition is_num (j : json) : bool :=
  match as_number j with Some _ => true | None => false end.

Definition classify (keys : list json) : sort_class :=
  if forallb is_str keys then AllStr
  else if forallb is_num keys then AllNum
  else Mixed.

Definition py_ltb (a b : json) : bool :=
  match a, b with
  | JStr s, JStr t => String.ltb s t
  | _, _ =>
      match as_number a, as_number b with
      | Some p, Some q => match Qcompare p q with Lt => true | _ => false end
      | _, _ => false
      end
  end.

Fixpoint insert_sorted {A} (x : json * A) (l : list (json * A))
  : list (json * A) :=
  match l with
  | [] => [x]
  | y :: rest =>
      if py_ltb (fst x) (fst y) then x :: y :: rest
      else y :: insert_sorted x rest
  end.

Definition sort_items {A} (items : list (json * A)) : list (json * A) :=
  fold_right insert_sorted [] items.

(** [sorted(d.items())]: no comparison is made on fewer than two items;
    otherwise some comparison crosses two kinds of key unless all keys
    are strings or all are numbers. *)
Definition sorted_items {A} (items : list (json * A))
  : result (list (json * A)) :=
  match items with
  | [] | [_] => Ok items
  | _ =>
      match classify (map fst items) with
      | Mixed => Raise TypeError
      | _ => Ok (sort_items items)
      end
  end.

(** [lst[:n]] for any integer [n]. *)
Definition slice_to {A} (n : Z) (lst : list A) : list A :=
  if 0 <=? n then firstn (Z.to_nat n) lst
  else firstn (List.length lst - Z.to_nat (- n)) lst.

(** [for x in j[:n]]: a dict cannot be sliced. *)
Definition iterate_slice (j : json) (n : Z) : result (list json) :=
  match j with
  | JArr l => Ok (slice_to n l)
  | JStr s => Ok (slice_to n (chars s))
  | _ => Raise TypeError
  end.

(** [[x for x in lst if x is not None]] *)
Definition not_none (lst : list json) : list json :=
  filter (fun x => match x with JNull => false | _ => true end) lst.

(** The numbers of a list all of whose items are numbers. *)
Fixpoint numbers (lst : list json) : option (list Q) :=
  match lst with
  | [] => Some []
  | x :: rest =>
      match as_number x, numbers rest with
      | Some q, Some qs => Some (q :: qs)
      | _, _ => None
      end
  end.

Definition Qmin (a b : Q) : Q := if Qle_bool a b then a else b.
Definition Qmax (a b : Q) : Q := if Qle_bool b a then a else b.

(** [round(sum(lst) / len(lst), 2) if lst else None]: adding a value
    that is not a number to a number is a [TypeError]. *)
Definition avg_or_none (lst : list json) : result (option Q) :=
  match lst with
  | [] => Ok None
  | _ => match numbers lst with
         | Some qs => Ok (Some (round2 (average qs)))
         | None => Raise TypeError
         end
  end.

(** [round(min(lst), 2) if lst else None]: [min] compares numbers with
    numbers only, and what it returns must be a number for [round]. *)
Definition min_or_none (lst : list json) : result (option Q) :=
  match lst with
  | [] => Ok None
  | _ => match numbers lst with
         | Some (q :: qs) => Ok (Some (round2 (fold_left Qmin qs q)))
         | _ => Raise TypeError
         end
  end.

Definition max_or_none (lst : list json) : result (option Q) :=
  match lst with
  | [] => Ok None
  | _ => match numbers lst with
         | Some (q :: qs) => Ok (Some (round2 (fold_left Qmax qs q)))
         | _ => Raise TypeError
         end
  end.

(** ** A state monad in which an exception keeps the state

    A Python [try] block that raises has still performed every mutation
    made before the raise. *)
Definition M (S A : Type) : Type := S -> result A * S.

Definition ret {S A} (a : A) : M S A := fun s => (Ok a, s).

Definition bind {S A B} (m : M S A) (f : A -> M S B) : M S B :=
  fun s => match m s with
           | (Ok a, s') => f a s'
           | (Raise e, s') => (Raise e, s')
           end.

Definition raise {S A} (e : exn) : M S A := fun s => (Raise e, s).

Definition lift {S A} (r : result A) : M S A := fun s => (r, s).

Definition get {S} : M S S := fun s => (Ok s, s).

Definition modify {S} (f : S -> S) : M S unit := fun s => (Ok tt, f s).

(** [try: body  except <class> as e: handler e]. *)
Definition try_except {S A} (body : M S A) (catches : exn -> bool)
    (handler : exn -> M S A) : M S A :=
  fun s => match body s with
           | (Ok a, s') => (Ok a, s')
           | (Raise e, s') => if catches e then handler e s' else (Raise e, s')
           end.

(** [except Exception]. *)
Definition any_exception (e : exn) : bool := true.

(** [for x in xs: body x]. *)
Fixpoint for_each {S A} (xs : list A) (body : A -> M S unit) : M S unit :=
  match xs with
  | [] => ret tt
  | x :: rest => bind (body x) (fun _ => for_each rest body)
  end.

Module Notations.
  Declare Scope py_scope.
  Delimit Scope py_scope with py.
  Notation "x <- m ;; k" := (bind m (fun x => k))
    (at level 61, m at next level, right associativity) : py_scope.
  Notation "m ;; k" := (bind m (fun _ => k))
    (at level 61, right associativity) : py_scope.
  Notation "x <-- r ;;; k" := (and_then r (fun x => k))
    (at level 61, r at next level, right associativity) : py_scope.
End Notations.

End Py.

(* ================================================================== *)
(** * The outside world and [safe_request] *)
(* ================================================================== *)

Module Net.
Import Py Py.Notations.
Local Open Scope py_scope.

(** The module-level configuration, read from the environment. *)
Record config : Type := {
  OPENWEATHER_API_KEY : string;
  WEATHERAPI_KEY : string;
  CACHE_TTL_SECONDS : Z;
  CACHE_MAXSIZE : Z
}.

Definition DEFAULT_FORECAST_DAYS : Z := 3.
Definition MAX_FORECAST_DAYS : Z := 7.

(** [if KEY:] on a string. *)
Definition configured (key : string) : bool := negb (String.eqb key "").

(** What one [requests.get] meets: no answer at all, or an HTTP response
    with a status code and a body that is JSON or not. *)
Inductive http_outcome : Type :=
| NoResponse (timed_out : bool)
| Responded (status_code : Z) (body : option json).

Record attempt : Type := {
  latency : Z;            (* milliseconds taken by the call *)
  outcome : http_outcome
}.

Inductive level : Type := INFO | WARNING | ERROR.

(** What the program does to the outside, in order. *)
Inductive event : Type :=
| Get (url : string) (params : list (string * json))
| Sleep (ms : Z)
| Log (lvl : level) (fmt : string).

(** The world: the clock in milliseconds, the outcomes of the HTTP calls
    still to come, in the order the calls will be made, and the effects
    so far.  When no outcome is left the connection is refused. *)
Record world : Type := {
  clock : Z;
  network : list attempt;
  trace : list event
}.

Definition refused : attempt := {| latency := 0; outcome := NoResponse false |}.

Definition emit (e : event) : M world unit :=
  modify (fun w => {| clock := clock w; network := network w;
                      trace := trace w ++ [e] |}).

Definition log (lvl : level) (fmt : string) : M world unit :=
  emit (Log lvl fmt).

(** [time.sleep(0.3)] *)
Definition sleep (ms : Z) : M world unit :=
  modify (fun w => {| clock := clock w + ms; network := network w;
                      trace := trace w ++ [Sleep ms] |}).

Record response : Type := {
  status_code : Z;
  body : option json
}.

(** [requests.get(url, params=params, timeout=timeout)] *)
Definition requests_get (url : string) (params : list (string * json))
  : M world response :=
  fun w =>
    let a := match network w with [] => refused | a :: _ => a end in
    let w' := {| clock := clock w + latency a;
                 network := tl (network w);
                 trace := trace w ++ [Get url params] |} in
    match outcome a with
    | NoResponse true => (Raise (RequestException Timeout), w')
    | NoResponse false => (Raise (RequestException ConnectionError), w')
    | Responded st b => (Ok {| status_code := st; body := b |}, w')
    end.

(** [resp.raise_for_status()]: a 4xx or 5xx status is an [HTTPError]. *)
Definition raise_for_status (resp : response) : M world unit :=
  if (400 <=? status_code resp) && (status_code resp <? 600)
  then raise (RequestException (HTTPError (status_code resp)))
  else ret tt.

(** [resp.json()] *)
Definition resp_json (resp : response) : M world json :=
  match body resp with
  | Some j => ret j
  | None => raise (RequestException InvalidJSON)
  end.

Definition fetch (url : string) (params : list (string * json))
  : M world json :=
  resp <- requests_get url params ;;
  raise_for_status resp ;;
  resp_json resp.

(** [safe_request(url, params)]:
<<
    try:
        resp = requests.get(...); resp.raise_for_status(); return resp.json()
    except requests.RequestException as e:
        logger.warning("Request failed: %s %s %s", url, params, e)
        try:
            time.sleep(0.3)
            resp = requests.get(...); resp.raise_for_status(); return resp.json()
        except Exception as e2:
            logger.error("Retry failed for %s: %s", url, e2)
            raise
>> *)
Definition safe_request (url : string) (params : list (string * json))
  : M world json :=
  try_except (fetch url params) is_RequestException (fun e =>
    log WARNING "Request failed: %s %s %s" ;;
    try_except (sleep 300 ;; fetch url params) any_exception (fun e2 =>
      log ERROR "Retry failed for %s: %s" ;;
      raise e2)).

End Net.

(* ================================================================== *)
(** * The aggregator *)
(* ================================================================== *)

Module Agg.
Import Py Py.Notations Net.
Local Open Scope py_scope.

Section WithRuntime.
Context `{RT : Runtime}.
Variable cfg : config.

(** ** Current conditions *)

(** The dict [results]: each of its four keys is absent ([None]) or holds
    a list. *)
Record results_dict : Type := {
  temps : option (list Q);
  feels : option (list Q);
  humidities : option (list Z);
  conds : option (list json)
}.

Definition no_results : results_dict :=
  {| temps := None; feels := None; humidities := None; conds := None |}.

(** [not results] *)
Definition results_empty (r : results_dict) : bool :=
  match temps r, feels r, humidities r, conds r with
  | None, None, None, None => true
  | _, _, _, _ => false
  end.

(** The local variables of [aggregated_current_from_providers] and the
    world; [location] is unbound until its first assignment. *)
Record cur_frame : Type := {
  results : results_dict;
  sources : list (string * json);
  location : option json;
  cur_world : world
}.

Definition cur_io {A} (m : M world A) : M cur_frame A :=
  fun f => let (r, w') := m (cur_world f) in
           (r, {| results := results f; sources := sources f;
                  location := location f; cur_world := w' |}).

Definition set_results (g : results_dict -> results_dict) : M cur_frame unit :=
  modify (fun f => {| results := g (results f); sources := sources f;
                      location := location f; cur_world := cur_world f |}).

Definition set_source (name : string) (j : json) : M cur_frame unit :=
  modify (fun f => {| results := results f;
                      sources := assoc_set name j (sources f);
                      location := location f; cur_world := cur_world f |}).

Definition set_location (loc : json) : M cur_frame unit :=
  modify (fun f => {| results := results f; sources := sources f;
                      location := Some loc; cur_world := cur_world f |}).

Definition or_empty {A} (o : option (list A)) : list A :=
  match o with Some l => l | None => [] end.

(** [results.setdefault(key, [])], evaluated before the argument of the
    [append] that follows it. *)
Definition setdefault_temps : M cur_frame unit :=
  set_results (fun r => {| temps := Some (or_empty (temps r)); feels := feels r;
                           humidities := humidities r; conds := conds r |}).
Definition setdefault_feels : M cur_frame unit :=
  set_results (fun r => {| temps := temps r; feels := Some (or_empty (feels r));
                           humidities := humidities r; conds := conds r |}).
Definition setdefault_humidities : M cur_frame unit :=
  set_results (fun r => {| temps := temps r; feels := feels r;
                           humidities := Some (or_empty (humidities r));
                           conds := conds r |}).
Definition setdefault_conds : M cur_frame unit :=
  set_results (fun r => {| temps := temps r; feels := feels r;
                           humidities := humidities r;
                           conds := Some (or_empty (conds r)) |}).

(** [.append(v)] on the list [setdefault] returned. *)
Definition append_temps (v : Q) : M cur_frame unit :=
  set_results (fun r => {| temps := Some (or_empty (temps r) ++ [v]);
                           feels := feels r; humidities := humidities r;
                           conds := conds r |}).
Definition append_feels (v : Q) : M cur_frame unit :=
  set_results (fun r => {| temps := temps r;
                           feels := Some (or_empty (feels r) ++ [v]);
                           humidities := humidities r; conds := conds r |}).
Definition append_humidities (v : Z) : M cur_frame unit :=
  set_results (fun r => {| temps := temps r; feels := feels r;
                           humidities := Some (or_empty (humidities r) ++ [v]);
                           conds := conds r |}).
Definition append_conds (v : json) : M cur_frame unit :=
  set_results (fun r => {| temps := temps r; feels := feels r;
                           humidities := humidities r;
                           conds := Some (or_empty (conds r) ++ [v]) |}).

(** [{"name": f"{a}, {b}", "lat": lat, "lon": lon}] *)
Definition location_record (name : string) (lat lon : json) : json :=
  JObj [("name", JStr name); ("lat", lat); ("lon", lon)].

Definition comma (a b : json) : string := py_str a ++ ", " ++ py_str b.

(** The two requests for current conditions (lines 120-123, 138-141). *)
Definition openweather_current_request (city : string) : M world json :=
  safe_request "https://api.openweathermap.org/data/2.5/weather"
    [("q", JStr city); ("appid", JStr (OPENWEATHER_API_KEY cfg));
     ("units", JStr "metric")].

Definition weatherapi_current_request (city : string) : M world json :=
  safe_request "http://api.weatherapi.com/v1/current.json"
    [("key", JStr (WEATHERAPI_KEY cfg)); ("q", JStr city)].

(** The body of the first [try] (lines 120-131). *)
Definition openweather_current_body (city : string) : M cur_frame unit :=
  ow <- cur_io (openweather_current_request city) ;;
  set_source "openweathermap" ow ;;
  (* results.setdefault("temps", []).append(float(ow["main"]["temp"])) *)
  setdefault_temps ;;
  main <- lift (getitem ow "main") ;;
  temp <- lift (getitem main "temp") ;;
  t <- lift (py_float temp) ;;
  append_temps t ;;
  (* results.setdefault("feels", []).append(
       float(ow["main"].get("feels_like", ow["main"]["temp"]))) *)
  setdefault_feels ;;
  main <- lift (getitem ow "main") ;;
  lift (attr_get main) ;;
  main' <- lift (getitem ow "main") ;;
  temp <- lift (getitem main' "temp") ;;
  fl <- lift (dict_get main "feels_like" temp) ;;
  f <- lift (py_float fl) ;;
  append_feels f ;;
  (* results.setdefault("humidities", []).append(int(ow["main"]["humidity"])) *)
  setdefault_humidities ;;
  main <- lift (getitem ow "main") ;;
  hum <- lift (getitem main "humidity") ;;
  h <- lift (py_int hum) ;;
  append_humidities h ;;
  (* cond = ow.get("weather", [{}])[0].get("description", "") *)
  weather <- lift (dict_get ow "weather" (JArr [JObj []])) ;;
  first <- lift (getitem0 weather) ;;
  cond <- lift (dict_get first "description" (JStr "")) ;;
  setdefault_conds ;;
  append_conds cond ;;
  (* location = {...} *)
  name <- lift (dict_get ow "name" (JStr "")) ;;
  sys <- lift (dict_get ow "sys" (JObj [])) ;;
  country <- lift (dict_get sys "country" (JStr "")) ;;
  coord <- lift (dict_get ow "coord" (JObj [])) ;;
  lat <- lift (dict_get coord "lat" JNull) ;;
  coord <- lift (dict_get ow "coord" (JObj [])) ;;
  lon <- lift (dict_get coord "lon" JNull) ;;
  set_location (location_record (comma name country) lat lon).

(** The body of the second [try] (lines 138-149). *)
Definition weatherapi_current_body (city : string) : M cur_frame unit :=
  wa <- cur_io (weatherapi_current_request city) ;;
  set_source "weatherapi" wa ;;
  cur <- lift (dict_get wa "current" (JObj [])) ;;
  (* results.setdefault("temps", []).append(float(cur["temp_c"])) *)
  setdefault_temps ;;
  temp <- lift (getitem cur "temp_c") ;;
  t <- lift (py_float temp) ;;
  append_temps t ;;
  (* ... .append(float(cur.get("feelslike_c", cur.get("temp_c")))) *)
  setdefault_feels ;;
  lift (attr_get cur) ;;
  temp <- lift (dict_get cur "temp_c" JNull) ;;
  fl <- lift (dict_get cur "feelslike_c" temp) ;;
  f <- lift (py_float fl) ;;
  append_feels f ;;
  (* ... .append(int(cur.get("humidity", 0))) *)
  setdefault_humidities ;;
  hum <- lift (dict_get cur "humidity" (JNum 0)) ;;
  h <- lift (py_int hum) ;;
  append_humidities h ;;
  (* ... .append(cur.get("condition", {}).get("text", "")) *)
  setdefault_conds ;;
  condition <- lift (dict_get cur "condition" (JObj [])) ;;
  text <- lift (dict_get condition "text" (JStr "")) ;;
  append_conds text ;;
  (* loc = wa.get("location", {}); location = {...} *)
  loc <- lift (dict_get wa "location" (JObj [])) ;;
  name <- lift (dict_get loc "name" (JStr "")) ;;
  country <- lift (dict_get loc "country" (JStr "")) ;;
  lat <- lift (dict_get loc "lat" JNull) ;;
  lon <- lift (dict_get loc "lon" JNull) ;;
  set_location (location_record (comma name country) lat lon).

(** [if KEY: try: body except Exception as e: logger.exception(fmt, e)] *)
Definition provider_block (key fmt : string) (body : M cur_frame unit)
  : M cur_frame unit :=
  if configured key
  then try_except body any_exception (fun e => cur_io (log ERROR fmt))
  else ret tt.

(** The unified answer for current conditions. *)
Record current_answer : Type := {
  cur_location : json;
  temperature_c : Q;
  feels_like_c : Q;
  humidity : Z;
  condition : json;
  cur_sources : list (string * json)
}.

(** [results[key]] *)
Definition subscript {A} (key : string) (o : option A) : result A :=
  match o with Some v => Ok v | None => Raise (KeyError key) end.

(** Reading the local variable [location]. *)
Definition read_location (o : option json) : result json :=
  match o with Some v => Ok v | None => Raise (UnboundLocalError "location") end.

(** Lines 153-173. *)
Definition merge_current : M cur_frame current_answer :=
  f <- get ;;
  let r := results f in
  if results_empty r
  then raise (RuntimeError "All external providers failed or no provider configured.")
  else
    ts <- lift (subscript "temps" (temps r)) ;;
    mt <- lift (mean ts) ;;
    let temperature_c := round2 mt in
    fs <- lift (subscript "feels" (feels r)) ;;
    mf <- lift (mean fs) ;;
    let feels_like_c := round2 mf in
    hs <- lift (subscript "humidities" (humidities r)) ;;
    mh <- lift (mean (map inject_Z hs)) ;;
    let humidity := Qtruncate mh in
    cs <- lift (subscript "conds" (conds r)) ;;
    let condition := most_common cs in
    loc <- lift (read_location (location f)) ;;
    ret {| cur_location := loc; temperature_c := temperature_c;
           feels_like_c := feels_like_c; humidity := humidity;
           condition := condition; cur_sources := sources f |}.

Definition current_program (city : string) : M cur_frame current_answer :=
  provider_block (OPENWEATHER_API_KEY cfg) "OpenWeather failed: %s"
    (openweather_current_body city) ;;
  provider_block (WEATHERAPI_KEY cfg) "WeatherAPI failed: %s"
    (weatherapi_current_body city) ;;
  merge_current.

Definition cur_enter (w : world) : cur_frame :=
  {| results := no_results; sources := []; location := None; cur_world := w |}.

Definition aggregated_current_from_providers (city : string)
  : M world current_answer :=
  fun w => let (r, f) := current_program city (cur_enter w) in (r, cur_world f).

(** ** Forecast *)

(** One value of [daily_aggregate]: [{"temps": [], "mins": [], "maxs": [],
    "conds": []}]. *)
Record day_lists : Type := {
  day_temps : list json;
  day_mins : list json;
  day_maxs : list json;
  day_conds : list json
}.

Definition empty_day : day_lists :=
  {| day_temps := []; day_mins := []; day_maxs := []; day_conds := [] |}.

(** The local variables of [aggregated_forecast_from_providers]. *)
Record fc_frame : Type := {
  fc_sources : list (string * json);
  daily_aggregate : list (json * day_lists);
  fc_location : option json;
  fc_world : world
}.

Definition fc_io {A} (m : M world A) : M fc_frame A :=
  fun f => let (r, w') := m (fc_world f) in
           (r, {| fc_sources := fc_sources f;
                  daily_aggregate := daily_aggregate f;
                  fc_location := fc_location f; fc_world := w' |}).

Definition fc_set_source (name : string) (j : json) : M fc_frame unit :=
  modify (fun f => {| fc_sources := assoc_set name j (fc_sources f);
                      daily_aggregate := daily_aggregate f;
                      fc_location := fc_location f; fc_world := fc_world f |}).

Definition fc_set_location (loc : json) : M fc_frame unit :=
  modify (fun f => {| fc_sources := fc_sources f;
                      daily_aggregate := daily_aggregate f;
                      fc_location := Some loc; fc_world := fc_world f |}).

Definition has_key {A} (k : json) (d : list (json * A)) : bool :=
  existsb (fun p => py_eqb (fst p) k) d.

(** [daily_aggregate.setdefault(date, {...})]: a key already there keeps
    its entry; a key that cannot be hashed is a [TypeError]. *)
Definition setdefault_day (date : json) : M fc_frame unit :=
  if hashable date
  then modify (fun f =>
         {| fc_sources := fc_sources f;
            daily_aggregate :=
              if has_key date (daily_aggregate f) then daily_aggregate f
              else daily_aggregate f ++ [(date, empty_day)];
            fc_location := fc_location f; fc_world := fc_world f |})
  else raise TypeError.

Fixpoint update_day (date : json) (g : day_lists -> day_lists)
    (d : list (json * day_lists)) : list (json * day_lists) :=
  match d with
  | [] => []
  | (k, v) :: rest =>
      if py_eqb k date then (k, g v) :: rest
      else (k, v) :: update_day date g rest
  end.

Definition on_day (date : json) (g : day_lists -> day_lists) : M fc_frame unit :=
  modify (fun f => {| fc_sources := fc_sources f;
                      daily_aggregate := update_day date g (daily_aggregate f);
                      fc_location := fc_location f; fc_world := fc_world f |}).

(** [daily_aggregate[date]["temps"].append(v)] and its three siblings. *)
Definition append_day_temps (date v : json) : M fc_frame unit :=
  on_day date (fun d => {| day_temps := day_temps d ++ [v]; day_mins := day_mins d;
                           day_maxs := day_maxs d; day_conds := day_conds d |}).
Definition append_day_mins (date v : json) : M fc_frame unit :=
  on_day date (fun d => {| day_temps := day_temps d; day_mins := day_mins d ++ [v];
                           day_maxs := day_maxs d; day_conds := day_conds d |}).
Definition append_day_maxs (date v : json) : M fc_frame unit :=
  on_day date (fun d => {| day_temps := day_temps d; day_mins := day_mins d;
                           day_maxs := day_maxs d ++ [v]; day_conds := day_conds d |}).
Definition append_day_conds (date v : json) : M fc_frame unit :=
  on_day date (fun d => {| day_temps := day_temps d; day_mins := day_mins d;
                           day_maxs := day_maxs d; day_conds := day_conds d ++ [v] |}).

Definition JInt (z : Z) : json := JNum (inject_Z z).

(** The body of the WeatherAPI loop (lines 204-210). *)
Definition weatherapi_day (day : json) : M fc_frame unit :=
  date <- lift (dict_get day "date" JNull) ;;
  dayinfo <- lift (dict_get day "day" (JObj [])) ;;
  setdefault_day date ;;
  v <- lift (dict_get dayinfo "avgtemp_c" JNull) ;;
  append_day_temps date v ;;
  v <- lift (dict_get dayinfo "mintemp_c" JNull) ;;
  append_day_mins date v ;;
  v <- lift (dict_get dayinfo "maxtemp_c" JNull) ;;
  append_day_maxs date v ;;
  c <- lift (dict_get dayinfo "condition" (JObj [])) ;;
  v <- lift (dict_get c "text" (JStr "")) ;;
  append_day_conds date v.

(** The forecast request (lines 196-199); [days] is already capped. *)
Definition weatherapi_forecast_request (city : string) (days : Z) : M world json :=
  safe_request "http://api.weatherapi.com/v1/forecast.json"
    [("key", JStr (WEATHERAPI_KEY cfg)); ("q", JStr city); ("days", JInt days)].

(** The body of the first [try] (lines 196-210). *)
Definition weatherapi_forecast_body (city : string) (days : Z) : M fc_frame unit :=
  wa <- fc_io (weatherapi_forecast_request city days) ;;
  fc_set_source "weatherapi" wa ;;
  loc <- lift (dict_get wa "location" (JObj [])) ;;
  name <- lift (dict_get loc "name" (JStr "")) ;;
  country <- lift (dict_get loc "country" (JStr "")) ;;
  lat <- lift (dict_get loc "lat" JNull) ;;
  lon <- lift (dict_get loc "lon" JNull) ;;
  fc_set_location (location_record (comma name country) lat lon) ;;
  fcast <- lift (dict_get wa "forecast" (JObj [])) ;;
  fdays <- lift (dict_get fcast "forecastday" (JArr [])) ;;
  items <- lift (iterate fdays) ;;
  for_each items weatherapi_day.

(** The body of the OpenWeather loop (lines 226-235). *)
Definition openweather_day (city : string) (lat lon : json) (day : json)
  : M fc_frame unit :=
  dt <- lift (dict_get day "dt" JNull) ;;
  d <- lift (gmtime_date dt) ;;
  let date := JStr d in
  setdefault_day date ;;
  temp <- lift (dict_get day "temp" (JObj [])) ;;
  temp_avg <- lift (dict_get temp "day" JNull) ;;
  match temp_avg with
  | JNull => ret tt
  | _ => append_day_temps date temp_avg
  end ;;
  temp <- lift (dict_get day "temp" (JObj [])) ;;
  v <- lift (dict_get temp "min" JNull) ;;
  append_day_mins date v ;;
  temp <- lift (dict_get day "temp" (JObj [])) ;;
  v <- lift (dict_get temp "max" JNull) ;;
  append_day_maxs date v ;;
  weather <- lift (dict_get day "weather" (JArr [JObj []])) ;;
  first <- lift (getitem0 weather) ;;
  v <- lift (dict_get first "description" (JStr "")) ;;
  append_day_conds date v ;;
  fc_set_location (location_record city lat lon).

(** The body of the second [try] (lines 218-235). *)
Definition openweather_forecast_body (city : string) (days : Z) : M fc_frame unit :=
  ge <- fc_io (safe_request "http://api.openweathermap.org/geo/1.0/direct"
                 [("q", JStr city); ("limit", JInt 1);
                  ("appid", JStr (OPENWEATHER_API_KEY cfg))]) ;;
  if truthy ge then
    g0 <- lift (getitem0 ge) ;;
    lat <- lift (getitem g0 "lat") ;;
    g0 <- lift (getitem0 ge) ;;
    lon <- lift (getitem g0 "lon") ;;
    oc <- fc_io (safe_request "https://api.openweathermap.org/data/2.5/onecall"
                   [("lat", lat); ("lon", lon);
                    ("appid", JStr (OPENWEATHER_API_KEY cfg));
                    ("units", JStr "metric");
                    ("exclude", JStr "minutely,hourly,alerts")]) ;;
    fc_set_source "openweathermap" oc ;;
    daily <- lift (dict_get oc "daily" (JArr [])) ;;
    items <- lift (iterate_slice daily days) ;;
    for_each items (openweather_day city lat lon)
  else ret tt.

Definition fc_provider_block (key fmt : string) (body : M fc_frame unit)
  : M fc_frame unit :=
  if configured key
  then try_except body any_exception (fun e => fc_io (log ERROR fmt))
  else ret tt.

(** One entry of the answer's ["forecast"] list; [None] is Python's. *)
Record day_summary : Type := {
  date : json;
  min_c : option Q;
  max_c : option Q;
  avg_c : option Q;
  day_condition : json
}.

Record forecast_answer : Type := {
  fc_answer_location : json;
  forecast : list day_summary;
  fc_answer_sources : list (string * json)
}.

(** The body of the final loop (lines 244-251). *)
Definition summarize (item : json * day_lists) : result day_summary :=
  let (d, data) := item in
  let temps := not_none (day_temps data) in
  let mins := not_none (day_mins data) in
  let maxs := not_none (day_maxs data) in
  match avg_or_none temps with
  | Raise e => Raise e
  | Ok avg =>
      match min_or_none mins with
      | Raise e => Raise e
      | Ok day_min =>
          match max_or_none maxs with
          | Raise e => Raise e
          | Ok day_max =>
              Ok {| date := d; min_c := day_min; max_c := day_max;
                    avg_c := avg; day_condition := most_common (day_conds data) |}
          end
      end
  end.

Fixpoint summarize_all (items : list (json * day_lists))
  : result (list day_summary) :=
  match items with
  | [] => Ok []
  | item :: rest =>
      match summarize item with
      | Raise e => Raise e
      | Ok s => match summarize_all rest with
                | Raise e => Raise e
                | Ok ss => Ok (s :: ss)
                end
      end
  end.

(** Lines 239-253. *)
Definition merge_forecast (days : Z) : M fc_frame forecast_answer :=
  f <- get ;;
  match daily_aggregate f with
  | [] => raise (RuntimeError "No forecast data available from configured providers.")
  | _ =>
      items <- lift (sorted_items (daily_aggregate f)) ;;
      fcast <- lift (summarize_all (slice_to days items)) ;;
      loc <- lift (read_location (fc_location f)) ;;
      ret {| fc_answer_location := loc; forecast := fcast;
             fc_answer_sources := fc_sources f |}
  end.

Definition forecast_program (city : string) (days : Z)
  : M fc_frame forecast_answer :=
  let days := Z.min days MAX_FORECAST_DAYS in
  fc_provider_block (WEATHERAPI_KEY cfg) "WeatherAPI forecast failed: %s"
    (weatherapi_forecast_body city days) ;;
  fc_provider_block (OPENWEATHER_API_KEY cfg) "OpenWeather forecast failed: %s"
    (openweather_forecast_body city days) ;;
  merge_forecast days.

Definition fc_enter (w : world) : fc_frame :=
  {| fc_sources := []; daily_aggregate := []; fc_location := None; fc_world := w |}.

Definition aggregated_forecast_from_providers (city : string) (days : Z)
  : M world forecast_answer :=
  fun w => let (r, f) := forecast_program city days (fc_enter w) in (r, fc_world f).

End WithRuntime.
End Agg.

(* ================================================================== *)
(** * The cache: [cachetools.TTLCache] under [cachetools.cached] *)
(* ================================================================== *)

Module Cache.
Import Py Py.Notations Net Agg.
Local Open Scope py_scope.

(** The key [cached] computes: the tuple of the call's arguments, [(city,)] for
    [cached_current] and [(city, days)] for [cached_forecast]. *)
Inductive cache_key : Type :=
| KeyCurrent (city : string)
| KeyForecast (city : string) (days : Z).

Definition key_eqb (a b : cache_key) : bool :=
  match a, b with
  | KeyCurrent c, KeyCurrent c' => String.eqb c c'
  | KeyForecast c d, KeyForecast c' d' => String.eqb c c' && (d =? d')
  | _, _ => false
  end.

(** What the one shared cache holds: the dict either function returned. *)
Inductive cached_value : Type :=
| VCurrent (a : current_answer)
| VForecast (a : forecast_answer).

Record entry : Type := {
  key : cache_key;
  value : cached_value;
  expires : Z                 (* milliseconds *)
}.

(** The cache's entries, least recently used first. *)
Definition ttlcache : Type := list entry.

Fixpoint find (k : cache_key) (c : ttlcache) : option entry :=
  match c with
  | [] => None
  | e :: rest => if key_eqb (key e) k then Some e else find k rest
  end.

Definition remove (k : cache_key) (c : ttlcache) : ttlcache :=
  filter (fun e => negb (key_eqb (key e) k)) c.

(** [TTLCache.expire(time)]: drops what is no longer live at [time].
    (The library walks its entries oldest first and stops at the first
    live one, which is the same as long as the clock does not go back.) *)
Definition expire (now : Z) (c : ttlcache) : ttlcache :=
  filter (fun e => now <? expires e) c.

(** [cache[k]]: the entry, found, becomes the most recently used; it is a
    miss ([KeyError]) when absent or when [timer() < expires] fails. *)
Definition cache_getitem (now : Z) (k : cache_key) (c : ttlcache)
  : option cached_value * ttlcache :=
  match find k c with
  | None => (None, c)
  | Some e =>
      (if now <? expires e then Some (value e) else None, remove k c ++ [e])
  end.

(** [popitem] until there is room for one more item. *)
Fixpoint make_room (fuel : nat) (maxsize : Z) (c : ttlcache) : ttlcache :=
  match fuel with
  | O => c
  | S fuel' =>
      if maxsize <? Z.of_nat (List.length c) + 1
      then make_room fuel' maxsize (tl c)
      else c
  end.

(** [cache[k] = v]: [None] is the [ValueError] of a cache too small for
    one item, raised after the expired entries were dropped. *)
Definition cache_setitem (maxsize ttl_ms now : Z) (k : cache_key) (v : cached_value)
    (c : ttlcache) : option unit * ttlcache :=
  let c := expire now c in
  if maxsize <? 1 then (None, c)
  else
    let c := match find k c with
             | Some _ => c
             | None => make_room (List.length c) maxsize c
             end in
    (Some tt, remove k c ++ [{| key := k; value := v; expires := now + ttl_ms |}]).


(** The process: the module-level [cache] and the world. *)
Record process : Type := {
  cache : ttlcache;
  env : world
}.

Definition io {A} (m : M world A) : M process A :=
  fun s => let (r, w') := m (env s) in (r, {| cache := cache s; env := w' |}).

Section WithRuntime.
Context `{RT : Runtime}.
Variable cfg : config.

Definition ttl_ms : Z := CACHE_TTL_SECONDS cfg * 1000.

(** [try: return cache[k]  except KeyError: pass] *)
Definition lookup (k : cache_key) : M process (option cached_value) :=
  fun s => let (hit, c') := cache_getitem (clock (env s)) k (cache s) in
           (Ok hit, {| cache := c'; env := env s |}).

(** [try: cache[k] = v  except ValueError: pass] *)
Definition store (k : cache_key) (v : cached_value) : M process unit :=
  fun s => let (_, c') := cache_setitem (CACHE_MAXSIZE cfg) ttl_ms (clock (env s)) k v
                            (cache s) in
           (Ok tt, {| cache := c'; env := env s |}).

(** The wrapper [cached(cache)] puts around [func] (no lock is given). *)
Definition cached (k : cache_key) (func : M world cached_value)
  : M process cached_value :=
  hit <- lookup k ;;
  match hit with
  | Some v => ret v
  | None =>
      v <- io func ;;
      store k v ;;
      ret v
  end.

Definition current_func (city : string) : M world cached_value :=
  log INFO "Cache miss for current: %s" ;;
  a <- aggregated_current_from_providers cfg city ;;
  ret (VCurrent a).

Definition forecast_func (city : string) (days : Z) : M world cached_value :=
  log INFO "Cache miss for forecast: %s days=%d" ;;
  a <- aggregated_forecast_from_providers cfg city days ;;
  ret (VForecast a).

Definition cached_current (city : string) : M process cached_value :=
  cached (KeyCurrent city) (current_func city).

Definition cached_forecast (city : string) (days : Z) : M process cached_value :=
  cached (KeyForecast city days) (forecast_func city days).

End WithRuntime.
End Cache.

(* ================================================================== *)
(** * The routes *)
(* ================================================================== *)

Module Routes.
Import Py Py.Notations Net Agg Cache.
Local Open Scope py_scope.

(** [str.isspace] on one character. *)
Definition is_space (c : ascii) : bool :=
  let n := nat_of_ascii c in
  ((9 <=? n) && (n <=? 13) || (28 <=? n) && (n <=? 32)
   || (n =? 133) || (n =? 160))%nat.

Fixpoint lstrip (s : string) : string :=
  match s with
  | EmptyString => EmptyString
  | String c rest => if is_space c then lstrip rest else s
  end.

Fixpoint rstrip (s : string) : string :=
  match s with
  | EmptyString => EmptyString
  | String c rest =>
      match rstrip rest with
      | EmptyString => if is_space c then EmptyString else String c EmptyString
      | rest' => String c rest'
      end
  end.

(** [s.strip()] *)
Definition strip (s : string) : string := rstrip (lstrip s).

(** A string of whitespace only. *)
Fixpoint blank (s : string) : bool :=
  match s with
  | EmptyString => true
  | String c rest => is_space c && blank rest
  end.

(** The query string: [request.args]. *)
Record request : Type := {
  arg_location : option string;
  arg_days : option string
}.

(** The payload given to [jsonify]. *)
Inductive payload : Type :=
| Data (v : cached_value)
| Error (error : string)
| ErrorDetails (error : string) (details : exn).

Record http_response : Type := {
  payload_of : payload;
  status : Z
}.

Definition respond (p : payload) (st : Z) : http_response :=
  {| payload_of := p; status := st |}.

Definition or_default (o : option string) (d : string) : string :=
  match o with Some s => s | None => d end.

Section WithRuntime.
Context `{RT : Runtime}.
Variable cfg : config.

(** The [try] of both views: the answer with 200, a [RuntimeError] with
    502, anything else with 500. *)
Definition guarded (call : M process cached_value) (fmt502 fmt500 : string)
  : M process http_response :=
  try_except (data <- call ;; ret (respond (Data data) 200)) any_exception
    (fun e =>
       if is_RuntimeError e
       then io (log ERROR fmt502) ;;
            ret (respond (ErrorDetails "All providers failed" e) 502)
       else io (log ERROR fmt500) ;;
            ret (respond (ErrorDetails "Internal server error" e) 500)).

Definition current_weather (req : request) : M process http_response :=
  let location := strip (or_default (arg_location req) "") in
  if String.eqb location ""
  then ret (respond (Error "location query parameter is required") 400)
  else guarded (cached_current cfg location)
         "All providers failed: %s"
         "Unexpected error in /weather/current: %s".

(** [int(request.args.get("days", DEFAULT_FORECAST_DAYS))]; [None] is the
    [ValueError]. *)
Definition parse_days (req : request) : option Z :=
  match arg_days req with
  | None => Some DEFAULT_FORECAST_DAYS
  | Some s => int_of_str s
  end.

Definition forecast_weather (req : request) : M process http_response :=
  let location := strip (or_default (arg_location req) "") in
  match parse_days req with
  | None => ret (respond (Error "days must be an integer") 400)
  | Some days =>
      if String.eqb location ""
      then ret (respond (Error "location query parameter is required") 400)
      else if (days <=? 0) || (MAX_FORECAST_DAYS <? days)
      then ret (respond (Error "days must be between 1 and 7") 400)
      else guarded (cached_forecast cfg location days)
             "All providers failed for forecast: %s"
             "Unexpected error in /weather/forecast: %s"
  end.

End WithRuntime.
End Routes.

(* ================================================================== *)
(** * What each provider reported

    A description of the current-conditions merge inputs that does not
    run the program: the field values read off each provider's response,
    in the order the program reads them (a field is read only if the ones
    before it were). *)
(* ================================================================== *)

Module Reports.
Import Py Py.Notations Net Agg.
Local Open Scope py_scope.

Inductive provider : Type := OpenWeatherMap | WeatherAPI.

Record extracted : Type := {
  x_temp : option Q;
  x_feels : option Q;
  x_humidity : option Z;
  x_cond : option json;
  x_location : option json
}.

Definition opt_list {A} (o : option A) : list A :=
  match o with Some v => [v] | None => [] end.

Definition is_some {A} (o : option A) : bool :=
  match o with Some _ => true | None => false end.

Definition to_option {A} (r : result A) : option A :=
  match r with Ok a => Some a | Raise _ => None end.

Section WithRuntime.
Context `{RT : Runtime}.
Variable cfg : config.

Definition temp_of (p : provider) (j : json) : result Q :=
  match p with
  | OpenWeatherMap =>
      main <-- getitem j "main" ;;; temp <-- getitem main "temp" ;;; py_float temp
  | WeatherAPI =>
      cur <-- dict_get j "current" (JObj []) ;;;
      temp <-- getitem cur "temp_c" ;;; py_float temp
  end.

(** The feels-like value, the temperature standing in when the provider
    gives none. *)
Definition feels_of (p : provider) (j : json) : result Q :=
  match p with
  | OpenWeatherMap =>
      main <-- getitem j "main" ;;; temp <-- getitem main "temp" ;;;
      v <-- dict_get main "feels_like" temp ;;; py_float v
  | WeatherAPI =>
      cur <-- dict_get j "current" (JObj []) ;;;
      temp <-- dict_get cur "temp_c" JNull ;;;
      v <-- dict_get cur "feelslike_c" temp ;;; py_float v
  end.

(** The humidity as an integer; WeatherAPI's is 0 when it gives none. *)
Definition humidity_of (p : provider) (j : json) : result Z :=
  match p with
  | OpenWeatherMap =>
      main <-- getitem j "main" ;;; h <-- getitem main "humidity" ;;; py_int h
  | WeatherAPI =>
      cur <-- dict_get j "current" (JObj []) ;;;
      h <-- dict_get cur "humidity" (JNum 0) ;;; py_int h
  end.

(** The condition text, the empty string when the provider gives none. *)
Definition cond_of (p : provider) (j : json) : result json :=
  match p with
  | OpenWeatherMap =>
      weather <-- dict_get j "weather" (JArr [JObj []]) ;;;
      first <-- getitem0 weather ;;;
      dict_get first "description" (JStr "")
  | WeatherAPI =>
      cur <-- dict_get j "current" (JObj []) ;;;
      c <-- dict_get cur "condition" (JObj []) ;;;
      dict_get c "text" (JStr "")
  end.

Definition location_of (p : provider) (j : json) : result json :=
  match p with
  | OpenWeatherMap =>
      name <-- dict_get j "name" (JStr "") ;;;
      sys <-- dict_get j "sys" (JObj []) ;;;
      country <-- dict_get sys "country" (JStr "") ;;;
      coord <-- dict_get j "coord" (JObj []) ;;;
      lat <-- dict_get coord "lat" JNull ;;;
      lon <-- dict_get coord "lon" JNull ;;;
      Ok (location_record (comma name country) lat lon)
  | WeatherAPI =>
      loc <-- dict_get j "location" (JObj []) ;;;
      name <-- dict_get loc "name" (JStr "") ;;;
      country <-- dict_get loc "country" (JStr "") ;;;
      lat <-- dict_get loc "lat" JNull ;;;
      lon <-- dict_get loc "lon" JNull ;;;
      Ok (location_record (comma name country) lat lon)
  end.

Definition nothing : extracted :=
  {| x_temp := None; x_feels := None; x_humidity := None; x_cond := None;
     x_location := None |}.

(** The fields a response yields, each read only if the previous ones
    were. *)
Definition extract (p : provider) (j : json) : extracted :=
  match temp_of p j with
  | Raise _ => nothing
  | Ok t =>
  match feels_of p j with
  | Raise _ => {| x_temp := Some t; x_feels := None; x_humidity := None;
                  x_cond := None; x_location := None |}
  | Ok f =>
  match humidity_of p j with
  | Raise _ => {| x_temp := Some t; x_feels := Some f; x_humidity := None;
                  x_cond := None; x_location := None |}
  | Ok h =>
  match cond_of p j with
  | Raise _ => {| x_temp := Some t; x_feels := Some f; x_humidity := Some h;
                  x_cond := None; x_location := None |}
  | Ok c =>
      {| x_temp := Some t; x_feels := Some f; x_humidity := Some h;
         x_cond := Some c; x_location := to_option (location_of p j) |}
  end end end end.

(** What a provider's request returned yields; a failed request, nothing. *)
Definition report (pr : provider * result json) : extracted :=
  match snd pr with
  | Ok j => extract (fst pr) j
  | Raise _ => nothing
  end.

(** A key of [results] after one [try] block: created when the block
    reached its [setdefault], longer by one when it reached the [append]. *)
Definition key_after {A} (created : bool) (old : option (list A))
    (contrib : option A) : option (list A) :=
  if created
  then Some (match contrib with
             | Some v => or_empty old ++ [v]
             | None => or_empty old
             end)
  else old.

(** Whether the block of provider [p] reached
    [results.setdefault("temps", [])]: OpenWeather's does as soon as the
    request returned, WeatherAPI's after [wa.get("current", {})]. *)
Definition temps_created (p : provider) (j : json) : bool :=
  match p with
  | OpenWeatherMap => true
  | WeatherAPI => is_ok (dict_get j "current" (JObj []))
  end.

(** Whether it reached [results.setdefault("conds", [])]: OpenWeather's
    once the condition is read, WeatherAPI's before reading it. *)
Definition conds_created (p : provider) (j : json) : bool :=
  match p with
  | OpenWeatherMap => is_some (x_cond (extract p j))
  | WeatherAPI => is_some (x_humidity (extract p j))
  end.

(** [results] after the [try] block of provider [p] whose request
    returned [j]. *)
Definition absorb (p : provider) (j : json) (rd : results_dict) : results_dict :=
  let x := extract p j in
  {| temps := key_after (temps_created p j) (temps rd) (x_temp x);
     feels := key_after (is_some (x_temp x)) (feels rd) (x_feels x);
     humidities := key_after (is_some (x_feels x)) (humidities rd) (x_humidity x);
     conds := key_after (conds_created p j) (conds rd) (x_cond x) |}.

Definition absorb_response (pr : provider * result json) (rd : results_dict)
  : results_dict :=
  match snd pr with
  | Ok j => absorb (fst pr) j rd
  | Raise _ => rd
  end.

(** The variable [location] after a [try] block. *)
Definition rebind (pr : provider * result json) (loc : option json)
  : option json :=
  match x_location (report pr) with
  | Some l => Some l
  | None => loc
  end.


(** [results] and [location] after the blocks of all the providers. *)
Definition absorb_all (rs : list (provider * result json)) : results_dict :=
  fold_left (fun rd pr => absorb_response pr rd) rs no_results.

Definition rebind_all (rs : list (provider * result json)) : option json :=
  fold_left (fun loc pr => rebind pr loc) rs None.



(** A provider succeeded when its [try] block ran to its end. *)
Definition succeeded (pr : provider * result json) : bool :=
  is_some (x_location (report pr)).

(** What the requests of the configured providers returned, in the order
    the program makes them. *)
Definition responses (city : string) (w : world) : list (provider * result json) :=
  let (first, w1) :=
    if configured (OPENWEATHER_API_KEY cfg)
    then let (r, w1) := openweather_current_request cfg city w in
         ([(OpenWeatherMap, r)], w1)
    else ([], w) in
  first ++
  (if configured (WEATHERAPI_KEY cfg)
   then [(WeatherAPI, fst (weatherapi_current_request cfg city w1))]
   else []).

Definition reported_temps (rs : list (provider * result json)) : list Q :=
  flat_map (fun pr => opt_list (x_temp (report pr))) rs.
Definition reported_feels (rs : list (provider * result json)) : list Q :=
  flat_map (fun pr => opt_list (x_feels (report pr))) rs.
Definition reported_humidities (rs : list (provider * result json)) : list Z :=
  flat_map (fun pr => opt_list (x_humidity (report pr))) rs.
Definition reported_conds (rs : list (provider * result json)) : list json :=
  flat_map (fun pr => opt_list (x_cond (report pr))) rs.
Definition reported_locations (rs : list (provider * result json)) : list json :=
  flat_map (fun pr => opt_list (x_location (report pr))) rs.

(** The day entries the two forecast [try] blocks leave behind. *)
Definition collected_frame (city : string) (days : Z) (w : world) : fc_frame :=
  let days := Z.min days MAX_FORECAST_DAYS in
  snd ((fc_provider_block (WEATHERAPI_KEY cfg) "WeatherAPI forecast failed: %s"
          (weatherapi_forecast_body cfg city days) ;;
        fc_provider_block (OPENWEATHER_API_KEY cfg) "OpenWeather forecast failed: %s"
          (openweather_forecast_body cfg city days)) (fc_enter w)).

Definition collected (city : string) (days : Z) (w : world)
  : list (json * day_lists) :=
  daily_aggregate (collected_frame city days w).

End WithRuntime.

(** What a day's [avg_c] must be for the values [l] recorded for the
    day: the mean, rounded, of those that are not [None]; [None] when
    there is none. *)
Definition is_mean_of (v : option Q) (l : list json) : Prop :=
  match not_none l with
  | [] => v = None
  | _ => exists qs, numbers (not_none l) = Some qs /\
                    v = Some (round2 (average qs))
  end.

(** What [min_c] must be: the least of them, rounded. *)
Definition is_min_of (v : option Q) (l : list json) : Prop :=
  match not_none l with
  | [] => v = None
  | _ => exists qs m, numbers (not_none l) = Some qs /\ In m qs /\
                      (forall x, In x qs -> (m <= x)%Q) /\
                      v = Some (round2 m)
  end.

(** What [max_c] must be: the greatest of them, rounded. *)
Definition is_max_of (v : option Q) (l : list json) : Prop :=
  match not_none l with
  | [] => v = None
  | _ => exists qs m, numbers (not_none l) = Some qs /\ In m qs /\
                      (forall x, In x qs -> (x <= m)%Q) /\
                      v = Some (round2 m)
  end.

(** An event that is not a request carrying a day count other than [d]. *)
Definition sends_days (d : Z) (e : event) : Prop :=
  match e with
  | Get _ params =>
      match assoc "days" params with
      | Some v => v = JInt d
      | None => True
      end
  | _ => True
  end.

(** [w'] is [w] after some events, all of which satisfy [P]. *)
Definition extends (P : event -> Prop) (w w' : world) : Prop :=
  exists t, trace w' = trace w ++ t /\ Forall P t.

(** A computation whose every effect on the outside satisfies [P]. *)
Definition emits_only {S A} (world_in : S -> world) (P : event -> Prop)
    (m : M S A) : Prop :=
  forall s, extends P (world_in s) (world_in (snd (m s))).

(** A computation that keeps the invariant [I] of its state, whether it
    returns or raises. *)
Definition preserves {S A} (I : S -> Prop) (m : M S A) : Prop :=
  forall s, I s -> I (snd (m s)).

(** The request of a provider failed. *)
Definition request_failed (pr : provider * result json) : bool :=
  negb (is_ok (snd pr)).

(** What one scripted attempt amounts to for the caller of
    [requests.get], [raise_for_status] and [json]. *)
Definition exchange (a : attempt) : result json :=
  match outcome a with
  | NoResponse true => Raise (RequestException Timeout)
  | NoResponse false => Raise (RequestException ConnectionError)
  | Responded st b =>
      if (400 <=? st) && (st <? 600)
      then Raise (RequestException (HTTPError st))
      else match b with
           | Some j => Ok j
           | None => Raise (RequestException InvalidJSON)
           end
  end.


End Reports.

(* ================================================================== *)
(** * Several callers at once

    The development server handles each request in a thread of its own.
    A caller of the [cached] wrapper goes through three steps, between
    which other callers may run: the lookup [cache[k]], the call of the
    wrapped function, and the store [cache[k] = v]. *)
(* ================================================================== *)

Module Threads.
Import Py Py.Notations Net Agg Cache.
Local Open Scope py_scope.

(** Where a caller stands in the wrapper. *)
Inductive pc : Type :=
| AtLookup
| AtFunc
| AtStore (v : cached_value)
| Returned (r : result cached_value).

(** The callers, the process they share, and how many times the wrapped
    function has been entered so far. *)
Record pool : Type := {
  callers : list pc;
  shared : process;
  executions : nat
}.




Fixpoint replace_nth {A} (i : nat) (x : A) (l : list A) : list A :=
  match l, i with
  | [], _ => []
  | _ :: rest, O => x :: rest
  | y :: rest, S i' => y :: replace_nth i' x rest
  end.

Section WithRuntime.
Context `{RT : Runtime}.
Variable cfg : config.
Variable k : cache_key.
Variable func : M world cached_value.

(** One step of one caller: its next position, the process after the
    step, and whether the step entered the wrapped function. *)
Definition step_caller (p : pc) (s : process) : pc * process * nat :=
  match p with
  | AtLookup =>
      match lookup k s with
      | (Ok (Some v), s') => (Returned (Ok v), s', O)
      | (_, s') => (AtFunc, s', O)
      end
  | AtFunc =>
      match io func s with
      | (Ok v, s') => (AtStore v, s', 1%nat)
      | (Raise e, s') => (Returned (Raise e), s', 1%nat)
      end
  | AtStore v => (Returned (Ok v), snd (store cfg k v s), O)
  | Returned r => (Returned r, s, O)
  end.

(** The scheduler lets caller [i] make its next step. *)
Definition step (P : pool) (i : nat) : pool :=
  match nth_error (callers P) i with
  | None => P
  | Some p =>
      let '(p', s', n) := step_caller p (shared P) in
      {| callers := replace_nth i p' (callers P);
         shared := s';
         executions := (executions P + n)%nat |}
  end.

Definition run (schedule : list nat) (P : pool) : pool :=
  fold_left step schedule P.

(** [n] callers that have all just entered the wrapper. *)
Definition start (n : nat) (s : process) : pool :=
  {| callers := repeat AtLookup n; shared := s; executions := O |}.

(** Every caller looks up before any caller stores: all the lookups, then
    all the calls, then all the stores. *)
Definition stampede (n : nat) : list nat := seq 0 n ++ seq 0 n ++ seq 0 n.



End WithRuntime.
End Threads.

(* ================================================================== *)
(** * Concrete configurations, payloads and worlds *)
(* ================================================================== *)

Module Examples.
Import Py Net Agg Cache Routes.

(** Digits of a decimal literal, most significant first. *)
Definition digit_of (c : ascii) : option Z :=
  let n := Z.of_nat (nat_of_ascii c) in
  if (48 <=? n) && (n <=? 57) then Some (n - 48) else None.

Fixpoint digits (s : string) (acc : Z) : option Z :=
  match s with
  | EmptyString => Some acc
  | String c rest =>
      match digit_of c with
      | Some d => digits rest (10 * acc + d)
      | None => None
      end
  end.

Definition decimal (s : string) : option Z :=
  match s with
  | EmptyString => None
  | String "-" rest =>
      match rest with
      | EmptyString => None
      | _ => option_map Z.opp (digits rest 0)
      end
  | _ => digits s 0
  end.

(** A runtime for the examples.  It reads plain decimal integers; the
    examples give it no string to read as a number but the [days]
    argument, no value but strings to print, and no timestamp but 0,
    whose day is 1970-01-01. *)
Definition example_runtime : Runtime := {|
  float_of_str := fun s => option_map inject_Z (decimal s);
  int_of_str := decimal;
  repr := fun _ => "?";
  gmtime_date := fun _ => Ok "1970-01-01"
|}.

Definition both_keys : config :=
  {| OPENWEATHER_API_KEY := "ow-key"; WEATHERAPI_KEY := "wa-key";
     CACHE_TTL_SECONDS := 300; CACHE_MAXSIZE := 1000 |}.

Definition openweather_only : config :=
  {| OPENWEATHER_API_KEY := "ow-key"; WEATHERAPI_KEY := "";
     CACHE_TTL_SECONDS := 300; CACHE_MAXSIZE := 1000 |}.

Definition weatherapi_only : config :=
  {| OPENWEATHER_API_KEY := ""; WEATHERAPI_KEY := "wa-key";
     CACHE_TTL_SECONDS := 300; CACHE_MAXSIZE := 1000 |}.

Definition no_keys : config :=
  {| OPENWEATHER_API_KEY := ""; WEATHERAPI_KEY := "";
     CACHE_TTL_SECONDS := 300; CACHE_MAXSIZE := 1000 |}.

(** A 200 response with body [j], after 120 ms. *)
Definition ok_200 (j : json) : attempt :=
  {| latency := 120; outcome := Responded 200 (Some j) |}.

Definition status_only (st : Z) : attempt :=
  {| latency := 80; outcome := Responded st None |}.

Definition world_of (net : list attempt) : world :=
  {| clock := 0; network := net; trace := [] |}.

Definition fresh (net : list attempt) : process :=
  {| cache := []; env := world_of net |}.

(** An OpenWeather current-conditions payload. *)
Definition ow_current (temp humidity : Q) (description : string) : json :=
  JObj [("coord", JObj [("lon", JNum (-1 # 8)); ("lat", JNum (103 # 2))]);
        ("weather", JArr [JObj [("description", JStr description)]]);
        ("main", JObj [("temp", JNum temp); ("humidity", JNum humidity)]);
        ("sys", JObj [("country", JStr "GB")]);
        ("name", JStr "London")].

(** A WeatherAPI current-conditions payload. *)
Definition wa_current (temp humidity : Q) (text : string) : json :=
  JObj [("location", JObj [("name", JStr "London");
                           ("country", JStr "United Kingdom");
                           ("lat", JNum (103 # 2)); ("lon", JNum (-1 # 8))]);
        ("current", JObj [("temp_c", JNum temp); ("humidity", JNum humidity);
                          ("condition", JObj [("text", JStr text)])])].


Definition ow_no_weather_items : json :=
  JObj [("weather", JArr []);
        ("main", JObj [("temp", JNum 20); ("humidity", JNum 70)]);
        ("name", JStr "London")].


Definition ow_bad_coord : json :=
  JObj [("coord", JStr "51.5,-0.12");
        ("weather", JArr [JObj [("description", JStr "clear sky")]]);
        ("main", JObj [("temp", JNum 20); ("humidity", JNum 70)]);
        ("name", JStr "London")].

(** A WeatherAPI forecast day. *)
Definition wa_day (d : string) (mn mx avg : Q) (text : string) : json :=
  JObj [("date", JStr d);
        ("day", JObj [("mintemp_c", JNum mn); ("maxtemp_c", JNum mx);
                      ("avgtemp_c", JNum avg);
                      ("condition", JObj [("text", JStr text)])])].

Definition wa_forecast (days : list json) : json :=
  JObj [("location", JObj [("name", JStr "London");
                           ("country", JStr "United Kingdom");
                           ("lat", JNum (103 # 2)); ("lon", JNum (-1 # 8))]);
        ("forecast", JObj [("forecastday", JArr days)])].

(** OpenWeather's geocoding answer and a One Call day. *)
Definition ow_geocode : json :=
  JArr [JObj [("name", JStr "London"); ("lat", JNum (103 # 2));
              ("lon", JNum (-1 # 8))]].

Definition ow_day (dt : Z) (mn mx day : Q) (description : string) : json :=
  JObj [("dt", JInt dt);
        ("temp", JObj [("min", JNum mn); ("max", JNum mx); ("day", JNum day)]);
        ("weather", JArr [JObj [("description", JStr description)]])].

Definition ow_onecall (days : list json) : json :=
  JObj [("daily", JArr days)].

(** Both providers answer for current conditions. *)
Definition two_providers : world :=
  world_of [ok_200 (ow_current 20 71 "clear sky");
            ok_200 (wa_current 22 72 "Sunny")].

(** OpenWeather's block fails on the empty ["weather"] list, after it has
    appended a temperature, a feels-like value and a humidity. *)
Definition openweather_partial : world :=
  world_of [ok_200 ow_no_weather_items; ok_200 (wa_current 22 72 "Rain")].


(** Both providers forecast the same day. *)
Definition forecast_two : world :=
  world_of [ok_200 (wa_forecast [wa_day "1970-01-01" 10 20 15 "Sunny"]);
            ok_200 ow_geocode;
            ok_200 (ow_onecall [ow_day 0 12 24 18 "rain"])].

(** WeatherAPI's second forecast day is not an object. *)
Definition forecast_broken : world :=
  world_of [ok_200 (wa_forecast [wa_day "2025-09-26" 10 20 15 "Sunny";
                                 JStr "oops"])].

(** The value of a result known to be one. *)
Definition value_or {A} (default : A) (r : result A) : A :=
  match r with Ok a => a | Raise _ => default end.

Definition no_answer : current_answer :=
  {| cur_location := JNull; temperature_c := 0; feels_like_c := 0;
     humidity := 0; condition := JNull; cur_sources := [] |}.

Definition no_forecast : forecast_answer :=
  {| fc_answer_location := JNull; forecast := []; fc_answer_sources := [] |}.

(** The answers in those worlds. *)
Definition london : current_answer :=
  value_or no_answer
    (fst (aggregated_current_from_providers (RT := example_runtime)
            both_keys "London" two_providers)).

Definition london_partial : current_answer :=
  value_or no_answer
    (fst (aggregated_current_from_providers (RT := example_runtime)
            both_keys "London" openweather_partial)).


Definition london_forecast : forecast_answer :=
  value_or no_forecast
    (fst (aggregated_forecast_from_providers (RT := example_runtime)
            both_keys "London" 3 forecast_two)).


(** The two location records of [two_providers]. *)
Definition openweather_london : json :=
  location_record "London, GB" (JNum (103 # 2)) (JNum (-1 # 8)).

Definition weatherapi_london : json :=
  location_record "London, United Kingdom" (JNum (103 # 2)) (JNum (-1 # 8)).

(** Enough answers for two fan-outs for current conditions. *)
Definition two_fanouts : list attempt :=
  [ok_200 (ow_current 20 71 "clear sky"); ok_200 (wa_current 22 72 "Sunny");
   ok_200 (ow_current 20 71 "clear sky"); ok_200 (wa_current 22 72 "Sunny")].

(** A 200 response whose body is not JSON. *)
Definition not_json : attempt :=
  {| latency := 80; outcome := Responded 200 None |}.

Definition query (location : string) : request :=
  {| arg_location := Some location; arg_days := None |}.

Definition query_days (location days : string) : request :=
  {| arg_location := Some location; arg_days := Some days |}.

(** The process after [/weather/current?location=London] was served
    from [two_fanouts], and after [location=london] was served next. *)
Definition after_London : process :=
  snd (current_weather (RT := example_runtime) both_keys (query "London")
         (fresh two_fanouts)).


(** The process after [/weather/forecast?location=London&days=3] was
    served from [forecast_two]. *)
Definition after_forecast : process :=
  snd (forecast_weather (RT := example_runtime) both_keys
         (query_days "London" "3") {| cache := []; env := forecast_two |}).

(** Two callers of [cached_current("London")] in a stampede. *)
Definition two_callers : Threads.pool :=
  Threads.run both_keys (KeyCurrent "London")
    (current_func (RT := example_runtime) both_keys "London")
    (Threads.stampede 2) (Threads.start 2 (fresh two_fanouts)).

End Examples.

(* ================================================================== *)
(** * [/locations/search] *)
(* ================================================================== *)

Module Search.
Import Py Py.Notations Net Agg Routes.
Local Open Scope py_scope.

(** The payload [locations_search] gives to [jsonify]. *)
Inductive search_payload : Type :=
| Results (results : list json)
| Failure (error : string)
| FailureDetails (error : string) (details : exn).

Record search_response : Type := {
  search_payload_of : search_payload;
  search_status : Z
}.

Definition reply (p : search_payload) (st : Z) : search_response :=
  {| search_payload_of := p; search_status := st |}.

(** [[f(x) for x in xs]]: the first item on which [f] raises ends it. *)
Fixpoint comprehension {A B} (f : A -> result B) (xs : list A)
  : result (list B) :=
  match xs with
  | [] => Ok []
  | x :: rest =>
      y <-- f x ;;; ys <-- comprehension f rest ;;; Ok (y :: ys)
  end.

Section WithRuntime.
Context `{RT : Runtime}.
Variable cfg : config.

(** [{"name": f"{g.get('name')}, {g.get('country')}", "lat": g.get("lat"),
     "lon": g.get("lon")}]: a field that is missing is [None], which an
    f-string prints as [None]. *)
Definition found (g : json) : result json :=
  name <-- dict_get g "name" JNull ;;;
  country <-- dict_get g "country" JNull ;;;
  lat <-- dict_get g "lat" JNull ;;;
  lon <-- dict_get g "lon" JNull ;;;
  Ok (location_record (comma name country) lat lon).

(** The two requests (lines 309 and 313). *)
Definition openweather_search_request (q : string) : M world json :=
  safe_request "http://api.openweathermap.org/geo/1.0/direct"
    [("q", JStr q); ("limit", JInt 10);
     ("appid", JStr (OPENWEATHER_API_KEY cfg))].

Definition weatherapi_search_request (q : string) : M world json :=
  safe_request "http://api.weatherapi.com/v1/search.json"
    [("key", JStr (WEATHERAPI_KEY cfg)); ("q", JStr q)].

(** The body of the [try] (lines 308-317). *)
Definition search_body (q : string) : M world search_response :=
  if configured (OPENWEATHER_API_KEY cfg) then
    ge <- openweather_search_request q ;;
    items <- lift (iterate ge) ;;
    results <- lift (comprehension found items) ;;
    ret (reply (Results (slice_to 10 results)) 200)
  else if configured (WEATHERAPI_KEY cfg) then
    wa <- weatherapi_search_request q ;;
    items <- lift (iterate wa) ;;
    results <- lift (comprehension found items) ;;
    ret (reply (Results results) 200)
  else
    ret (reply (Failure "No geocoding provider configured (set OPENWEATHER_API_KEY or WEATHERAPI_KEY).")
           500).

(** [locations_search()], given [request.args.get("q")]. *)
Definition locations_search (arg_q : option string) : M world search_response :=
  let q := strip (or_default arg_q "") in
  if String.eqb q ""
  then ret (reply (Failure "q query parameter required") 400)
  else
    try_except (search_body q) any_exception (fun e =>
      log ERROR "locations_search error: %s" ;;
      ret (reply (FailureDetails "Failed to search locations" e) 502)).

End WithRuntime.
End Search.

(* ================================================================== *)
(** * [/health] and the hook that records the start time *)
(* ================================================================== *)

Module Health.
Import Py Py.Notations Net.
Local Open Scope py_scope.

(** The application object and the world: the attribute
    [app.start_time], in milliseconds, is absent until it is first set. *)
Record server : Type := {
  start_time : option Z;
  outside : world
}.

(** [time.time()], in milliseconds. *)
Definition time_time (s : server) : Z := clock (outside s).

(** The [before_request] hook:
    [if not hasattr(app, "start_time"): app.start_time = time.time()]. *)
Definition _record_start_time : M server unit :=
  modify (fun s =>
    match start_time s with
    | Some _ => s
    | None => {| start_time := Some (time_time s); outside := outside s |}
    end).

(** The payload of [/health]. *)
Record health_response : Type := {
  health_state : string;
  uptime_seconds : Z;
  health_status : Z
}.

(** [health()]: [int(time.time() - app.start_time)] cuts the seconds
    toward zero; reading the attribute before it is set is an
    [AttributeError]. *)
Definition health : M server health_response :=
  fun s =>
    match start_time s with
    | None => (Raise AttributeError, s)
    | Some t0 =>
        (Ok {| health_state := "ok";
               uptime_seconds := Z.quot (time_time s - t0) 1000;
               health_status := 200 |}, s)
    end.

(** Time passing between two requests. *)
Definition wait (ms : Z) (s : server) : server :=
  {| start_time := start_time s;
     outside := {| clock := clock (outside s) + ms;
                   network := network (outside s);
                   trace := trace (outside s) |} |}.

End Health.

(* ================================================================== *)
(** * What the program asks of the providers *)
(* ================================================================== *)

Module Traffic.
Import Py Py.Notations Net Agg Cache.

Definition is_request (e : event) : bool :=
  match e with Get _ _ => true | _ => false end.

(** An event that is no request: a log entry or a sleep. *)
Definition no_request (e : event) : Prop := is_request e = false.

(** Between [w] and [w'] the program made the requests [l], in this
    order, and no other. *)
Definition requested (l : list event) (w w' : world) : Prop :=
  exists t, trace w' = trace w ++ t /\ filter is_request t = l.

(** The clock [ms] milliseconds later, nothing else changed. *)
Definition later (ms : Z) (s : process) : process :=
  {| cache := cache s;
     env := {| clock := clock (env s) + ms; network := network (env s);
               trace := trace (env s) |} |}.

End Traffic.

(* ================================================================== *)
(** * Descriptions the properties of the routes are stated with *)
(* ================================================================== *)

Module Describe.
Import Py Py.Notations Net Agg Cache Routes Search Health Traffic.

Section WithRuntime.
Context `{RT : Runtime}.
Variable cfg : config.

(** The value of a field of an object, [None] when it has none. *)
Definition field (k : string) (kv : list (string * json)) : json :=
  match assoc k kv with Some v => v | None => JNull end.

(** The entry of the search answer for one object of a provider's list. *)
Definition entry_of (kv : list (string * json)) : json :=
  location_record (comma (field "name" kv) (field "country" kv))
    (field "lat" kv) (field "lon" kv).

Definition is_object (j : json) : bool :=
  match j with JObj _ => true | _ => false end.

(** The requests of the program, one by one. *)
Definition openweather_current_get (city : string) : event :=
  Get "https://api.openweathermap.org/data/2.5/weather"
    [("q", JStr city); ("appid", JStr (OPENWEATHER_API_KEY cfg));
     ("units", JStr "metric")].

Definition weatherapi_current_get (city : string) : event :=
  Get "http://api.weatherapi.com/v1/current.json"
    [("key", JStr (WEATHERAPI_KEY cfg)); ("q", JStr city)].

Definition weatherapi_forecast_get (city : string) (days : Z) : event :=
  Get "http://api.weatherapi.com/v1/forecast.json"
    [("key", JStr (WEATHERAPI_KEY cfg)); ("q", JStr city); ("days", JInt days)].

Definition geocode_get (city : string) : event :=
  Get "http://api.openweathermap.org/geo/1.0/direct"
    [("q", JStr city); ("limit", JInt 1);
     ("appid", JStr (OPENWEATHER_API_KEY cfg))].

Definition onecall_get (lat lon : json) : event :=
  Get "https://api.openweathermap.org/data/2.5/onecall"
    [("lat", lat); ("lon", lon); ("appid", JStr (OPENWEATHER_API_KEY cfg));
     ("units", JStr "metric"); ("exclude", JStr "minutely,hourly,alerts")].

Definition openweather_search_get (q : string) : event :=
  Get "http://api.openweathermap.org/geo/1.0/direct"
    [("q", JStr q); ("limit", JInt 10);
     ("appid", JStr (OPENWEATHER_API_KEY cfg))].

Definition weatherapi_search_get (q : string) : event :=
  Get "http://api.weatherapi.com/v1/search.json"
    [("key", JStr (WEATHERAPI_KEY cfg)); ("q", JStr q)].

(** The key of [sources] under which a provider's payload is kept. *)
Definition source_name (p : Reports.provider) : string :=
  match p with
  | Reports.OpenWeatherMap => "openweathermap"
  | Reports.WeatherAPI => "weatherapi"
  end.

(** The payloads of the providers whose request returned one. *)
Definition returned (rs : list (Reports.provider * result json))
  : list (string * json) :=
  flat_map (fun pr => match snd pr with
                      | Ok j => [(source_name (fst pr), j)]
                      | Raise _ => []
                      end) rs.

(** Each date comes before all the dates after it. *)
Fixpoint ascending (dates : list json) : Prop :=
  match dates with
  | [] => True
  | d :: rest => Forall (fun d' => py_ltb d d' = true) rest /\ ascending rest
  end.

(** Keys a dict can hold together: each can be hashed and none equals
    another. *)
Fixpoint distinct (keys : list json) : Prop :=
  match keys with
  | [] => True
  | k :: rest =>
      hashable k = true /\ existsb (fun k' => py_eqb k' k) rest = false /\
      distinct rest
  end.

(** The dates collected so far can be the keys of one dict. *)
Definition keys_distinct (f : fc_frame) : Prop :=
  distinct (map fst (daily_aggregate f)).

(** The cache holds no more entries than [CACHE_MAXSIZE]. *)
Definition within_capacity (s : process) : Prop :=
  Z.of_nat (List.length (cache s)) <= CACHE_MAXSIZE cfg.

(** A value of the kind the function cached under [k] returns: an
    answer for current conditions under the key of [cached_current], a
    forecast under a key of [cached_forecast]. *)
Definition fits (k : cache_key) (v : cached_value) : bool :=
  match k, v with
  | KeyCurrent _, VCurrent _ => true
  | KeyForecast _ _, VForecast _ => true
  | _, _ => false
  end.

(** Every entry of the one shared cache holds a value of the kind its
    key calls for. *)
Definition unmixed (s : process) : Prop :=
  forallb (fun e => fits (key e) (value e)) (cache s) = true.

(** What One Call returned, if it was asked at all: it is asked when
    the geocoder's answer is truthy and its first item has a latitude
    and a longitude. *)
Definition onecall_result (city : string) (w : world) : option (result json) :=
  match safe_request "http://api.openweathermap.org/geo/1.0/direct"
          [("q", JStr city); ("limit", JInt 1);
           ("appid", JStr (OPENWEATHER_API_KEY cfg))] w with
  | (Ok ge, w1) =>
      if truthy ge then
        match getitem0 ge with
        | Ok g0 =>
            match getitem g0 "lat", getitem g0 "lon" with
            | Ok lat, Ok lon =>
                Some (fst (safe_request
                             "https://api.openweathermap.org/data/2.5/onecall"
                             [("lat", lat); ("lon", lon);
                              ("appid", JStr (OPENWEATHER_API_KEY cfg));
                              ("units", JStr "metric");
                              ("exclude", JStr "minutely,hourly,alerts")] w1))
            | _, _ => None
            end
        | Raise _ => None
        end
      else None
  | (Raise _, _) => None
  end.

(** The payloads a forecast keeps: WeatherAPI's forecast and One Call's
    answer, each if its request returned one. *)
Definition forecast_returned (city : string) (days : Z) (w : world)
  : list (string * json) :=
  let d := Z.min days MAX_FORECAST_DAYS in
  let (first, w1) :=
    if configured (WEATHERAPI_KEY cfg)
    then let (r, w1) := weatherapi_forecast_request cfg city d w in
         (match r with Ok wa => [("weatherapi", wa)] | Raise _ => [] end, w1)
    else ([], w) in
  first ++
  (if configured (OPENWEATHER_API_KEY cfg)
   then match onecall_result city w1 with
        | Some (Ok oc) => [("openweathermap", oc)]
        | _ => []
        end
   else []).

(** Whether the body of OpenWeather's loop (lines 226-235) runs to its
    end on [day], which is when it assigns [location]: the day is an
    object with a timestamp the calendar accepts, its ["temp"] is an
    object, and the first item of its ["weather"] is one. *)
Definition day_read (day : json) : bool :=
  is_ok
    (and_then (dict_get day "dt" JNull) (fun dt =>
     and_then (gmtime_date dt) (fun _ =>
     and_then (dict_get day "temp" (JObj [])) (fun temp =>
     and_then (dict_get temp "day" JNull) (fun _ =>
     and_then (dict_get day "weather" (JArr [JObj []])) (fun weather =>
     and_then (getitem0 weather) (fun first =>
     dict_get first "description" (JStr "")))))))).

(** The coordinates read off the geocoder's first match, [ge[0]["lat"]]
    and [ge[0]["lon"]], and what One Call then returned; nothing when
    the geocoder's request failed, when its answer is falsy or when a
    coordinate is missing. *)
Definition geocoded (city : string) (w : world)
  : option (json * json * result json) :=
  match safe_request "http://api.openweathermap.org/geo/1.0/direct"
          [("q", JStr city); ("limit", JInt 1);
           ("appid", JStr (OPENWEATHER_API_KEY cfg))] w with
  | (Ok ge, w1) =>
      if truthy ge then
        match getitem0 ge with
        | Ok g0 =>
            match getitem g0 "lat", getitem g0 "lon" with
            | Ok lat, Ok lon =>
                Some (lat, lon,
                      fst (safe_request
                             "https://api.openweathermap.org/data/2.5/onecall"
                             [("lat", lat); ("lon", lon);
                              ("appid", JStr (OPENWEATHER_API_KEY cfg));
                              ("units", JStr "metric");
                              ("exclude", JStr "minutely,hourly,alerts")] w1))
            | _, _ => None
            end
        | Raise _ => None
        end
      else None
  | (Raise _, _) => None
  end.

(** The days OpenWeather's loop ranges over: [oc.get("daily", [])[:days]]. *)
Definition onecall_days (oc : json) (d : Z) : result (list json) :=
  and_then (dict_get oc "daily" (JArr [])) (fun daily => iterate_slice daily d).

(** The record OpenWeather's forecast block assigns to [location], if
    it assigns one: the city as it was asked for with the geocoder's
    coordinates, assigned at the end of the loop body, so once the body
    has run to its end on the first day. *)
Definition openweather_assigns (city : string) (d : Z) (w : world)
  : option json :=
  if configured (OPENWEATHER_API_KEY cfg) then
    match geocoded city w with
    | Some (lat, lon, Ok oc) =>
        match onecall_days oc d with
        | Ok (day :: _) =>
            if day_read day then Some (location_record city lat lon) else None
        | _ => None
        end
    | _ => None
    end
  else None.

(** The record WeatherAPI's forecast block assigns to [location], if it
    assigns one: that of its response. *)
Definition weatherapi_assigns (city : string) (d : Z) (w : world)
  : option json :=
  if configured (WEATHERAPI_KEY cfg) then
    match fst (weatherapi_forecast_request cfg city d w) with
    | Ok wa => Reports.to_option (Reports.location_of Reports.WeatherAPI wa)
    | Raise _ => None
    end
  else None.

(** The world after WeatherAPI's forecast request, from which
    OpenWeather's requests are made. *)
Definition after_weatherapi (city : string) (d : Z) (w : world) : world :=
  if configured (WEATHERAPI_KEY cfg)
  then snd (weatherapi_forecast_request cfg city d w)
  else w.

(** How many times the request of a provider goes out: once or twice
    when the provider's key is set, never when it is not. *)
Definition attempts (key : string) (n : nat) : Prop :=
  if configured key then n = 1%nat \/ n = 2%nat else n = 0%nat.

End WithRuntime.
End Describe.

(* ================================================================== *)
(** * More concrete worlds *)
(* ================================================================== *)

Module Cases.
Import Py Net Agg Cache Routes Search Health Traffic Describe Examples.

(** What a geocoder finds for "Paris": two objects, the second without
    a country. *)
Definition paris : list (list (string * json)) :=
  [[("name", JStr "Paris"); ("country", JStr "FR");
    ("lat", JNum (4886 # 100)); ("lon", JNum (235 # 100))];
   [("name", JStr "Paris"); ("state", JStr "Texas");
    ("lat", JNum (3366 # 100)); ("lon", JNum (-9555 # 100))]].

Definition paris_found : world := world_of [ok_200 (JArr (map JObj paris))].

(** The same list with a string in the place of the second object. *)
Definition paris_spoiled : world :=
  world_of [ok_200 (JArr [JObj (hd [] paris); JStr "Paris, Texas"])].

(** The entries of the search answer for [paris]. *)
Definition paris_entries : list json :=
  [location_record "Paris, FR" (JNum (4886 # 100)) (JNum (235 # 100));
   location_record "Paris, None" (JNum (3366 # 100)) (JNum (-9555 # 100))].

(** WeatherAPI forecasts two days and gives the later one first. *)
Definition two_days : world :=
  world_of [ok_200 (wa_forecast [wa_day "2025-09-27" 11 21 16 "Cloudy";
                                 wa_day "2025-09-26" 10 20 15 "Sunny"])].

(** The answers in that world, asked for two days and for one. *)
Definition both_days : forecast_answer :=
  value_or no_forecast
    (fst (aggregated_forecast_from_providers (RT := example_runtime)
            weatherapi_only "London" 2 two_days)).

Definition first_day : forecast_answer :=
  value_or no_forecast
    (fst (aggregated_forecast_from_providers (RT := example_runtime)
            weatherapi_only "London" 1 two_days)).

(** The process after [cached_current("London")] was served from
    [two_fanouts]. *)
Definition London_cached : process :=
  snd (cached_current (RT := example_runtime) both_keys "London"
         (fresh two_fanouts)).

(** An application that has served no request yet. *)
Definition just_started : server :=
  {| start_time := None; outside := world_of [] |}.

End Cases.

(* ================================================================== *)
(** * Properties of [safe_request] *)
(* ================================================================== *)

Section RequestFacts.
Import Py Py.Notations Net.

(** One HTTP exchange consumes the next scripted attempt, and its result
    depends on that attempt only. *)
Lemma fetch_next : forall url params net,
  exists r t, forall w, network w = net ->
    fetch url params w =
    (r, {| clock := clock w + t; network := tl net;
           trace := trace w ++ [Get url params] |}).
Proof.
  intros url params net.
  unfold fetch, bind, requests_get, raise_for_status, resp_json.
  destruct net as [|[lat o] rest].
  - exists (Raise (RequestException ConnectionError)), 0.
    intros w E. rewrite E. reflexivity.
  - destruct o as [[]|st b].
    + eexists _, lat. intros w E. rewrite E. reflexivity.
    + eexists _, lat. intros w E. rewrite E. reflexivity.
    + destruct ((400 <=? st) && (st <? 600)) eqn:C.
      * eexists _, lat. intros w E. rewrite E. cbn. rewrite C. reflexivity.
      * destruct b; eexists _, lat; intros w E; rewrite E; cbn; rewrite C;
          reflexivity.
Qed.

(** Whatever [fetch] raises is a [RequestException]. *)
Lemma fetch_raises_request_exception : forall url params w e w',
  fetch url params w = (Raise e, w') -> is_RequestException e = true.
Proof.
  intros url params w e w'.
  unfold fetch, bind, requests_get, raise_for_status, resp_json.
  destruct (network w) as [|a rest]; cbn.
  - intros H; inversion H; reflexivity.
  - destruct a as [lat [[]|st b]]; cbn; try (intros H; inversion H; reflexivity).
    destruct ((400 <=? st) && (st <? 600)); cbn;
      [intros H; inversion H; reflexivity|].
    destruct b; cbn; intros H; inversion H; reflexivity.
Qed.

(** The result of [safe_request] and the attempts it leaves depend on
    the scripted attempts only, not on the clock or on the log. *)
Lemma safe_request_network : forall url params w w',
  network w' = network w ->
  fst (safe_request url params w') = fst (safe_request url params w) /\
  network (snd (safe_request url params w')) =
  network (snd (safe_request url params w)).
Proof.
  intros url params w w' E.
  unfold safe_request, try_except.
  destruct (fetch_next url params (network w)) as (r & t & H1).
  rewrite (H1 w' E), (H1 w eq_refl).
  destruct r as [j|e]; [split; reflexivity|].
  assert (He : is_RequestException e = true)
    by (eapply fetch_raises_request_exception; exact (H1 w eq_refl)).
  rewrite He.
  destruct (fetch_next url params (tl (network w))) as (r2 & t2 & H2).
  unfold bind, log, emit, sleep, modify.
  rewrite !H2 by reflexivity.
  destruct r2; cbn; split; reflexivity.
Qed.

End RequestFacts.

(* ================================================================== *)
(** * The current-conditions aggregator, block by block *)
(* ================================================================== *)

Section CurrentFacts.
Import Py Py.Notations Net Agg Reports.
Context `{RT : Runtime}.
Variable cfg : config.

Ltac crack :=
  match goal with
  | |- context [getitem ?x _] => is_var x; destruct x; cbn
  | |- context [dict_get ?x _ _] => is_var x; destruct x; cbn
  | |- context [attr_get ?x] => is_var x; destruct x; cbn
  | |- context [getitem0 ?x] => is_var x; destruct x; cbn
  | |- context [match ?l with [] => _ | _ :: _ => _ end] => is_var l; destruct l; cbn
  | |- context [match ?s with EmptyString => _ | String _ _ => _ end] =>
      is_var s; destruct s; cbn
  | |- context [match assoc ?k ?kv with Some _ => _ | None => _ end] =>
      destruct (assoc k kv); cbn
  | |- context [match ?r with Ok _ => _ | Raise _ => _ end] => destruct r; cbn
  end.

Ltac close_block := eexists; split; reflexivity.

(** The body of the first [try] leaves in [results] and [location] what
    [absorb] and [rebind] say, whether it raises or not, and it raises
    exactly when the provider did not succeed. *)
Lemma openweather_body : forall city f,
  exists res,
    openweather_current_body cfg city f =
    (res,
     let r := fst (openweather_current_request cfg city (cur_world f)) in
     {| results := absorb_response (OpenWeatherMap, r) (results f);
        sources := match r with
                   | Ok j => assoc_set "openweathermap" j (sources f)
                   | Raise _ => sources f
                   end;
        location := rebind (OpenWeatherMap, r) (location f);
        cur_world := snd (openweather_current_request cfg city (cur_world f)) |}) /\
    is_ok res =
    succeeded (OpenWeatherMap,
               fst (openweather_current_request cfg city (cur_world f))).
Proof.
  intros city [[ts fs hs cs] src loc w].
  unfold openweather_current_body, bind at 1, cur_io at 1.
  cbn [results sources location cur_world].
  destruct (openweather_current_request cfg city w) as [[j|e] w1]; cbn;
    [|close_block].
  unfold succeeded, rebind, report, absorb_response, absorb, conds_created,
    temps_created, extract, temp_of, feels_of, humidity_of, cond_of,
    location_of; cbn.
  repeat (first [close_block | crack]).
Qed.

(** So does the body of the second. *)
Lemma weatherapi_body : forall city f,
  exists res,
    weatherapi_current_body cfg city f =
    (res,
     let r := fst (weatherapi_current_request cfg city (cur_world f)) in
     {| results := absorb_response (WeatherAPI, r) (results f);
        sources := match r with
                   | Ok j => assoc_set "weatherapi" j (sources f)
                   | Raise _ => sources f
                   end;
        location := rebind (WeatherAPI, r) (location f);
        cur_world := snd (weatherapi_current_request cfg city (cur_world f)) |}) /\
    is_ok res =
    succeeded (WeatherAPI,
               fst (weatherapi_current_request cfg city (cur_world f))).
Proof.
  intros city [[ts fs hs cs] src loc w].
  unfold weatherapi_current_body, bind at 1, cur_io at 1.
  cbn [results sources location cur_world].
  destruct (weatherapi_current_request cfg city w) as [[j|e] w1]; cbn;
    [|close_block].
  unfold succeeded, rebind, report, absorb_response, absorb, conds_created,
    temps_created, extract, temp_of, feels_of, humidity_of, cond_of,
    location_of; cbn.
  repeat (first [close_block | crack]).
Qed.

(** A [try] block never raises: it logs what its body raised. *)
Lemma provider_block_frame : forall key fmt body f res f',
  configured key = true ->
  body f = (res, f') ->
  exists w2,
    provider_block key fmt body f =
    (Ok tt, {| results := results f'; sources := sources f';
               location := location f'; cur_world := w2 |}) /\
    network w2 = network (cur_world f').
Proof.
  intros key fmt body f res f' Hc Hb. unfold provider_block, try_except.
  rewrite Hc, Hb. destruct res as [[]|e].
  - exists (cur_world f'). destruct f'. split; reflexivity.
  - cbn. eexists. split; reflexivity.
Qed.

Lemma openweather_block : forall city f,
  configured (OPENWEATHER_API_KEY cfg) = true ->
  exists w2,
    provider_block (OPENWEATHER_API_KEY cfg) "OpenWeather failed: %s"
      (openweather_current_body cfg city) f =
    (Ok tt,
     let r := fst (openweather_current_request cfg city (cur_world f)) in
     {| results := absorb_response (OpenWeatherMap, r) (results f);
        sources := match r with
                   | Ok j => assoc_set "openweathermap" j (sources f)
                   | Raise _ => sources f
                   end;
        location := rebind (OpenWeatherMap, r) (location f);
        cur_world := w2 |}) /\
    network w2 =
    network (snd (openweather_current_request cfg city (cur_world f))).
Proof.
  intros city f Hc. destruct (openweather_body city f) as (res & E & _).
  exact (provider_block_frame _ _ _ f res _ Hc E).
Qed.

Lemma weatherapi_block : forall city f,
  configured (WEATHERAPI_KEY cfg) = true ->
  exists w2,
    provider_block (WEATHERAPI_KEY cfg) "WeatherAPI failed: %s"
      (weatherapi_current_body cfg city) f =
    (Ok tt,
     let r := fst (weatherapi_current_request cfg city (cur_world f)) in
     {| results := absorb_response (WeatherAPI, r) (results f);
        sources := match r with
                   | Ok j => assoc_set "weatherapi" j (sources f)
                   | Raise _ => sources f
                   end;
        location := rebind (WeatherAPI, r) (location f);
        cur_world := w2 |}) /\
    network w2 =
    network (snd (weatherapi_current_request cfg city (cur_world f))).
Proof.
  intros city f Hc. destruct (weatherapi_body city f) as (res & E & _).
  exact (provider_block_frame _ _ _ f res _ Hc E).
Qed.

(** The two blocks together: the frame [merge_current] starts from. *)
Lemma current_program_merge : forall city w,
  exists src w2,
    current_program cfg city (cur_enter w) =
    merge_current
      {| results := absorb_all (responses cfg city w);
         sources := src;
         location := rebind_all (responses cfg city w);
         cur_world := w2 |}.
Proof.
  intros city w. unfold current_program, responses, absorb_all, rebind_all.
  unfold bind at 1.
  destruct (configured (OPENWEATHER_API_KEY cfg)) eqn:C1.
  - destruct (openweather_block city (cur_enter w) C1) as (w1 & H1 & N1).
    rewrite H1. cbn [cur_enter cur_world results sources location] in *.
    destruct (openweather_current_request cfg city w) as [r1 w1'] eqn:R1.
    cbn [fst snd] in *. unfold bind at 1.
    destruct (configured (WEATHERAPI_KEY cfg)) eqn:C2.
    + match goal with
      | |- context [provider_block _ _ _ ?f] =>
          destruct (weatherapi_block city f C2) as (w2 & H2 & N2); rewrite H2
      end.
      cbn [cur_world results sources location] in *.
      destruct (safe_request_network
                  "http://api.weatherapi.com/v1/current.json"
                  [("key", JStr (WEATHERAPI_KEY cfg)); ("q", JStr city)]
                  w1' w1 N1) as [E _].
      unfold weatherapi_current_request in *. rewrite E.
      cbn. eexists _, _. reflexivity.
    + unfold provider_block at 1. rewrite C2. cbn. eexists _, _. reflexivity.
  - unfold provider_block at 1. rewrite C1. cbn [ret]. unfold bind at 1.
    destruct (configured (WEATHERAPI_KEY cfg)) eqn:C2.
    + match goal with
      | |- context [provider_block _ _ _ ?f] =>
          destruct (weatherapi_block city f C2) as (w2 & H2 & N2); rewrite H2
      end.
      cbn. eexists _, _. reflexivity.
    + unfold provider_block at 1. rewrite C2. cbn. eexists _, _. reflexivity.
Qed.

End CurrentFacts.

(* ================================================================== *)
(** * What the merge inputs are *)
(* ================================================================== *)

Section MergeInputs.
Import Py Py.Notations Net Agg Reports.
Context `{RT : Runtime}.
Variable cfg : config.

(** A field is read only if the ones before it were. *)
Lemma extract_chain : forall p j,
  let x := extract p j in
  (is_some (x_location x) = true -> is_some (x_cond x) = true) /\
  (is_some (x_cond x) = true -> is_some (x_humidity x) = true) /\
  (is_some (x_humidity x) = true -> is_some (x_feels x) = true) /\
  (is_some (x_feels x) = true -> is_some (x_temp x) = true) /\
  (is_some (x_temp x) = true -> temps_created p j = true).
Proof.
  intros p j. unfold extract.
  assert (HT : is_ok (temp_of p j) = true -> temps_created p j = true).
  { destruct p; [reflexivity|]. unfold temp_of, temps_created.
    destruct (dict_get j "current" (JObj [])); cbn; auto. }
  destruct (temp_of p j); cbn; [|repeat split; discriminate].
  destruct (feels_of p j); cbn; [|repeat split; auto; discriminate].
  destruct (humidity_of p j); cbn; [|repeat split; auto; discriminate].
  destruct (cond_of p j); cbn; [|repeat split; auto; discriminate].
  repeat split; auto.
Qed.


Lemma key_after_items : forall A created (old : option (list A)) contrib,
  (created = false -> contrib = None) ->
  or_empty (key_after created old contrib) = or_empty old ++ opt_list contrib.
Proof.
  intros A [] old [v|] H; cbn; try rewrite app_nil_r; try reflexivity.
  discriminate (H eq_refl).
Qed.


Lemma not_true_none : forall A (o : option A),
  (is_some o = true -> false = true) -> o = None.
Proof. intros A [a|] H; [discriminate (H eq_refl)|reflexivity]. Qed.

(** Each key of [results] grows by what the provider reported for it. *)
Lemma absorb_items : forall pr rd,
  or_empty (temps (absorb_response pr rd)) =
    or_empty (temps rd) ++ opt_list (x_temp (report pr)) /\
  or_empty (feels (absorb_response pr rd)) =
    or_empty (feels rd) ++ opt_list (x_feels (report pr)) /\
  or_empty (humidities (absorb_response pr rd)) =
    or_empty (humidities rd) ++ opt_list (x_humidity (report pr)) /\
  or_empty (conds (absorb_response pr rd)) =
    or_empty (conds rd) ++ opt_list (x_cond (report pr)).
Proof.
  intros [p [j|e]] rd; unfold absorb_response, report; cbn [fst snd].
  2:{ cbn. rewrite !app_nil_r. repeat split. }
  destruct (extract_chain p j) as (H1 & H2 & H3 & H4 & H5).
  unfold absorb; cbn [temps feels humidities conds].
  repeat split; apply key_after_items; intros E; apply not_true_none.
  - rewrite <- E. exact H5.
  - rewrite <- E. exact H4.
  - rewrite <- E. exact H3.
  - unfold conds_created in E. destruct p.
    + intros S. rewrite <- E. exact S.
    + rewrite <- E. exact H2.
Qed.


Lemma absorb_fold_items : forall rs rd,
  let rd' := fold_left (fun rd pr => absorb_response pr rd) rs rd in
  or_empty (temps rd') = or_empty (temps rd) ++ reported_temps rs /\
  or_empty (feels rd') = or_empty (feels rd) ++ reported_feels rs /\
  or_empty (humidities rd') = or_empty (humidities rd) ++ reported_humidities rs /\
  or_empty (conds rd') = or_empty (conds rd) ++ reported_conds rs.
Proof.
  unfold reported_temps, reported_feels, reported_humidities, reported_conds.
  induction rs as [|pr rs IH]; intros rd; cbn [fold_left flat_map].
  - rewrite !app_nil_r. repeat split.
  - destruct (IH (absorb_response pr rd)) as (I1 & I2 & I3 & I4).
    destruct (absorb_items pr rd) as (A1 & A2 & A3 & A4).
    cbv zeta in *. rewrite I1, I2, I3, I4, A1, A2, A3, A4.
    rewrite <- !app_assoc. repeat split.
Qed.


(** [location] ends up bound to the last record reported. *)
Lemma rebind_fold : forall rs loc,
  fold_left (fun loc pr => rebind pr loc) rs loc =
  match rev (reported_locations rs) with
  | l :: _ => Some l
  | [] => loc
  end.
Proof.
  unfold reported_locations.
  induction rs as [|pr rs IH]; intros loc; cbn [fold_left flat_map].
  - reflexivity.
  - rewrite IH, rev_app_distr. unfold rebind.
    destruct (rev (flat_map _ rs)) as [|l ls]; cbn [app]; [|reflexivity].
    destruct (x_location (report pr)); reflexivity.
Qed.





Lemma absorb_all_items : forall rs,
  or_empty (temps (absorb_all rs)) = reported_temps rs /\
  or_empty (feels (absorb_all rs)) = reported_feels rs /\
  or_empty (humidities (absorb_all rs)) = reported_humidities rs /\
  or_empty (conds (absorb_all rs)) = reported_conds rs.
Proof.
  intros rs. exact (absorb_fold_items rs no_results).
Qed.

Lemma mean_ok : forall l m, mean l = Ok m -> l <> [] /\ m = average l.
Proof.
  intros [|x l] m H; cbn in H; inversion H. split; [discriminate|reflexivity].
Qed.


(** What an answer of the current-conditions aggregator is made of. *)
Lemma aggregated_current_answer : forall city w a w',
  aggregated_current_from_providers cfg city w = (Ok a, w') ->
  let rs := responses cfg city w in
  temperature_c a = round2 (average (reported_temps rs)) /\
  feels_like_c a = round2 (average (reported_feels rs)) /\
  humidity a = Qtruncate (average (map inject_Z (reported_humidities rs))) /\
  condition a = most_common (reported_conds rs) /\
  (exists front, reported_locations rs = front ++ [cur_location a]) /\
  reported_temps rs <> [] /\ reported_feels rs <> [] /\
  reported_humidities rs <> [].
Proof.
  intros city w a w' H rs. unfold aggregated_current_from_providers in H.
  destruct (current_program_merge cfg city w) as (src & w2 & P).
  rewrite P in H. clear P. fold rs in H.
  destruct (absorb_all_items rs) as (IT & IF & IH & IC).
  unfold merge_current, bind, get in H.
  cbn [results location sources cur_world] in H.
  destruct (results_empty (absorb_all rs)); [discriminate|].
  unfold lift at 1 in H.
  destruct (temps (absorb_all rs)) as [ts|] eqn:ET; [|discriminate].
  cbn [subscript] in H. unfold lift at 1 in H.
  destruct (mean ts) as [mt|] eqn:MT; [|discriminate].
  unfold lift at 1 in H.
  destruct (feels (absorb_all rs)) as [fs|] eqn:EF; [|discriminate].
  cbn [subscript] in H. unfold lift at 1 in H.
  destruct (mean fs) as [mf|] eqn:MF; [|discriminate].
  unfold lift at 1 in H.
  destruct (humidities (absorb_all rs)) as [hs|] eqn:EH; [|discriminate].
  cbn [subscript] in H. unfold lift at 1 in H.
  destruct (mean (map inject_Z hs)) as [mh|] eqn:MH; [|discriminate].
  unfold lift at 1 in H.
  destruct (conds (absorb_all rs)) as [cs|] eqn:EC; [|discriminate].
  cbn [subscript] in H. unfold lift at 1 in H.
  unfold rebind_all in H. rewrite rebind_fold in H.
  destruct (rev (reported_locations rs)) as [|l ls] eqn:EL; [discriminate|].
  cbn in H. inversion H; subst a w'. clear H.
  cbn [temperature_c feels_like_c humidity condition cur_location].
  cbn in IT, IF, IH, IC. subst ts fs hs cs.
  apply mean_ok in MT, MF, MH.
  destruct MT as [NT ->], MF as [NF ->], MH as [NH ->].
  repeat split; auto.
  - exists (rev ls). rewrite <- (rev_involutive (reported_locations rs)), EL.
    reflexivity.
  - intros E. apply NH. rewrite E. reflexivity.
Qed.


End MergeInputs.

(* ================================================================== *)
(** * Properties of the merge primitives *)
(* ================================================================== *)

Section Primitives.
Import Py Py.Notations Net Agg Reports.



Lemma most_common_empty : most_common [] = JStr "".
Proof. reflexivity. Qed.

Lemma Qmin_fold : forall qs q,
  In (fold_left Qmin qs q) (q :: qs) /\
  forall x, In x (q :: qs) -> (fold_left Qmin qs q <= x)%Q.
Proof.
  induction qs as [|y qs IH]; intros q; cbn [fold_left].
  - split; [left; reflexivity|]. intros x [<-|[]]. apply Qle_refl.
  - destruct (IH (Qmin q y)) as [I L]. split.
    + destruct I as [I|I]; [|right; right; exact I].
      rewrite <- I.
      assert (C : Qmin q y = q \/ Qmin q y = y)
        by (unfold Qmin; destruct (Qle_bool q y); auto).
      destruct C as [C|C]; rewrite C; [left|right; left]; reflexivity.
    + assert (Hq : (Qmin q y <= q)%Q /\ (Qmin q y <= y)%Q).
      { unfold Qmin. destruct (Qle_bool q y) eqn:B.
        - apply Qle_bool_iff in B. split; [apply Qle_refl|exact B].
        - split; [|apply Qle_refl].
          destruct (Qlt_le_dec y q) as [H|H]; [apply Qlt_le_weak; exact H|].
          apply Qle_bool_iff in H. congruence. }
      intros x [<-|[<-|Hx]].
      * eapply Qle_trans; [apply L; left; reflexivity|apply Hq].
      * eapply Qle_trans; [apply L; left; reflexivity|apply Hq].
      * apply L. right. exact Hx.
Qed.

Lemma Qmax_fold : forall qs q,
  In (fold_left Qmax qs q) (q :: qs) /\
  forall x, In x (q :: qs) -> (x <= fold_left Qmax qs q)%Q.
Proof.
  induction qs as [|y qs IH]; intros q; cbn [fold_left].
  - split; [left; reflexivity|]. intros x [<-|[]]. apply Qle_refl.
  - destruct (IH (Qmax q y)) as [I L]. split.
    + destruct I as [I|I]; [|right; right; exact I].
      rewrite <- I.
      assert (C : Qmax q y = q \/ Qmax q y = y)
        by (unfold Qmax; destruct (Qle_bool y q); auto).
      destruct C as [C|C]; rewrite C; [left|right; left]; reflexivity.
    + assert (Hq : (q <= Qmax q y)%Q /\ (y <= Qmax q y)%Q).
      { unfold Qmax. destruct (Qle_bool y q) eqn:B.
        - apply Qle_bool_iff in B. split; [apply Qle_refl|exact B].
        - split; [|apply Qle_refl].
          destruct (Qlt_le_dec q y) as [H|H]; [apply Qlt_le_weak; exact H|].
          apply Qle_bool_iff in H. congruence. }
      intros x [<-|[<-|Hx]].
      * eapply Qle_trans; [apply Hq|apply L; left; reflexivity].
      * eapply Qle_trans; [apply Hq|apply L; left; reflexivity].
      * apply L. right. exact Hx.
Qed.

Lemma avg_or_none_mean : forall l v,
  avg_or_none (not_none l) = Ok v -> is_mean_of v l.
Proof.
  intros l v. unfold avg_or_none, is_mean_of.
  destruct (not_none l) as [|x r] eqn:E; [intros H; inversion H; reflexivity|].
  destruct (numbers (x :: r)) as [qs|]; [|discriminate].
  intros H; inversion H. exists qs. split; reflexivity.
Qed.

Lemma min_or_none_min : forall l v,
  min_or_none (not_none l) = Ok v -> is_min_of v l.
Proof.
  intros l v. unfold min_or_none, is_min_of.
  destruct (not_none l) as [|x r] eqn:E; [intros H; inversion H; reflexivity|].
  destruct (numbers (x :: r)) as [[|q qs]|]; try discriminate.
  intros H; inversion H. destruct (Qmin_fold qs q) as [I L].
  exists (q :: qs), (fold_left Qmin qs q). repeat split; assumption.
Qed.

Lemma max_or_none_max : forall l v,
  max_or_none (not_none l) = Ok v -> is_max_of v l.
Proof.
  intros l v. unfold max_or_none, is_max_of.
  destruct (not_none l) as [|x r] eqn:E; [intros H; inversion H; reflexivity|].
  destruct (numbers (x :: r)) as [[|q qs]|]; try discriminate.
  intros H; inversion H. destruct (Qmax_fold qs q) as [I L].
  exists (q :: qs), (fold_left Qmax qs q). repeat split; assumption.
Qed.

(** What a day of the answer is made of. *)
Lemma summarize_day : forall d data s,
  summarize (d, data) = Ok s ->
  date s = d /\
  is_mean_of (avg_c s) (day_temps data) /\
  is_min_of (min_c s) (day_mins data) /\
  is_max_of (max_c s) (day_maxs data) /\
  day_condition s = most_common (day_conds data).
Proof.
  intros d data s. unfold summarize.
  destruct (avg_or_none (not_none (day_temps data))) as [a|] eqn:A; [|discriminate].
  destruct (min_or_none (not_none (day_mins data))) as [mn|] eqn:Mn; [|discriminate].
  destruct (max_or_none (not_none (day_maxs data))) as [mx|] eqn:Mx; [|discriminate].
  intros H; inversion H; cbn.
  repeat split;
    [apply avg_or_none_mean|apply min_or_none_min|apply max_or_none_max];
    assumption.
Qed.

Lemma summarize_all_each : forall items ss,
  summarize_all items = Ok ss ->
  Forall2 (fun item s => summarize item = Ok s) items ss.
Proof.
  induction items as [|item items IH]; intros ss H; cbn in H.
  - inversion H. constructor.
  - destruct (summarize item) as [s|] eqn:S; [|discriminate].
    destruct (summarize_all items) as [ss'|]; [|discriminate].
    inversion H. constructor; auto.
Qed.

Lemma summarize_raises : forall item e,
  summarize item = Raise e -> e = TypeError.
Proof.
  intros [d data] e. unfold summarize, avg_or_none, min_or_none, max_or_none.
  destruct (not_none (day_temps data)) as [|t ts].
  - destruct (not_none (day_mins data)) as [|m ms].
    + destruct (not_none (day_maxs data)) as [|x xs]; [discriminate|].
      destruct (numbers (x :: xs)) as [[|q qs]|]; intros H; inversion H;
        reflexivity.
    + destruct (numbers (m :: ms)) as [[|q qs]|];
        try (intros H; inversion H; reflexivity).
      destruct (not_none (day_maxs data)) as [|x xs]; [discriminate|].
      destruct (numbers (x :: xs)) as [[|q' qs']|]; intros H; inversion H;
        reflexivity.
  - destruct (numbers (t :: ts)) as [qt|];
      [|intros H; inversion H; reflexivity].
    destruct (not_none (day_mins data)) as [|m ms].
    + destruct (not_none (day_maxs data)) as [|x xs]; [discriminate|].
      destruct (numbers (x :: xs)) as [[|q qs]|]; intros H; inversion H;
        reflexivity.
    + destruct (numbers (m :: ms)) as [[|q qs]|];
        try (intros H; inversion H; reflexivity).
      destruct (not_none (day_maxs data)) as [|x xs]; [discriminate|].
      destruct (numbers (x :: xs)) as [[|q' qs']|]; intros H; inversion H;
        reflexivity.
Qed.

Lemma summarize_all_raises : forall items e,
  summarize_all items = Raise e -> e = TypeError.
Proof.
  induction items as [|item items IH]; intros e H; cbn in H; [discriminate|].
  destruct (summarize item) as [s|e'] eqn:S.
  - destruct (summarize_all items) as [ss'|e'']; [discriminate|].
    inversion H; subst. apply IH. reflexivity.
  - inversion H; subst. eapply summarize_raises. exact S.
Qed.

Lemma insert_sorted_in : forall A (x y : json * A) l,
  In y (insert_sorted x l) -> y = x \/ In y l.
Proof.
  induction l as [|z l IH]; cbn; intros H.
  - destruct H as [<-|[]]. left. reflexivity.
  - destruct (py_ltb (fst x) (fst z)); cbn in H.
    + destruct H as [<-|H]; [left; reflexivity|right; exact H].
    + destruct H as [<-|H]; [right; left; reflexivity|].
      destruct (IH H) as [->|H']; [left; reflexivity|right; right; exact H'].
Qed.

Lemma sort_items_in : forall A (l : list (json * A)) y,
  In y (sort_items l) -> In y l.
Proof.
  induction l as [|x l IH]; cbn; intros y H; [exact H|].
  apply insert_sorted_in in H. destruct H as [->|H]; [left; reflexivity|].
  right. apply IH. exact H.
Qed.

Lemma sorted_items_in : forall A (l items : list (json * A)) y,
  sorted_items l = Ok items -> In y items -> In y l.
Proof.
  intros A l items y H Hy. unfold sorted_items in H.
  destruct l as [|a [|b l]]; try (inversion H; subst; exact Hy).
  destruct (classify _); inversion H; subst; try (apply sort_items_in; exact Hy).
Qed.

Lemma sorted_items_raises : forall A (l : list (json * A)) e,
  sorted_items l = Raise e -> e = TypeError.
Proof.
  intros A l e H. unfold sorted_items in H.
  destruct l as [|a [|b l]]; try discriminate.
  destruct (classify _); inversion H; reflexivity.
Qed.

Lemma slice_to_in : forall A n (l : list A) y, In y (slice_to n l) -> In y l.
Proof.
  intros A.
  assert (F : forall k (l : list A) y, In y (firstn k l) -> In y l).
  { intros k l y H. rewrite <- (firstn_skipn k l). apply in_or_app. left.
    exact H. }
  intros n l y. unfold slice_to. destruct (0 <=? n); apply F.
Qed.

Lemma slice_to_length : forall A n (l : list A),
  0 <= n -> (List.length (slice_to n l) <= Z.to_nat n)%nat.
Proof.
  intros A n l H. unfold slice_to.
  destruct (0 <=? n) eqn:E; [|apply Z.leb_gt in E; lia].
  rewrite length_firstn. lia.
Qed.

End Primitives.

(* ================================================================== *)
(** * The forecast aggregator *)
(* ================================================================== *)

Section ForecastFacts.
Import Py Py.Notations Net Agg Reports.
Context `{RT : Runtime}.
Variable cfg : config.

(** A provider's [try] block never lets an exception out. *)
Lemma fc_provider_block_ok : forall key fmt body f,
  fst (fc_provider_block key fmt body f) = Ok tt.
Proof.
  intros key fmt body f. unfold fc_provider_block.
  destruct (configured key); [|reflexivity].
  unfold try_except. destruct (body f) as [[[]|e] f']; reflexivity.
Qed.

(** The final merge starts from what the two blocks collected. *)
Lemma forecast_program_merge : forall city days w,
  forecast_program cfg city days (fc_enter w) =
  merge_forecast (Z.min days MAX_FORECAST_DAYS) (collected_frame cfg city days w).
Proof.
  intros city days w. unfold forecast_program, collected_frame, bind.
  set (d := Z.min days MAX_FORECAST_DAYS).
  pose proof (fc_provider_block_ok (WEATHERAPI_KEY cfg)
                "WeatherAPI forecast failed: %s"
                (weatherapi_forecast_body cfg city d) (fc_enter w)) as H1.
  destruct (fc_provider_block (WEATHERAPI_KEY cfg) _ _ (fc_enter w))
    as [r1 f1]. cbn in H1. subst r1.
  pose proof (fc_provider_block_ok (OPENWEATHER_API_KEY cfg)
                "OpenWeather forecast failed: %s"
                (openweather_forecast_body cfg city d) f1) as H2.
  destruct (fc_provider_block (OPENWEATHER_API_KEY cfg) _ _ f1) as [r2 f2].
  cbn in H2. subst r2. reflexivity.
Qed.

Lemma merge_forecast_answer : forall d f a f',
  merge_forecast d f = (Ok a, f') ->
  exists items,
    sorted_items (daily_aggregate f) = Ok items /\
    summarize_all (slice_to d items) = Ok (forecast a) /\
    fc_location f = Some (fc_answer_location a) /\
    fc_answer_sources a = fc_sources f /\
    daily_aggregate f <> [].
Proof.
  intros d f a f'. unfold merge_forecast, bind, get.
  destruct (daily_aggregate f) as [|x l] eqn:D; [discriminate|].
  unfold lift.
  destruct (sorted_items (x :: l)) as [items|]; [|discriminate].
  destruct (summarize_all (slice_to d items)) as [ss|] eqn:A; [|discriminate].
  destruct (fc_location f) as [loc|]; [|cbn; discriminate].
  cbn. intros H; inversion H; subst. cbn.
  exists items. repeat split; [exact A|discriminate].
Qed.


(** What an answer of the forecast aggregator is made of. *)
Lemma aggregated_forecast_answer : forall city days w a w',
  aggregated_forecast_from_providers cfg city days w = (Ok a, w') ->
  Forall (fun s =>
            exists data,
              In (date s, data) (collected cfg city days w) /\
              is_mean_of (avg_c s) (day_temps data) /\
              is_min_of (min_c s) (day_mins data) /\
              is_max_of (max_c s) (day_maxs data) /\
              day_condition s = most_common (day_conds data))
         (forecast a) /\
  fc_location (collected_frame cfg city days w) = Some (fc_answer_location a) /\
  (0 <= days ->
   (List.length (forecast a) <= Z.to_nat (Z.min days MAX_FORECAST_DAYS))%nat).
Proof.
  intros city days w a w' H. unfold aggregated_forecast_from_providers in H.
  rewrite forecast_program_merge in H.
  destruct (merge_forecast _ _) as [r f'] eqn:M. inversion H; subst r w'.
  apply merge_forecast_answer in M.
  destruct M as (items & S & A & L & _ & _).
  apply summarize_all_each in A. split; [|split; [exact L|]].
  - unfold collected.
    assert (G : forall item, In item (slice_to (Z.min days MAX_FORECAST_DAYS) items) ->
                In item (daily_aggregate (collected_frame cfg city days w))).
    { intros item I. eapply sorted_items_in; [exact S|].
      eapply slice_to_in. exact I. }
    revert G. induction A as [|[d data] s its ss Hs A IH]; intros G.
    + constructor.
    + constructor.
      * apply summarize_day in Hs. destruct Hs as (Hd & R).
        exists data. split; [|exact R]. rewrite Hd. apply G. left. reflexivity.
      * apply IH. intros item I. apply G. right. exact I.
  - intros Hd. rewrite <- (Forall2_length A).
    apply slice_to_length. unfold MAX_FORECAST_DAYS. lia.
Qed.

End ForecastFacts.

(* ================================================================== *)
(** * The cache *)
(* ================================================================== *)

Section CacheFacts.
Import Py Py.Notations Net Agg Cache.

Lemma key_eqb_refl : forall k, key_eqb k k = true.
Proof.
  intros [c|c d]; cbn; rewrite String.eqb_refl; [reflexivity|].
  rewrite Z.eqb_refl. reflexivity.
Qed.

Lemma find_in : forall k c e, find k c = Some e -> In e c.
Proof.
  induction c as [|x c IH]; cbn; intros e H; [discriminate|].
  destruct (key_eqb (key x) k); [inversion H; left; reflexivity|].
  right. apply IH. exact H.
Qed.

Lemma find_remove : forall k c, find k (remove k c) = None.
Proof.
  induction c as [|x c IH]; cbn; [reflexivity|].
  destruct (key_eqb (key x) k) eqn:E; cbn; [exact IH|].
  rewrite E. exact IH.
Qed.

Lemma find_app_none : forall k c c',
  find k c = None -> find k (c ++ c') = find k c'.
Proof.
  induction c as [|x c IH]; cbn; intros c' H; [reflexivity|].
  destruct (key_eqb (key x) k); [discriminate|]. apply IH. exact H.
Qed.

Lemma find_moved : forall k c e,
  key_eqb (key e) k = true -> find k (remove k c ++ [e]) = Some e.
Proof.
  intros k c e E. rewrite find_app_none by apply find_remove.
  cbn. rewrite E. reflexivity.
Qed.

Lemma find_key : forall k c e, find k c = Some e -> key_eqb (key e) k = true.
Proof.
  induction c as [|x c IH]; cbn; intros e H; [discriminate|].
  destruct (key_eqb (key x) k) eqn:E; [inversion H; subst; exact E|].
  apply IH. exact H.
Qed.





End CacheFacts.

Section CachedFacts.
Import Py Py.Notations Net Agg Cache.
Context `{RT : Runtime}.
Variable cfg : config.




End CachedFacts.

(* ================================================================== *)
(** * Several callers at once *)
(* ================================================================== *)

Section ThreadFacts.
Import Py Py.Notations Net Agg Cache Threads.
Context `{RT : Runtime}.
Variable cfg : config.
Variable k : cache_key.
Variable func : M world cached_value.



















End ThreadFacts.

(* ================================================================== *)
(** * The routes *)
(* ================================================================== *)

Section StripFacts.
Import Py Routes.







End StripFacts.

Section RouteFacts.
Import Py Py.Notations Net Agg Cache Routes Reports.
Context `{RT : Runtime}.
Variable cfg : config.




(** A [RuntimeError] of the cached function becomes a 502. *)
Lemma guarded_runtime_error : forall call f1 f2 s msg s1,
  call s = (Raise (RuntimeError msg), s1) ->
  fst (guarded call f1 f2 s) =
  Ok (respond (ErrorDetails "All providers failed" (RuntimeError msg)) 502).
Proof.
  intros call f1 f2 s msg s1 H. unfold guarded, try_except, bind. rewrite H.
  reflexivity.
Qed.

(** No response, no results. *)
Lemma absorb_failed : forall rs rd,
  forallb request_failed rs = true ->
  fold_left (fun rd pr => absorb_response pr rd) rs rd = rd /\
  fold_left (fun loc pr => rebind pr loc) rs None = None.
Proof.
  induction rs as [|[p r] rs IH]; intros rd H; [split; reflexivity|].
  cbn in H. apply andb_true_iff in H. destruct H as [H1 H2].
  unfold request_failed in H1. cbn in H1.
  destruct r as [j|e]; [discriminate|]. cbn [fold_left].
  unfold absorb_response at 2, rebind at 2, report. cbn [snd fst nothing x_location].
  apply IH. exact H2.
Qed.

(** With no provider configured, or every request failed, the aggregator
    raises its [RuntimeError]. *)
Lemma aggregated_current_all_failed : forall city w,
  forallb request_failed (responses cfg city w) = true ->
  fst (aggregated_current_from_providers cfg city w) =
  Raise (RuntimeError "All external providers failed or no provider configured.").
Proof.
  intros city w H. unfold aggregated_current_from_providers.
  destruct (current_program_merge cfg city w) as (src & w2 & P). rewrite P.
  unfold absorb_all, rebind_all.
  destruct (absorb_failed _ no_results H) as [E1 E2]. rewrite E1, E2.
  reflexivity.
Qed.

End RouteFacts.

(* ================================================================== *)
(** * What the aggregators send *)
(* ================================================================== *)

Section Emissions.
Import Py Py.Notations Net Agg Reports.

Variable P : event -> Prop.

Lemma extends_refl : forall w, extends P w w.
Proof. intros w. exists []. rewrite app_nil_r. split; [reflexivity|constructor]. Qed.

Lemma extends_trans : forall w1 w2 w3,
  extends P w1 w2 -> extends P w2 w3 -> extends P w1 w3.
Proof.
  intros w1 w2 w3 (t1 & E1 & F1) (t2 & E2 & F2). exists (t1 ++ t2).
  rewrite E2, E1, app_assoc. split; [reflexivity|].
  apply Forall_app. split; assumption.
Qed.

Section Combinators.
Context {S : Type}.
Variable world_in : S -> world.

Lemma emits_ret : forall A (a : A), emits_only world_in P (ret a).
Proof. intros A a s. apply extends_refl. Qed.

Lemma emits_raise : forall A e, emits_only world_in P (@raise S A e).
Proof. intros A e s. apply extends_refl. Qed.

Lemma emits_lift : forall A (r : result A), emits_only world_in P (lift r).
Proof. intros A r s. apply extends_refl. Qed.

Lemma emits_get : emits_only world_in P (@get S).
Proof. intros s. apply extends_refl. Qed.

Lemma emits_modify : forall g,
  (forall s, world_in (g s) = world_in s) -> emits_only world_in P (modify g).
Proof. intros g H s. cbn. rewrite H. apply extends_refl. Qed.

Lemma emits_bind : forall A B (m : M S A) (f : A -> M S B),
  emits_only world_in P m -> (forall a, emits_only world_in P (f a)) ->
  emits_only world_in P (bind m f).
Proof.
  intros A B m f Hm Hf s. unfold bind. specialize (Hm s).
  destruct (m s) as [[a|e] s']; cbn in *; [|exact Hm].
  eapply extends_trans; [exact Hm|apply Hf].
Qed.

Lemma emits_try : forall A (body : M S A) catches handler,
  emits_only world_in P body -> (forall e, emits_only world_in P (handler e)) ->
  emits_only world_in P (try_except body catches handler).
Proof.
  intros A body catches handler Hb Hh s. unfold try_except.
  specialize (Hb s). destruct (body s) as [[a|e] s']; cbn in *; [exact Hb|].
  destruct (catches e); [|exact Hb].
  eapply extends_trans; [exact Hb|apply Hh].
Qed.

Lemma emits_for_each : forall A (xs : list A) body,
  (forall x, emits_only world_in P (body x)) ->
  emits_only world_in P (for_each xs body).
Proof.
  induction xs as [|x xs IH]; intros body H; cbn [for_each].
  - apply emits_ret.
  - apply emits_bind; [apply H|]. intros _. apply IH. exact H.
Qed.

End Combinators.

Hypothesis P_log : forall lvl fmt, P (Log lvl fmt).
Hypothesis P_sleep : forall ms, P (Sleep ms).

Lemma emits_log : forall lvl fmt, emits_only (fun w => w) P (log lvl fmt).
Proof.
  intros lvl fmt w. exists [Log lvl fmt]. split; [reflexivity|].
  constructor; [apply P_log|constructor].
Qed.

Lemma emits_sleep : forall ms, emits_only (fun w => w) P (sleep ms).
Proof.
  intros ms w. exists [Sleep ms]. split; [reflexivity|].
  constructor; [apply P_sleep|constructor].
Qed.

Lemma emits_fetch : forall url params,
  P (Get url params) -> emits_only (fun w => w) P (fetch url params).
Proof.
  intros url params H w.
  destruct (fetch_next url params (network w)) as (r & t & E).
  rewrite (E w eq_refl). exists [Get url params]. split; [reflexivity|].
  constructor; [exact H|constructor].
Qed.

Lemma emits_safe_request : forall url params,
  P (Get url params) -> emits_only (fun w => w) P (safe_request url params).
Proof.
  intros url params H. unfold safe_request.
  apply emits_try; [apply emits_fetch; exact H|]. intros e.
  apply emits_bind; [apply emits_log|]. intros _.
  apply emits_try.
  - apply emits_bind; [apply emits_sleep|]. intros _. apply emits_fetch. exact H.
  - intros e2. apply emits_bind; [apply emits_log|]. intros _. apply emits_raise.
Qed.

End Emissions.

Section ForecastEmissions.
Import Py Py.Notations Net Agg Reports.
Context `{RT : Runtime}.
Variable cfg : config.
Variable d : Z.

Lemma sends_days_log : forall lvl fmt, sends_days d (Log lvl fmt).
Proof. intros; exact I. Qed.

Lemma sends_days_sleep : forall ms, sends_days d (Sleep ms).
Proof. intros; exact I. Qed.

Lemma emits_fc_io : forall A (m : M world A),
  emits_only (fun w => w) (sends_days d) m -> emits_only fc_world (sends_days d) (fc_io m).
Proof.
  intros A m H f. unfold fc_io. specialize (H (fc_world f)).
  destruct (m (fc_world f)) as [r w']. exact H.
Qed.

Ltac frame_op :=
  match goal with
  | |- emits_only _ _ (fc_set_source _ _) => apply emits_modify; reflexivity
  | |- emits_only _ _ (fc_set_location _) => apply emits_modify; reflexivity
  | |- emits_only _ _ (append_day_temps _ _) => apply emits_modify; reflexivity
  | |- emits_only _ _ (append_day_mins _ _) => apply emits_modify; reflexivity
  | |- emits_only _ _ (append_day_maxs _ _) => apply emits_modify; reflexivity
  | |- emits_only _ _ (append_day_conds _ _) => apply emits_modify; reflexivity
  | |- emits_only _ _ (setdefault_day ?x) =>
      unfold setdefault_day; destruct (hashable x);
      [apply emits_modify; reflexivity|apply emits_raise]
  end.

Ltac quiet :=
  repeat first
    [ apply emits_ret | apply emits_lift | apply emits_raise | frame_op
    | apply emits_bind; [|intros ?]
    | match goal with
      | |- emits_only _ _ (match ?x with _ => _ end) => destruct x
      end ].

Lemma emits_weatherapi_day : forall day,
  emits_only fc_world (sends_days d) (weatherapi_day day).
Proof. intros day. unfold weatherapi_day. quiet. Qed.

Lemma emits_openweather_day : forall city lat lon day,
  emits_only fc_world (sends_days d) (openweather_day city lat lon day).
Proof. intros city lat lon day. unfold openweather_day. quiet. Qed.

Lemma emits_weatherapi_forecast_body : forall city,
  emits_only fc_world (sends_days d) (weatherapi_forecast_body cfg city d).
Proof.
  intros city. unfold weatherapi_forecast_body.
  apply emits_bind.
  - apply emits_fc_io. apply emits_safe_request; try exact sends_days_log;
      try exact sends_days_sleep. reflexivity.
  - intros wa. quiet. apply emits_for_each. apply emits_weatherapi_day.
Qed.

Lemma emits_openweather_forecast_body : forall city,
  emits_only fc_world (sends_days d) (openweather_forecast_body cfg city d).
Proof.
  intros city. unfold openweather_forecast_body.
  apply emits_bind.
  - apply emits_fc_io. apply emits_safe_request; try exact sends_days_log;
      try exact sends_days_sleep. exact I.
  - intros ge. destruct (truthy ge); [|apply emits_ret].
    do 4 (apply emits_bind; [apply emits_lift|intros ?]).
    apply emits_bind.
    + apply emits_fc_io. apply emits_safe_request; try exact sends_days_log;
        try exact sends_days_sleep. exact I.
    + intros oc. quiet. apply emits_for_each. apply emits_openweather_day.
Qed.

Lemma emits_fc_provider_block : forall key fmt body,
  emits_only fc_world (sends_days d) body ->
  emits_only fc_world (sends_days d) (fc_provider_block key fmt body).
Proof.
  intros key fmt body H. unfold fc_provider_block.
  destruct (configured key); [|apply emits_ret].
  apply emits_try; [exact H|]. intros e. apply emits_fc_io.
  apply emits_log. exact sends_days_log.
Qed.

Lemma emits_merge_forecast : emits_only fc_world (sends_days d) (merge_forecast d).
Proof.
  unfold merge_forecast. apply emits_bind; [apply emits_get|]. intros f.
  destruct (daily_aggregate f); [apply emits_raise|]. quiet.
Qed.

End ForecastEmissions.

Section ForecastSends.
Import Py Py.Notations Net Agg Reports.
Context `{RT : Runtime}.
Variable cfg : config.

(** Whatever day count the forecast aggregator sends is the requested
    one capped at [MAX_FORECAST_DAYS]. *)
Lemma aggregated_forecast_sends : forall city days w,
  extends (sends_days (Z.min days MAX_FORECAST_DAYS)) w
    (snd (aggregated_forecast_from_providers cfg city days w)).
Proof.
  intros city days w. unfold aggregated_forecast_from_providers.
  assert (H : emits_only fc_world (sends_days (Z.min days MAX_FORECAST_DAYS))
                (forecast_program cfg city days)).
  { unfold forecast_program.
    apply emits_bind.
    - apply emits_fc_provider_block. apply emits_weatherapi_forecast_body.
    - intros _. apply emits_bind.
      + apply emits_fc_provider_block. apply emits_openweather_forecast_body.
      + intros _. apply emits_merge_forecast. }
  specialize (H (fc_enter w)).
  destruct (forecast_program cfg city days (fc_enter w)) as [r f]. exact H.
Qed.

End ForecastSends.

(* ================================================================== *)
(** * How the current-conditions aggregator fails *)
(* ================================================================== *)

Section CurrentErrors.
Import Py Py.Notations Net Agg Reports.
Context `{RT : Runtime}.
Variable cfg : config.







End CurrentErrors.

(* ================================================================== *)
(** * Where the forecast's location comes from *)
(* ================================================================== *)

Section Preservation.
Import Py Py.Notations Net Agg Reports.
Context {S : Type}.
Variable I : S -> Prop.

Lemma preserves_ret : forall A (a : A), preserves I (ret a).
Proof. intros A a s H. exact H. Qed.

Lemma preserves_raise : forall A e, preserves I (@raise S A e).
Proof. intros A e s H. exact H. Qed.

Lemma preserves_lift : forall A (r : result A), preserves I (lift r).
Proof. intros A r s H. exact H. Qed.

Lemma preserves_modify : forall g,
  (forall s, I s -> I (g s)) -> preserves I (modify g).
Proof. intros g G s H. cbn. apply G. exact H. Qed.

Lemma preserves_bind : forall A B (m : M S A) (f : A -> M S B),
  preserves I m -> (forall a, preserves I (f a)) -> preserves I (bind m f).
Proof.
  intros A B m f Hm Hf s H. unfold bind. specialize (Hm s H).
  destruct (m s) as [[a|e] s']; cbn in *; [apply Hf|]; exact Hm.
Qed.

Lemma preserves_try : forall A (body : M S A) catches handler,
  preserves I body -> (forall e, preserves I (handler e)) ->
  preserves I (try_except body catches handler).
Proof.
  intros A body catches handler Hb Hh s H. unfold try_except.
  specialize (Hb s H). destruct (body s) as [[a|e] s']; cbn in *; [exact Hb|].
  destruct (catches e); [apply Hh|]; exact Hb.
Qed.

Lemma preserves_for_each : forall A (xs : list A) body,
  (forall x, preserves I (body x)) -> preserves I (for_each xs body).
Proof.
  induction xs as [|x xs IH]; intros body H; cbn [for_each].
  - apply preserves_ret.
  - apply preserves_bind; [apply H|]. intros _. apply IH. exact H.
Qed.

End Preservation.

Section ForecastLocation.
Import Py Py.Notations Net Agg Reports.
Context `{RT : Runtime}.
Variable cfg : config.

(** An invariant that speaks of [location] only. *)
Variable I : fc_frame -> Prop.
Hypothesis I_location : forall f f', fc_location f' = fc_location f -> I f -> I f'.

Lemma preserves_fc_io : forall A (m : M world A), preserves I (fc_io m).
Proof.
  intros A m f H. unfold fc_io. destruct (m (fc_world f)) as [r w'].
  cbn. eapply I_location; [|exact H]. reflexivity.
Qed.

Ltac keep_op :=
  match goal with
  | |- preserves _ (fc_set_source _ _) =>
      apply preserves_modify; intros ? ?; eapply I_location; [|eassumption];
      reflexivity
  | |- preserves _ (append_day_temps _ _) =>
      apply preserves_modify; intros ? ?; eapply I_location; [|eassumption];
      reflexivity
  | |- preserves _ (append_day_mins _ _) =>
      apply preserves_modify; intros ? ?; eapply I_location; [|eassumption];
      reflexivity
  | |- preserves _ (append_day_maxs _ _) =>
      apply preserves_modify; intros ? ?; eapply I_location; [|eassumption];
      reflexivity
  | |- preserves _ (append_day_conds _ _) =>
      apply preserves_modify; intros ? ?; eapply I_location; [|eassumption];
      reflexivity
  | |- preserves _ (setdefault_day ?x) =>
      unfold setdefault_day; destruct (hashable x);
      [apply preserves_modify; intros ? ?; eapply I_location; [|eassumption];
       reflexivity
      |apply preserves_raise]
  end.

Ltac keeps :=
  repeat first
    [ apply preserves_ret | apply preserves_lift | apply preserves_raise
    | keep_op
    | apply preserves_bind; [|intros ?]
    | match goal with
      | |- preserves _ (match ?x with _ => _ end) => destruct x
      end ].

Lemma preserves_weatherapi_day : forall day, preserves I (weatherapi_day day).
Proof. intros day. unfold weatherapi_day. keeps. Qed.

(** OpenWeather's loop body keeps the invariant if assigning
    OpenWeather's record does. *)
Lemma preserves_openweather_day : forall city lat lon day,
  (forall f, I f -> I {| fc_sources := fc_sources f;
                         daily_aggregate := daily_aggregate f;
                         fc_location := Some (location_record city lat lon);
                         fc_world := fc_world f |}) ->
  preserves I (openweather_day city lat lon day).
Proof.
  intros city lat lon day H. unfold openweather_day. keeps.
  all: apply preserves_modify; exact H.
Qed.

End ForecastLocation.

Section ForecastLocationFacts.
Import Py Py.Notations Net Agg Reports.
Context `{RT : Runtime}.
Variable cfg : config.

Ltac crack :=
  match goal with
  | |- context [getitem ?x _] => is_var x; destruct x; cbn
  | |- context [dict_get ?x _ _] => is_var x; destruct x; cbn
  | |- context [match assoc ?k ?kv with Some _ => _ | None => _ end] =>
      destruct (assoc k kv); cbn
  | |- context [match ?r with Ok _ => _ | Raise _ => _ end] => destruct r; cbn
  end.

(** WeatherAPI's block binds [location] to the record of its response,
    whatever happens in its loop afterwards. *)
Lemma weatherapi_forecast_location : forall city d f,
  fc_location
    (snd (fc_provider_block (WEATHERAPI_KEY cfg) "WeatherAPI forecast failed: %s"
            (weatherapi_forecast_body cfg city d) f)) =
  if configured (WEATHERAPI_KEY cfg)
  then match fst (weatherapi_forecast_request cfg city d (fc_world f)) with
       | Ok wa =>
           match location_of WeatherAPI wa with
           | Ok l => Some l
           | Raise _ => fc_location f
           end
       | Raise _ => fc_location f
       end
  else fc_location f.
Proof.
  intros city d f. unfold fc_provider_block.
  destruct (configured (WEATHERAPI_KEY cfg)); [|reflexivity].
  set (body := weatherapi_forecast_body cfg city d).
  assert (E : fc_location
                (snd (try_except body any_exception
                        (fun _ => fc_io (log ERROR "WeatherAPI forecast failed: %s")) f))
              = fc_location (snd (body f))).
  { unfold try_except. destruct (body f) as [[[]|e] f']; [reflexivity|].
    cbn. unfold fc_io. destruct (log ERROR "WeatherAPI forecast failed: %s" (fc_world f')).
    reflexivity. }
  rewrite E. clear E. subst body. unfold weatherapi_forecast_body.
  unfold bind at 1, fc_io at 1.
  destruct (weatherapi_forecast_request cfg city d (fc_world f)) as [[wa|e] w1];
    cbn [fst snd]; [|reflexivity].
  unfold bind at 1. cbn [fc_set_source modify].
  unfold location_of.
  destruct (dict_get wa "location" (JObj [])) as [loc|] eqn:E1; unfold bind at 1, lift at 1;
    cbn [and_then fc_location snd]; [|reflexivity].
  destruct (dict_get loc "name" (JStr "")) as [name|] eqn:E2; unfold bind at 1, lift at 1;
    cbn [and_then fc_location snd]; [|reflexivity].
  destruct (dict_get loc "country" (JStr "")) as [country|] eqn:E3; unfold bind at 1, lift at 1;
    cbn [and_then fc_location snd]; [|reflexivity].
  destruct (dict_get loc "lat" JNull) as [lat|] eqn:E4; unfold bind at 1, lift at 1;
    cbn [and_then fc_location snd]; [|reflexivity].
  destruct (dict_get loc "lon" JNull) as [lon|] eqn:E5; unfold bind at 1, lift at 1;
    cbn [and_then fc_location snd]; [|reflexivity].
  unfold bind at 1. cbn [fc_set_location modify].
  match goal with
  | |- fc_location (snd (?tail ?f0)) = Some ?l =>
      assert (K : preserves (fun f => fc_location f = Some l) tail)
  end.
  { assert (IL : forall f f' : fc_frame,
               fc_location f' = fc_location f ->
               fc_location f = Some (location_record (comma name country) lat lon) ->
               fc_location f' = Some (location_record (comma name country) lat lon))
      by (intros ? ? -> ?; assumption).
    apply preserves_bind; [apply preserves_lift|intros ?].
    apply preserves_bind; [apply preserves_lift|intros ?].
    apply preserves_bind; [apply preserves_lift|intros ?].
    apply preserves_for_each. intros day.
    apply preserves_weatherapi_day. exact IL. }
  apply K. reflexivity.
Qed.

(** OpenWeather's block leaves [location] as it was or binds it to the
    geocoded record. *)
Lemma openweather_forecast_location : forall city d f,
  let f' := snd (fc_provider_block (OPENWEATHER_API_KEY cfg)
                   "OpenWeather forecast failed: %s"
                   (openweather_forecast_body cfg city d) f) in
  fc_location f' = fc_location f \/
  (configured (OPENWEATHER_API_KEY cfg) = true /\
   exists lat lon, fc_location f' = Some (location_record city lat lon)).
Proof.
  intros city d f. cbv zeta. unfold fc_provider_block.
  destruct (configured (OPENWEATHER_API_KEY cfg)); [|left; reflexivity].
  set (I := fun f' : fc_frame =>
              fc_location f' = fc_location f \/
              (true = true /\
               exists lat lon, fc_location f' = Some (location_record city lat lon))).
  assert (IL : forall f1 f2 : fc_frame,
             fc_location f2 = fc_location f1 -> I f1 -> I f2).
  { intros f1 f2 E H. unfold I in *. rewrite E. exact H. }
  assert (K : preserves I
                (try_except (openweather_forecast_body cfg city d) any_exception
                   (fun _ => fc_io (log ERROR "OpenWeather forecast failed: %s")))).
  { apply preserves_try; [|intros e; apply preserves_fc_io; exact IL].
    unfold openweather_forecast_body.
    apply preserves_bind; [apply preserves_fc_io; exact IL|]. intros ge.
    destruct (truthy ge); [|apply preserves_ret].
    do 4 (apply preserves_bind; [apply preserves_lift|intros ?]).
    apply preserves_bind; [apply preserves_fc_io; exact IL|]. intros oc.
    apply preserves_bind.
    { apply preserves_modify. intros s H. eapply IL; [|exact H]. reflexivity. }
    intros _.
    do 2 (apply preserves_bind; [apply preserves_lift|intros ?]).
    apply preserves_for_each. intros day.
    apply preserves_openweather_day; [exact IL|].
    intros f0 _. right. split; [reflexivity|]. eexists _, _. reflexivity. }
  apply K. left. reflexivity.
Qed.

(** The location of a forecast answer is one provider's record. *)
Lemma aggregated_forecast_location : forall city days w a w',
  aggregated_forecast_from_providers cfg city days w = (Ok a, w') ->
  (configured (WEATHERAPI_KEY cfg) = true /\
   exists wa,
     fst (weatherapi_forecast_request cfg city (Z.min days MAX_FORECAST_DAYS) w)
       = Ok wa /\
     location_of WeatherAPI wa = Ok (fc_answer_location a)) \/
  (configured (OPENWEATHER_API_KEY cfg) = true /\
   exists lat lon, fc_answer_location a = location_record city lat lon).
Proof.
  intros city days w a w' H.
  destruct (aggregated_forecast_answer cfg city days w a w' H) as (_ & L & _).
  unfold collected_frame, bind in L.
  set (d := Z.min days MAX_FORECAST_DAYS) in *.
  pose proof (fc_provider_block_ok (WEATHERAPI_KEY cfg)
                "WeatherAPI forecast failed: %s"
                (weatherapi_forecast_body cfg city d) (fc_enter w)) as O1.
  pose proof (weatherapi_forecast_location city d (fc_enter w)) as L1.
  destruct (fc_provider_block (WEATHERAPI_KEY cfg) _ _ (fc_enter w)) as [r1 f1].
  cbn in O1. subst r1. cbn [snd] in L1.
  pose proof (openweather_forecast_location city d f1) as L2. cbv zeta in L2.
  destruct L2 as [L2|(C & lat & lon & L2)].
  - left. rewrite L2, L1 in L. cbn [fc_enter fc_world fc_location] in L.
    destruct (configured (WEATHERAPI_KEY cfg)); [|discriminate].
    split; [reflexivity|].
    destruct (fst (weatherapi_forecast_request cfg city d w)) as [wa|];
      [|discriminate].
    exists wa. split; [reflexivity|].
    destruct (location_of WeatherAPI wa); [|discriminate].
    inversion L. reflexivity.
  - right. split; [exact C|]. exists lat, lon. rewrite L2 in L.
    inversion L. reflexivity.
Qed.

End ForecastLocationFacts.

(* ================================================================== *)
(** * The sources of a forecast answer *)
(* ================================================================== *)

Section ForecastSources.
Import Py Py.Notations Net Agg Reports Traffic Describe.
Context `{RT : Runtime}.
Variable cfg : config.

(** An invariant that speaks of [sources] and of the scripted answers
    still to come only. *)
Variable I : fc_frame -> Prop.
Hypothesis I_sources : forall f f',
  fc_sources f' = fc_sources f ->
  network (fc_world f') = network (fc_world f) -> I f -> I f'.

Ltac same := intros ? ?; eapply I_sources; [| |eassumption]; reflexivity.

Ltac keep_op :=
  match goal with
  | |- preserves _ (fc_set_location _) => apply preserves_modify; same
  | |- preserves _ (append_day_temps _ _) => apply preserves_modify; same
  | |- preserves _ (append_day_mins _ _) => apply preserves_modify; same
  | |- preserves _ (append_day_maxs _ _) => apply preserves_modify; same
  | |- preserves _ (append_day_conds _ _) => apply preserves_modify; same
  | |- preserves _ (setdefault_day ?x) =>
      unfold setdefault_day; destruct (hashable x);
      [apply preserves_modify; same|apply preserves_raise]
  end.

Ltac keeps :=
  repeat first
    [ apply preserves_ret | apply preserves_lift | apply preserves_raise
    | keep_op
    | apply preserves_bind; [|intros ?]
    | match goal with
      | |- preserves _ (match ?x with _ => _ end) => destruct x
      end ].

Lemma sources_weatherapi_day : forall day, preserves I (weatherapi_day day).
Proof. intros day. unfold weatherapi_day. keeps. Qed.

Lemma sources_openweather_day : forall city lat lon day,
  preserves I (openweather_day city lat lon day).
Proof. intros city lat lon day. unfold openweather_day. keeps. Qed.

Lemma sources_log : forall lvl fmt, preserves I (fc_io (log lvl fmt)).
Proof.
  intros lvl fmt f H. unfold fc_io, log, emit, modify. cbn.
  eapply I_sources; [| |exact H]; reflexivity.
Qed.

Lemma sources_try_log : forall (body : M fc_frame unit) fmt f,
  I (snd (body f)) ->
  I (snd (try_except body any_exception (fun _ => fc_io (log ERROR fmt)) f)).
Proof.
  intros body fmt f H. unfold try_except.
  destruct (body f) as [[[]|e] f2]; [exact H|].
  cbn [any_exception]. apply sources_log. exact H.
Qed.

(** What follows the request in WeatherAPI's block, and what follows
    the One Call request in OpenWeather's. *)
Lemma sources_weatherapi_rest : forall wa,
  preserves I
    (loc <- lift (dict_get wa "location" (JObj [])) ;;
     name <- lift (dict_get loc "name" (JStr "")) ;;
     country <- lift (dict_get loc "country" (JStr "")) ;;
     lat <- lift (dict_get loc "lat" JNull) ;;
     lon <- lift (dict_get loc "lon" JNull) ;;
     fc_set_location (location_record (comma name country) lat lon) ;;
     fcast <- lift (dict_get wa "forecast" (JObj [])) ;;
     fdays <- lift (dict_get fcast "forecastday" (JArr [])) ;;
     items <- lift (iterate fdays) ;;
     for_each items weatherapi_day)%py.
Proof.
  intros wa. keeps. apply preserves_for_each. apply sources_weatherapi_day.
Qed.

Lemma sources_openweather_rest : forall city d lat lon oc,
  preserves I
    (daily <- lift (dict_get oc "daily" (JArr [])) ;;
     items <- lift (iterate_slice daily d) ;;
     for_each items (openweather_day city lat lon))%py.
Proof.
  intros city d lat lon oc. keeps. apply preserves_for_each.
  apply sources_openweather_day.
Qed.

End ForecastSources.

Section ForecastSourcesFacts.
Import Py Py.Notations Net Agg Reports Traffic Describe.
Context `{RT : Runtime}.
Variable cfg : config.

Lemma onecall_result_network : forall city w w',
  network w' = network w ->
  onecall_result cfg city w' = onecall_result cfg city w.
Proof.
  intros city w w' N. unfold onecall_result.
  destruct (safe_request_network
              "http://api.openweathermap.org/geo/1.0/direct"
              [("q", JStr city); ("limit", JInt 1);
               ("appid", JStr (OPENWEATHER_API_KEY cfg))] w w' N) as [E1 E2].
  destruct (safe_request _ _ w') as [r1' w1'].
  destruct (safe_request _ _ w) as [r1 w1]. cbn [fst snd] in E1, E2. subst r1'.
  destruct r1 as [ge|e]; [|reflexivity].
  destruct (truthy ge); [|reflexivity].
  destruct (getitem0 ge) as [g0|]; [|reflexivity].
  destruct (getitem g0 "lat") as [lat|]; [|reflexivity].
  destruct (getitem g0 "lon") as [lon|]; [|reflexivity].
  destruct (safe_request_network
              "https://api.openweathermap.org/data/2.5/onecall"
              [("lat", lat); ("lon", lon);
               ("appid", JStr (OPENWEATHER_API_KEY cfg));
               ("units", JStr "metric");
               ("exclude", JStr "minutely,hourly,alerts")] w1 w1' E2) as [E3 _].
  rewrite E3. reflexivity.
Qed.

(** [sources] and the scripted answers left after WeatherAPI's block. *)
Lemma weatherapi_block_sources : forall city d f,
  let f' := snd (fc_provider_block (WEATHERAPI_KEY cfg)
                   "WeatherAPI forecast failed: %s"
                   (weatherapi_forecast_body cfg city d) f) in
  configured (WEATHERAPI_KEY cfg) = true ->
  fc_sources f' =
    match fst (weatherapi_forecast_request cfg city d (fc_world f)) with
    | Ok wa => assoc_set "weatherapi" wa (fc_sources f)
    | Raise _ => fc_sources f
    end /\
  network (fc_world f') =
    network (snd (weatherapi_forecast_request cfg city d (fc_world f))).
Proof.
  intros city d f f' C. subst f'. unfold fc_provider_block. rewrite C.
  destruct (weatherapi_forecast_request cfg city d (fc_world f)) as [r w1] eqn:R.
  cbn [fst snd].
  set (J := fun f' : fc_frame =>
              fc_sources f' =
                match r with
                | Ok wa => assoc_set "weatherapi" wa (fc_sources f)
                | Raise _ => fc_sources f
                end /\
              network (fc_world f') = network w1).
  assert (JS : forall f1 f2 : fc_frame,
             fc_sources f2 = fc_sources f1 ->
             network (fc_world f2) = network (fc_world f1) -> J f1 -> J f2).
  { intros f1 f2 E1 E2 [H1 H2]. unfold J. rewrite E1, E2. split; assumption. }
  apply (sources_try_log J JS).
  unfold weatherapi_forecast_body, bind at 1, fc_io at 1.
  rewrite R. destruct r as [wa|e]; [|split; reflexivity].
  unfold bind at 1. cbn [fc_set_source modify].
  apply (sources_weatherapi_rest J JS wa). split; reflexivity.
Qed.

(** [sources] after OpenWeather's block. *)
Lemma openweather_block_sources : forall city d f,
  let f' := snd (fc_provider_block (OPENWEATHER_API_KEY cfg)
                   "OpenWeather forecast failed: %s"
                   (openweather_forecast_body cfg city d) f) in
  configured (OPENWEATHER_API_KEY cfg) = true ->
  fc_sources f' =
    match onecall_result cfg city (fc_world f) with
    | Some (Ok oc) => assoc_set "openweathermap" oc (fc_sources f)
    | _ => fc_sources f
    end.
Proof.
  intros city d f f' C. subst f'. unfold fc_provider_block. rewrite C.
  unfold onecall_result.
  set (J := fun (S : list (string * json)) (f' : fc_frame) => fc_sources f' = S).
  assert (JS : forall S (f1 f2 : fc_frame),
             fc_sources f2 = fc_sources f1 ->
             network (fc_world f2) = network (fc_world f1) -> J S f1 -> J S f2).
  { intros S f1 f2 E1 _ H. unfold J in *. rewrite E1. exact H. }
  match goal with
  | |- fc_sources _ = ?S => apply (sources_try_log (J S) (JS S))
  end.
  unfold J, openweather_forecast_body, bind at 1, fc_io at 1.
  destruct (safe_request _ _ (fc_world f)) as [[ge|e] w1]; cbn [fst snd];
    [|reflexivity].
  destruct (truthy ge); [|reflexivity].
  unfold bind at 1, lift at 1.
  destruct (getitem0 ge) as [g0|e]; [|reflexivity].
  unfold bind at 1, lift at 1.
  destruct (getitem g0 "lat") as [lat|e]; [|reflexivity].
  unfold bind at 1, lift at 1. unfold bind at 1, lift at 1.
  destruct (getitem g0 "lon") as [lon|e]; [|reflexivity].
  unfold bind at 1, fc_io at 1. cbn [fc_world].
  destruct (safe_request _ _ w1) as [[oc|e] w2]; cbn [fst snd];
    [|reflexivity].
  unfold bind at 1. cbn [fc_set_source modify].
  apply (sources_openweather_rest
           (J (assoc_set "openweathermap" oc (fc_sources f))) (JS _)
           city d lat lon oc).
  reflexivity.
Qed.

End ForecastSourcesFacts.

Section ForecastSourcesProperty.
Import Py Py.Notations Net Agg Reports Traffic Describe.
Context `{RT : Runtime}.
Variable cfg : config.

(** X23.  The [sources] of a forecast answer hold WeatherAPI's payload
    and One Call's, in this order, each if its request returned one,
    whether or not its days could then be read; what the geocoder
    returned is never among them. *)
Theorem forecast_sources_are_the_payloads : forall city days w a w',
  aggregated_forecast_from_providers cfg city days w = (Ok a, w') ->
  fc_answer_sources a = forecast_returned cfg city days w.
Proof.
  intros city days w a w' H. unfold aggregated_forecast_from_providers in H.
  rewrite forecast_program_merge in H.
  destruct (merge_forecast _ _) as [r f'] eqn:M. inversion H; subst r w'.
  apply merge_forecast_answer in M. destruct M as (_ & _ & _ & _ & S & _).
  rewrite S. clear S H. unfold collected_frame, forecast_returned, bind.
  set (d := Z.min days MAX_FORECAST_DAYS).
  pose proof (fc_provider_block_ok (WEATHERAPI_KEY cfg)
                "WeatherAPI forecast failed: %s"
                (weatherapi_forecast_body cfg city d) (fc_enter w)) as O1.
  pose proof (weatherapi_block_sources cfg city d (fc_enter w)) as B1.
  cbv zeta in B1.
  assert (N1 : configured (WEATHERAPI_KEY cfg) = false ->
               snd (fc_provider_block (WEATHERAPI_KEY cfg)
                      "WeatherAPI forecast failed: %s"
                      (weatherapi_forecast_body cfg city d) (fc_enter w)) =
               fc_enter w).
  { intros C. unfold fc_provider_block. rewrite C. reflexivity. }
  destruct (fc_provider_block (WEATHERAPI_KEY cfg) _ _ (fc_enter w)) as [r1 f1].
  cbn [fst snd] in O1, B1, N1. subst r1.
  pose proof (fc_provider_block_ok (OPENWEATHER_API_KEY cfg)
                "OpenWeather forecast failed: %s"
                (openweather_forecast_body cfg city d) f1) as O2.
  pose proof (openweather_block_sources cfg city d f1) as B2. cbv zeta in B2.
  assert (N2 : configured (OPENWEATHER_API_KEY cfg) = false ->
               snd (fc_provider_block (OPENWEATHER_API_KEY cfg)
                      "OpenWeather forecast failed: %s"
                      (openweather_forecast_body cfg city d) f1) = f1).
  { intros C. unfold fc_provider_block. rewrite C. reflexivity. }
  destruct (fc_provider_block (OPENWEATHER_API_KEY cfg) _ _ f1) as [r2 f2].
  cbn [fst snd] in O2, B2, N2. subst r2. cbn [snd].
  destruct (configured (WEATHERAPI_KEY cfg)) eqn:C1.
  - destruct (B1 eq_refl) as [S1 W1]. cbn [fc_enter fc_world fc_sources] in S1, W1.
    destruct (weatherapi_forecast_request cfg city d w) as [r w1].
    cbn [fst snd] in S1, W1.
    destruct (configured (OPENWEATHER_API_KEY cfg)) eqn:C2.
    + rewrite (B2 eq_refl), S1, (onecall_result_network cfg city w1 _ W1).
      destruct r as [wa|e];
        destruct (onecall_result cfg city w1) as [[oc|e2]|]; reflexivity.
    + rewrite (N2 eq_refl), S1, app_nil_r. destruct r; reflexivity.
  - rewrite (N1 eq_refl) in *. cbn [fc_enter fc_world fc_sources] in *.
    destruct (configured (OPENWEATHER_API_KEY cfg)) eqn:C2.
    + rewrite (B2 eq_refl).
      destruct (onecall_result cfg city w) as [[oc|e2]|]; reflexivity.
    + rewrite (N2 eq_refl). reflexivity.
Qed.

End ForecastSourcesProperty.

(* ================================================================== *)
(** * Which record a forecast's location is *)
(* ================================================================== *)

Section ForecastAssignments.
Import Py Py.Notations Net Agg Reports Traffic Describe.
Context `{RT : Runtime}.
Variable cfg : config.

Ltac crack :=
  match goal with
  | |- context [dict_get ?x _ _] => is_var x; destruct x; cbn
  | |- context [getitem0 ?x] => is_var x; destruct x; cbn
  | |- context [gmtime_date ?x] => destruct (gmtime_date x); cbn
  | |- context [match ?l with [] => _ | _ :: _ => _ end] => is_var l; destruct l; cbn
  | |- context [match ?s with EmptyString => _ | String _ _ => _ end] =>
      is_var s; destruct s; cbn
  | |- context [match assoc ?k ?kv with Some _ => _ | None => _ end] =>
      destruct (assoc k kv); cbn
  | |- context [match ?x with JNull => _ | _ => _ end] => is_var x; destruct x; cbn
  end.

(** The body of OpenWeather's loop runs to its end exactly on the days
    [day_read] tells, whatever the frame, and binds [location] at its
    end and nowhere before. *)
Lemma openweather_day_outcome : forall city lat lon day f,
  exists r f',
    openweather_day city lat lon day f = (r, f') /\
    is_ok r = day_read day /\
    fc_location f' =
      if day_read day then Some (location_record city lat lon)
      else fc_location f.
Proof.
  intros city lat lon day f.
  unfold openweather_day, day_read, bind, lift, ret, setdefault_day,
    append_day_temps, append_day_mins, append_day_maxs, append_day_conds,
    on_day, fc_set_location, modify.
  cbn [hashable].
  repeat first [ eexists _, _; split; [reflexivity|split; reflexivity] | crack ].
Qed.

(** The loop binds [location] during its first day or never. *)
Lemma openweather_loop_location : forall city lat lon items f,
  fc_location (snd (for_each items (openweather_day city lat lon) f)) =
  match items with
  | day :: _ =>
      if day_read day then Some (location_record city lat lon)
      else fc_location f
  | [] => fc_location f
  end.
Proof.
  intros city lat lon [|day rest] f; [reflexivity|].
  cbn [for_each]. unfold bind.
  destruct (openweather_day_outcome city lat lon day f) as (r & f' & E & O & L).
  rewrite E. destruct r as [[]|e]; cbn in O; rewrite <- O in *; [|exact L].
  assert (K : preserves
                (fun f => fc_location f = Some (location_record city lat lon))
                (for_each rest (openweather_day city lat lon))).
  { apply preserves_for_each. intros d.
    apply preserves_openweather_day.
    - intros f1 f2 E1 H. rewrite E1. exact H.
    - intros f1 _. reflexivity. }
  apply K. exact L.
Qed.

Lemma location_try_log : forall (body : M fc_frame unit) fmt f,
  fc_location
    (snd (try_except body any_exception (fun _ => fc_io (log ERROR fmt)) f)) =
  fc_location (snd (body f)).
Proof.
  intros body fmt f. unfold try_except.
  destruct (body f) as [[[]|e] f2]; reflexivity.
Qed.

(** [location] after OpenWeather's block. *)
Lemma openweather_block_location : forall city d f,
  fc_location
    (snd (fc_provider_block (OPENWEATHER_API_KEY cfg)
            "OpenWeather forecast failed: %s"
            (openweather_forecast_body cfg city d) f)) =
  match openweather_assigns cfg city d (fc_world f) with
  | Some l => Some l
  | None => fc_location f
  end.
Proof.
  intros city d f. unfold fc_provider_block, openweather_assigns.
  destruct (configured (OPENWEATHER_API_KEY cfg)); [|reflexivity].
  rewrite location_try_log.
  unfold geocoded, onecall_days, openweather_forecast_body, bind at 1,
    fc_io at 1.
  destruct (safe_request _ _ (fc_world f)) as [[ge|e] w1]; cbn [fst snd];
    [|reflexivity].
  destruct (truthy ge); [|reflexivity].
  unfold bind at 1, lift at 1.
  destruct (getitem0 ge) as [g0|e]; [|reflexivity].
  unfold bind at 1, lift at 1.
  destruct (getitem g0 "lat") as [lat|e]; [|reflexivity].
  unfold bind at 1, lift at 1. unfold bind at 1, lift at 1.
  destruct (getitem g0 "lon") as [lon|e]; [|reflexivity].
  unfold bind at 1, fc_io at 1. cbn [fc_world].
  destruct (safe_request _ _ w1) as [[oc|e] w2]; cbn [fst snd];
    [|reflexivity].
  unfold bind at 1. cbn [fc_set_source modify].
  unfold bind at 1, lift at 1.
  destruct (dict_get oc "daily" (JArr [])) as [daily|e]; cbn [and_then];
    [|reflexivity].
  unfold bind at 1, lift at 1.
  destruct (iterate_slice daily d) as [items|e]; [|reflexivity].
  rewrite openweather_loop_location. cbn [fc_location].
  destruct items as [|day rest]; [reflexivity|].
  destruct (day_read day); reflexivity.
Qed.

(** What OpenWeather's block assigns depends on the scripted answers
    only, not on the clock or on the log. *)
Lemma openweather_assigns_network : forall city d w w',
  network w' = network w ->
  openweather_assigns cfg city d w' = openweather_assigns cfg city d w.
Proof.
  intros city d w w' N. unfold openweather_assigns, geocoded.
  destruct (configured (OPENWEATHER_API_KEY cfg)); [|reflexivity].
  destruct (safe_request_network
              "http://api.openweathermap.org/geo/1.0/direct"
              [("q", JStr city); ("limit", JInt 1);
               ("appid", JStr (OPENWEATHER_API_KEY cfg))] w w' N) as [E1 E2].
  destruct (safe_request _ _ w') as [r1' w1'].
  destruct (safe_request _ _ w) as [r1 w1]. cbn [fst snd] in E1, E2. subst r1'.
  destruct r1 as [ge|e]; [|reflexivity].
  destruct (truthy ge); [|reflexivity].
  destruct (getitem0 ge) as [g0|]; [|reflexivity].
  destruct (getitem g0 "lat") as [lat|]; [|reflexivity].
  destruct (getitem g0 "lon") as [lon|]; [|reflexivity].
  destruct (safe_request_network
              "https://api.openweathermap.org/data/2.5/onecall"
              [("lat", lat); ("lon", lon);
               ("appid", JStr (OPENWEATHER_API_KEY cfg));
               ("units", JStr "metric");
               ("exclude", JStr "minutely,hourly,alerts")] w1 w1' E2) as [E3 _].
  rewrite E3. reflexivity.
Qed.

(** The location of a forecast answer is the record assigned last:
    OpenWeather's when its block assigned one, WeatherAPI's otherwise. *)
Lemma aggregated_forecast_assigned : forall city days w a w',
  aggregated_forecast_from_providers cfg city days w = (Ok a, w') ->
  let d := Z.min days MAX_FORECAST_DAYS in
  Some (fc_answer_location a) =
  match openweather_assigns cfg city d (after_weatherapi cfg city d w) with
  | Some l => Some l
  | None => weatherapi_assigns cfg city d w
  end.
Proof.
  intros city days w a w' H d.
  destruct (aggregated_forecast_answer cfg city days w a w' H) as (_ & L & _).
  rewrite <- L. clear L H. unfold collected_frame, bind. fold d.
  pose proof (fc_provider_block_ok (WEATHERAPI_KEY cfg)
                "WeatherAPI forecast failed: %s"
                (weatherapi_forecast_body cfg city d) (fc_enter w)) as O1.
  pose proof (weatherapi_forecast_location cfg city d (fc_enter w)) as L1.
  pose proof (weatherapi_block_sources cfg city d (fc_enter w)) as B1.
  cbv zeta in B1.
  assert (N1 : configured (WEATHERAPI_KEY cfg) = false ->
               snd (fc_provider_block (WEATHERAPI_KEY cfg)
                      "WeatherAPI forecast failed: %s"
                      (weatherapi_forecast_body cfg city d) (fc_enter w)) =
               fc_enter w).
  { intros C. unfold fc_provider_block. rewrite C. reflexivity. }
  destruct (fc_provider_block (WEATHERAPI_KEY cfg) _ _ (fc_enter w)) as [r1 f1].
  cbn [fst snd] in O1, L1, B1, N1. subst r1.
  pose proof (fc_provider_block_ok (OPENWEATHER_API_KEY cfg)
                "OpenWeather forecast failed: %s"
                (openweather_forecast_body cfg city d) f1) as O2.
  pose proof (openweather_block_location city d f1) as L2.
  destruct (fc_provider_block (OPENWEATHER_API_KEY cfg) _ _ f1) as [r2 f2].
  cbn [fst snd] in O2, L2. subst r2. cbn [snd]. rewrite L2, L1.
  cbn [fc_enter fc_world fc_location].
  unfold weatherapi_assigns, after_weatherapi.
  destruct (configured (WEATHERAPI_KEY cfg)) eqn:C1.
  - destruct (B1 eq_refl) as [_ W1]. cbn [fc_enter fc_world] in W1.
    rewrite (openweather_assigns_network city d _ _ W1).
    destruct (openweather_assigns cfg city d _); [reflexivity|].
    destruct (fst (weatherapi_forecast_request cfg city d w)) as [wa|];
      [|reflexivity].
    destruct (location_of WeatherAPI wa); reflexivity.
  - rewrite (N1 eq_refl). reflexivity.
Qed.

End ForecastAssignments.

(* ================================================================== *)
(** * The claims about the merge *)
(* ================================================================== *)

Section MergeClaims.
Import Py Py.Notations Net Agg Reports.
Context `{RT : Runtime}.
Variable cfg : config.




(** C6, as the code has it.  The location of an answer is the record
    assigned last, whatever it holds.  For current conditions it is the
    record reported last, that of the last provider in call order whose
    block ran to its end.  For a forecast it is OpenWeather's record,
    the city as it was asked for with the coordinates of the geocoder's
    first match, whenever OpenWeather's block assigned it, which it does
    after WeatherAPI's block and once its loop has run to the end of
    the first day; it is the record of WeatherAPI's response otherwise.
    It is always one provider's record, never an average. *)
Theorem C6_location :
  (forall city w a w',
     aggregated_current_from_providers cfg city w = (Ok a, w') ->
     exists earlier,
       reported_locations (responses cfg city w) = earlier ++ [cur_location a]) /\
  (forall city days w a w',
     aggregated_forecast_from_providers cfg city days w = (Ok a, w') ->
     let d := Z.min days MAX_FORECAST_DAYS in
     Some (fc_answer_location a) =
     match Describe.openweather_assigns cfg city d
             (Describe.after_weatherapi cfg city d w) with
     | Some l => Some l
     | None => Describe.weatherapi_assigns cfg city d w
     end).
Proof.
  split.
  - intros city w a w' H.
    destruct (aggregated_current_answer cfg city w a w' H)
      as (_ & _ & _ & _ & L & _). exact L.
  - intros city days w a w' H.
    exact (aggregated_forecast_assigned cfg city days w a w' H).
Qed.


End MergeClaims.


Section MergeExamples.
Import Py Py.Notations Net Agg Reports Examples.
#[local] Existing Instance example_runtime.







(** C6 at [two_providers] and at [forecast_two], where both blocks
    assign a record and OpenWeather's, assigned last, is the answer's. *)
Lemma C6_location_witness :
  (exists earlier,
     reported_locations (responses both_keys "London" two_providers)
     = earlier ++ [cur_location london]) /\
  Some (fc_answer_location london_forecast) =
    match Describe.openweather_assigns both_keys "London"
            (Z.min 3 MAX_FORECAST_DAYS)
            (Describe.after_weatherapi both_keys "London"
               (Z.min 3 MAX_FORECAST_DAYS) forecast_two) with
    | Some l => Some l
    | None =>
        Describe.weatherapi_assigns both_keys "London"
          (Z.min 3 MAX_FORECAST_DAYS) forecast_two
    end /\
  Describe.weatherapi_assigns both_keys "London" (Z.min 3 MAX_FORECAST_DAYS)
    forecast_two = Some weatherapi_london /\
  fc_answer_location london_forecast =
    location_record "London" (JNum (103 # 2)) (JNum (-1 # 8)).
Proof.
  split; [|split; [|split]].
  - refine (proj1 (C6_location both_keys) "London" two_providers london
              (snd (aggregated_current_from_providers both_keys "London"
                      two_providers)) _).
    vm_compute. reflexivity.
  - refine (proj2 (C6_location both_keys) "London" 3 forecast_two
              london_forecast
              (snd (aggregated_forecast_from_providers both_keys "London" 3
                      forecast_two)) _).
    vm_compute. reflexivity.
  - vm_compute. reflexivity.
  - vm_compute. reflexivity.
Defined.

(** Against C6 as stated: both providers succeed, OpenWeather first, and
    the merged location is WeatherAPI's. *)
Lemma C6_counterexample :
  fst (aggregated_current_from_providers both_keys "London" two_providers)
    = Ok london /\
  reported_locations (responses both_keys "London" two_providers)
    = [openweather_london; weatherapi_london] /\
  cur_location london = weatherapi_london /\
  py_eqb openweather_london weatherapi_london = false.
Proof. vm_compute. repeat split. Qed.



(** What the failed provider left behind in [openweather_partial]. *)
Example partial_data_is_merged :
  map succeeded (responses both_keys "London" openweather_partial)
    = [false; true] /\
  reported_temps (responses both_keys "London" openweather_partial)
    = [20%Q; 22%Q] /\
  temperature_c london_partial = 21%Q.
Proof. vm_compute. repeat split. Qed.

(** The two other crashes behind a guard that passed. *)
Example crash_on_conds :
  fst (aggregated_current_from_providers openweather_only "London"
         (world_of [ok_200 ow_no_weather_items])) = Raise (KeyError "conds").
Proof. vm_compute. reflexivity. Qed.

Example crash_on_location :
  fst (aggregated_current_from_providers openweather_only "London"
         (world_of [ok_200 ow_bad_coord])) = Raise (UnboundLocalError "location").
Proof. vm_compute. reflexivity. Qed.

End MergeExamples.

(* ================================================================== *)
(** * The claims about requests, the cache and the routes *)
(* ================================================================== *)

Section RequestClaims.
Import Py Py.Notations Net Reports.

Lemma fetch_exchange : forall url params w a rest,
  network w = a :: rest ->
  fetch url params w =
  (exchange a, {| clock := clock w + latency a; network := rest;
                  trace := trace w ++ [Get url params] |}).
Proof.
  intros url params w a rest N.
  unfold fetch, bind, requests_get, raise_for_status, resp_json, exchange.
  rewrite N. cbn [tl]. destruct a as [lat [[]|st b]]; cbn; try reflexivity.
  destruct ((400 <=? st) && (st <? 600)); cbn; [reflexivity|].
  destruct b; reflexivity.
Qed.

Lemma exchange_raises : forall a e,
  exchange a = Raise e -> is_RequestException e = true.
Proof.
  intros [lat [[]|st b]] e; unfold exchange; cbn;
    try (intros H; inversion H; reflexivity).
  destruct ((400 <=? st) && (st <? 600)); [intros H; inversion H; reflexivity|].
  destruct b; intros H; inversion H; reflexivity.
Qed.

(** C7, as the code has it.  [safe_request] returns the first attempt's
    JSON when there is one; whenever the first attempt fails (time-out,
    refused connection, any 4xx or 5xx status, undecodable body) it logs,
    sleeps 300 ms and makes exactly one more attempt, whose JSON it
    returns or whose exception it lets through after logging it. *)
Theorem C7_one_retry : forall url params w a1 a2 rest,
  network w = a1 :: a2 :: rest ->
  safe_request url params w =
  match exchange a1 with
  | Ok j =>
      (Ok j, {| clock := clock w + latency a1; network := a2 :: rest;
                trace := trace w ++ [Get url params] |})
  | Raise _ =>
      (exchange a2,
       {| clock := clock w + latency a1 + 300 + latency a2; network := rest;
          trace := trace w ++
                   [Get url params; Log WARNING "Request failed: %s %s %s";
                    Sleep 300; Get url params] ++
                   match exchange a2 with
                   | Ok _ => []
                   | Raise _ => [Log ERROR "Retry failed for %s: %s"]
                   end |})
  end.
Proof.
  intros url params w a1 a2 rest N. unfold safe_request, try_except.
  rewrite (fetch_exchange url params w a1 (a2 :: rest) N).
  destruct (exchange a1) as [j|e] eqn:E1; [reflexivity|].
  rewrite (exchange_raises a1 e E1).
  unfold bind at 1. unfold log at 1, emit, modify.
  unfold bind at 1. unfold sleep, modify.
  cbn [clock network trace].
  rewrite (fetch_exchange url params _ a2 rest) by reflexivity.
  cbn [clock network trace].
  destruct (exchange a2) as [j|e2]; cbn.
  - rewrite <- !app_assoc. reflexivity.
  - unfold bind, log, emit, modify, raise. cbn.
    rewrite <- !app_assoc. reflexivity.
Qed.

End RequestClaims.

Section CacheClaims.
Import Py Py.Notations Net Agg Cache Threads Routes Reports.
Context `{RT : Runtime}.
Variable cfg : config.


Lemma responses_network : forall city w w',
  network w' = network w -> responses cfg city w' = responses cfg city w.
Proof.
  intros city w w' N. unfold responses.
  destruct (configured (OPENWEATHER_API_KEY cfg)).
  - unfold openweather_current_request, weatherapi_current_request.
    destruct (safe_request_network
                "https://api.openweathermap.org/data/2.5/weather"
                [("q", JStr city); ("appid", JStr (OPENWEATHER_API_KEY cfg));
                 ("units", JStr "metric")] w w' N) as [E1 E2].
    destruct (safe_request _ _ w') as [r1' w1'].
    destruct (safe_request _ _ w) as [r1 w1].
    cbn [fst snd] in E1, E2. subst r1'.
    destruct (configured (WEATHERAPI_KEY cfg)); [|reflexivity].
    destruct (safe_request_network
                "http://api.weatherapi.com/v1/current.json"
                [("key", JStr (WEATHERAPI_KEY cfg)); ("q", JStr city)]
                w1 w1' E2) as [E3 _].
    rewrite E3. reflexivity.
  - destruct (configured (WEATHERAPI_KEY cfg)); [|reflexivity].
    unfold weatherapi_current_request.
    destruct (safe_request_network
                "http://api.weatherapi.com/v1/current.json"
                [("key", JStr (WEATHERAPI_KEY cfg)); ("q", JStr city)]
                w w' N) as [E3 _].
    rewrite E3. reflexivity.
Qed.

(** C8, as the code has it.  With no provider configured, as with every
    configured provider's request failed, the aggregator raises one and
    the same [RuntimeError], and [/weather/current] answers 502 "All
    providers failed": the two conditions are not told apart. *)
Theorem C8_no_provider_configured :
  (forall city w,
     configured (OPENWEATHER_API_KEY cfg) = false ->
     configured (WEATHERAPI_KEY cfg) = false ->
     aggregated_current_from_providers cfg city w =
     (Raise (RuntimeError
        "All external providers failed or no provider configured."), w)) /\
  (forall city w,
     forallb request_failed (responses cfg city w) = true ->
     fst (aggregated_current_from_providers cfg city w) =
     Raise (RuntimeError
       "All external providers failed or no provider configured.")) /\
  (forall req s,
     let location := strip (or_default (arg_location req) "") in
     String.eqb location "" = false ->
     find (KeyCurrent location) (cache s) = None ->
     forallb request_failed (responses cfg location (env s)) = true ->
     fst (current_weather cfg req s) =
     Ok (respond
           (ErrorDetails "All providers failed"
              (RuntimeError
                 "All external providers failed or no provider configured."))
           502)).
Proof.
  split; [|split].
  - intros city w H1 H2.
    unfold aggregated_current_from_providers, current_program, provider_block.
    rewrite H1, H2. reflexivity.
  - apply aggregated_current_all_failed.
  - intros req s location NE F A. unfold current_weather. fold location.
    rewrite NE.
    assert (L : lookup (KeyCurrent location) s = (Ok None, s)).
    { destruct s as [c w]. unfold lookup, cache_getitem. cbn in *.
      rewrite F. reflexivity. }
    pose (w1 := {| clock := clock (env s); network := network (env s);
                   trace := trace (env s) ++
                            [Log INFO "Cache miss for current: %s"] |}).
    pose proof (aggregated_current_all_failed cfg location w1) as G.
    rewrite (responses_network location (env s) w1 eq_refl) in G.
    specialize (G A).
    assert (C : cached_current cfg location s =
                (Raise (RuntimeError
                   "All external providers failed or no provider configured."),
                 {| cache := cache s;
                    env := snd (aggregated_current_from_providers cfg location w1) |})).
    { unfold cached_current, cached, bind. rewrite L.
      unfold io, current_func, bind, log, emit, modify. cbn [env cache].
      change {| clock := clock (env s); network := network (env s);
                trace := trace (env s) ++
                         [Log INFO "Cache miss for current: %s"] |} with w1.
      destruct (aggregated_current_from_providers cfg location w1) as [r w2].
      cbn in G. subst r. reflexivity. }
    eapply guarded_runtime_error. exact C.
Qed.



(** C4, as the code has it.  [/weather/forecast] rejects a day count
    outside 1..[MAX_FORECAST_DAYS] with a 400 and touches neither the cache
    nor a provider; the aggregator caps the count at [MAX_FORECAST_DAYS]
    before any request, so that a request that carries a day count
    carries the capped one, and its answer has at most that many days. *)
Theorem C4_day_count :
  (forall req s days,
     parse_days req = Some days ->
     String.eqb (strip (or_default (arg_location req) "")) "" = false ->
     days <= 0 \/ MAX_FORECAST_DAYS < days ->
     forecast_weather cfg req s =
     (Ok (respond (Error "days must be between 1 and 7") 400), s)) /\
  (forall city days w,
     extends (sends_days (Z.min days MAX_FORECAST_DAYS)) w
       (snd (aggregated_forecast_from_providers cfg city days w))) /\
  (forall city days w a w',
     aggregated_forecast_from_providers cfg city days w = (Ok a, w') ->
     0 <= days ->
     (List.length (forecast a) <= Z.to_nat (Z.min days MAX_FORECAST_DAYS))%nat).
Proof.
  split; [|split].
  - intros req s days PD NE R. unfold forecast_weather. rewrite PD, NE.
    assert (B : (days <=? 0) || (MAX_FORECAST_DAYS <? days) = true).
    { apply orb_true_iff. destruct R as [R|R];
        [left; apply Z.leb_le|right; apply Z.ltb_lt]; exact R. }
    rewrite B. reflexivity.
  - apply aggregated_forecast_sends.
  - intros city days w a w' H D.
    destruct (aggregated_forecast_answer cfg city days w a w' H) as (_ & _ & L).
    apply L. exact D.
Qed.

End CacheClaims.

Section CacheExamples.
Import Py Py.Notations Net Agg Cache Threads Routes Reports Examples.
#[local] Existing Instance example_runtime.

(** C7 at a 503 followed by an answer. *)
Lemma C7_one_retry_witness :
  safe_request "http://api.weatherapi.com/v1/current.json" []
    (world_of [status_only 503; ok_200 (wa_current 22 72 "Sunny")]) =
  (Ok (wa_current 22 72 "Sunny"),
   {| clock := 500; network := [];
      trace := [Get "http://api.weatherapi.com/v1/current.json" [];
                Log WARNING "Request failed: %s %s %s"; Sleep 300;
                Get "http://api.weatherapi.com/v1/current.json" []] |}).
Proof.
  exact (C7_one_retry "http://api.weatherapi.com/v1/current.json" []
           (world_of [status_only 503; ok_200 (wa_current 22 72 "Sunny")])
           (status_only 503) (ok_200 (wa_current 22 72 "Sunny")) [] eq_refl).
Defined.

(** Against C7 as stated: a 404 and a body that is not JSON, neither of
    them transient, are each followed by the sleep and the second
    attempt. *)
Lemma C7_counterexample :
  safe_request "http://api.weatherapi.com/v1/current.json" []
    (world_of [status_only 404; ok_200 (wa_current 22 72 "Sunny")]) =
  (Ok (wa_current 22 72 "Sunny"),
   {| clock := 500; network := [];
      trace := [Get "http://api.weatherapi.com/v1/current.json" [];
                Log WARNING "Request failed: %s %s %s"; Sleep 300;
                Get "http://api.weatherapi.com/v1/current.json" []] |}) /\
  safe_request "http://api.weatherapi.com/v1/current.json" []
    (world_of [not_json; not_json]) =
  (Raise (RequestException InvalidJSON),
   {| clock := 460; network := [];
      trace := [Get "http://api.weatherapi.com/v1/current.json" [];
                Log WARNING "Request failed: %s %s %s"; Sleep 300;
                Get "http://api.weatherapi.com/v1/current.json" [];
                Log ERROR "Retry failed for %s: %s"] |}).
Proof. split; reflexivity. Qed.



(** C8 with no key, and with both keys and every connection refused. *)
Lemma C8_no_provider_configured_witness :
  aggregated_current_from_providers no_keys "London" two_providers =
    (Raise (RuntimeError
       "All external providers failed or no provider configured."),
     two_providers) /\
  fst (aggregated_current_from_providers both_keys "London" (world_of [])) =
    Raise (RuntimeError
      "All external providers failed or no provider configured.") /\
  fst (current_weather both_keys (query "London") (fresh [])) =
    Ok (respond
          (ErrorDetails "All providers failed"
             (RuntimeError
                "All external providers failed or no provider configured."))
          502).
Proof.
  split; [|split].
  - exact (proj1 (C8_no_provider_configured no_keys) "London" two_providers
             eq_refl eq_refl).
  - refine (proj1 (proj2 (C8_no_provider_configured both_keys)) "London"
              (world_of []) _).
    vm_compute. reflexivity.
  - refine (proj2 (proj2 (C8_no_provider_configured both_keys))
              (query "London") (fresh []) _ _ _).
    + vm_compute. reflexivity.
    + vm_compute. reflexivity.
    + vm_compute. reflexivity.
Defined.

(** Against C8 as stated: with no key configured and with both keys
    configured and every connection refused, [/weather/current] gives the
    same answer. *)
Lemma C8_counterexample :
  fst (current_weather no_keys (query "London") (fresh [])) =
  Ok (respond
        (ErrorDetails "All providers failed"
           (RuntimeError
              "All external providers failed or no provider configured."))
        502) /\
  fst (current_weather both_keys (query "London") (fresh [])) =
  Ok (respond
        (ErrorDetails "All providers failed"
           (RuntimeError
              "All external providers failed or no provider configured."))
        502).
Proof. vm_compute. split; reflexivity. Qed.



(** C4 at [days=0] on the route and at three days in the aggregator. *)
Lemma C4_day_count_witness :
  forecast_weather both_keys (query_days "London" "0") (fresh []) =
    (Ok (respond (Error "days must be between 1 and 7") 400), fresh []) /\
  (List.length (forecast london_forecast)
   <= Z.to_nat (Z.min 3 MAX_FORECAST_DAYS))%nat.
Proof.
  split.
  - refine (proj1 (C4_day_count both_keys) (query_days "London" "0") (fresh []) 0
              eq_refl eq_refl _).
    left. lia.
  - refine (proj2 (proj2 (C4_day_count both_keys)) "London" 3 forecast_two
              london_forecast
              (snd (aggregated_forecast_from_providers both_keys "London" 3
                      forecast_two)) _ _).
    + vm_compute. reflexivity.
    + lia.
Defined.

(** Against C4 as stated: with [days=50] the route answers 400 and asks
    no provider, though both would have answered. *)
Lemma C4_counterexample :
  forecast_weather both_keys (query_days "London" "50")
    {| cache := []; env := forecast_two |} =
  (Ok (respond (Error "days must be between 1 and 7") 400),
   {| cache := []; env := forecast_two |}).
Proof. reflexivity. Qed.

(** What the aggregator itself does with 50 days, and with none. *)
Example fifty_days_capped :
  trace (snd (aggregated_forecast_from_providers weatherapi_only "London" 50
                forecast_broken)) =
  [Get "http://api.weatherapi.com/v1/forecast.json"
     [("key", JStr "wa-key"); ("q", JStr "London"); ("days", JInt 7)];
   Log ERROR "WeatherAPI forecast failed: %s"].
Proof. vm_compute. reflexivity. Qed.

Example zero_days_not_rejected :
  fst (aggregated_forecast_from_providers both_keys "London" 0 forecast_two) =
  Ok {| fc_answer_location := weatherapi_london; forecast := [];
        fc_answer_sources :=
          fc_answer_sources
            (value_or no_forecast
               (fst (aggregated_forecast_from_providers both_keys "London" 0
                       forecast_two))) |}.
Proof. vm_compute. reflexivity. Qed.

End CacheExamples.

(* ================================================================== *)
(** * The requests the program makes *)
(* ================================================================== *)

Section TrafficFacts.
Import Py Py.Notations Net Reports Traffic.

Lemma requested_refl : forall w, requested [] w w.
Proof. intros w. exists []. rewrite app_nil_r. split; reflexivity. Qed.

Lemma requested_trans : forall l1 l2 w1 w2 w3,
  requested l1 w1 w2 -> requested l2 w2 w3 -> requested (l1 ++ l2) w1 w3.
Proof.
  intros l1 l2 w1 w2 w3 (t1 & E1 & F1) (t2 & E2 & F2). exists (t1 ++ t2).
  rewrite E2, E1, app_assoc, filter_app, F1, F2. split; reflexivity.
Qed.

(** Events that are no requests add nothing. *)
Lemma requested_none : forall w w',
  extends (fun e => is_request e = false) w w' -> requested [] w w'.
Proof.
  intros w w' (t & E & F). exists t. split; [exact E|]. clear E.
  induction F as [|e t He F IH]; [reflexivity|]. cbn. rewrite He. exact IH.
Qed.

Lemma requested_quiet : forall l w1 w2 w3,
  requested l w1 w2 -> extends (fun e => is_request e = false) w2 w3 ->
  requested l w1 w3.
Proof.
  intros l w1 w2 w3 H Q. rewrite <- (app_nil_r l).
  eapply requested_trans; [exact H|]. apply requested_none. exact Q.
Qed.

Lemma quiet_requested : forall l w1 w2 w3,
  extends (fun e => is_request e = false) w1 w2 -> requested l w2 w3 ->
  requested l w1 w3.
Proof.
  intros l w1 w2 w3 Q H. change l with ([] ++ l).
  eapply requested_trans; [|exact H]. apply requested_none. exact Q.
Qed.

(** What [safe_request] does to the world, whatever the world: one
    request when the first exchange gives JSON, two otherwise. *)
Lemma safe_request_requests : forall url params w,
  exists n,
    (n = 1 \/ n = 2)%nat /\
    requested (repeat (Get url params) n) w (snd (safe_request url params w)) /\
    network (snd (safe_request url params w)) = skipn n (network w) /\
    (n = 1%nat <-> is_ok (fst (fetch url params w)) = true).
Proof.
  intros url params w. unfold safe_request, try_except.
  destruct (fetch_next url params (network w)) as (r & t & H1).
  rewrite (H1 w eq_refl).
  destruct r as [j|e].
  - exists 1%nat. cbn [snd fst is_ok]. split; [left; reflexivity|].
    split; [|split].
    + exists [Get url params]. split; reflexivity.
    + destruct (network w); reflexivity.
    + split; reflexivity.
  - assert (He : is_RequestException e = true)
      by (eapply fetch_raises_request_exception; exact (H1 w eq_refl)).
    rewrite He.
    destruct (fetch_next url params (tl (network w))) as (r2 & t2 & H2).
    unfold bind, log, emit, sleep, modify.
    rewrite !H2 by reflexivity.
    exists 2%nat. split; [right; reflexivity|].
    assert (N : tl (tl (network w)) = skipn 2 (network w)).
    { destruct (network w) as [|a [|b l]]; reflexivity. }
    destruct r2; cbn [fst snd is_ok trace network].
    + split; [|split; [exact N|split; [discriminate|discriminate]]].
      eexists. rewrite <- !app_assoc. split; [reflexivity|]. reflexivity.
    + split; [|split; [exact N|split; [discriminate|discriminate]]].
      cbn. eexists. rewrite <- !app_assoc. split; [reflexivity|]. reflexivity.
Qed.

(** Whatever [safe_request] raises is a [RequestException]. *)
Lemma safe_request_raises : forall url params w e,
  fst (safe_request url params w) = Raise e -> is_RequestException e = true.
Proof.
  intros url params w e. unfold safe_request, try_except.
  destruct (fetch url params w) as [[j|e1] w1] eqn:F1; [discriminate|].
  rewrite (fetch_raises_request_exception _ _ _ _ _ F1).
  unfold bind at 1. unfold log at 1, emit, modify.
  unfold bind at 1. unfold sleep, modify.
  match goal with |- context [fetch url params ?w2] =>
    destruct (fetch url params w2) as [[j|e2] w3] eqn:F2 end.
  - discriminate.
  - cbn. intros H. inversion H. subst.
    eapply fetch_raises_request_exception. exact F2.
Qed.

End TrafficFacts.

(* ================================================================== *)
(** * [/locations/search] *)
(* ================================================================== *)

Section SearchFacts.
Import Py Py.Notations Net Agg Routes Reports Search Traffic Describe.
Context `{RT : Runtime}.
Variable cfg : config.

Lemma lstrip_empty : forall s, String.eqb (lstrip s) "" = blank s.
Proof.
  induction s as [|c s IH]; [reflexivity|]. cbn.
  destruct (is_space c); [exact IH|reflexivity].
Qed.

Lemma rstrip_empty : forall s, String.eqb (rstrip s) "" = blank s.
Proof.
  induction s as [|c s IH]; [reflexivity|]. cbn.
  destruct (rstrip s) eqn:R.
  - cbn in IH. rewrite <- IH. destruct (is_space c); reflexivity.
  - cbn in IH. rewrite <- IH. rewrite andb_false_r. reflexivity.
Qed.

Lemma lstrip_not_blank : forall s,
  blank (lstrip s) = true -> lstrip s = "".
Proof.
  induction s as [|c s IH]; [reflexivity|]. cbn.
  destruct (is_space c) eqn:C; [exact IH|]. cbn. rewrite C. discriminate.
Qed.

(** [not s.strip()] holds of the strings of whitespace, and of no other. *)
Lemma strip_empty : forall s, String.eqb (strip s) "" = blank s.
Proof.
  intros s. unfold strip. rewrite rstrip_empty.
  destruct (blank (lstrip s)) eqn:B.
  - apply lstrip_not_blank in B. rewrite <- lstrip_empty, B. reflexivity.
  - rewrite <- lstrip_empty.
    destruct (lstrip s); [discriminate B|reflexivity].
Qed.

Lemma found_object : forall kv, found (JObj kv) = Ok (entry_of kv).
Proof. reflexivity. Qed.

Lemma found_other : forall g,
  is_object g = false -> found g = Raise AttributeError.
Proof. intros [] H; try reflexivity. discriminate H. Qed.

Lemma comprehension_objects : forall kvs,
  comprehension found (map JObj kvs) = Ok (map entry_of kvs).
Proof.
  induction kvs as [|kv kvs IH]; [reflexivity|].
  cbn [map comprehension]. rewrite found_object. cbn [and_then].
  rewrite IH. reflexivity.
Qed.

Lemma comprehension_spoiled : forall items,
  forallb is_object items = false ->
  comprehension found items = Raise AttributeError.
Proof.
  induction items as [|g items IH]; [discriminate|]. cbn [forallb comprehension].
  destruct (is_object g) eqn:O.
  - destruct g; try discriminate O. rewrite found_object. cbn.
    intros H. rewrite (IH H). reflexivity.
  - intros _. rewrite (found_other g O). reflexivity.
Qed.

Lemma comprehension_raises : forall items e,
  comprehension found items = Raise e -> e = AttributeError.
Proof.
  induction items as [|g items IH]; intros e; [discriminate|].
  cbn [comprehension]. destruct g; cbn; try (intros H; inversion H; reflexivity).
  destruct (comprehension found items) as [ys|e'] eqn:C; cbn;
    [discriminate|]. intros H. inversion H. subst. apply IH. reflexivity.
Qed.

(** The handler of the [try]. *)
Lemma search_guard : forall q w,
  String.eqb (strip (or_default q "")) "" = false ->
  locations_search cfg q w =
  match search_body cfg (strip (or_default q "")) w with
  | (Ok resp, w1) => (Ok resp, w1)
  | (Raise e, w1) =>
      (Ok (reply (FailureDetails "Failed to search locations" e) 502),
       {| clock := clock w1; network := network w1;
          trace := trace w1 ++ [Log ERROR "locations_search error: %s"] |})
  end.
Proof.
  intros q w H. unfold locations_search. rewrite H. unfold try_except.
  destruct (search_body cfg _ w) as [[resp|e] w1]; reflexivity.
Qed.

Lemma search_body_world : forall q w,
  snd (search_body cfg q w) =
  if configured (OPENWEATHER_API_KEY cfg)
  then snd (openweather_search_request cfg q w)
  else if configured (WEATHERAPI_KEY cfg)
  then snd (weatherapi_search_request cfg q w)
  else w.
Proof.
  intros q w. unfold search_body.
  destruct (configured (OPENWEATHER_API_KEY cfg)).
  - unfold bind at 1.
    destruct (openweather_search_request cfg q w) as [[ge|e] w1]; [|reflexivity].
    unfold bind, lift. destruct (iterate ge); [|reflexivity].
    destruct (comprehension found a); reflexivity.
  - destruct (configured (WEATHERAPI_KEY cfg)); [|reflexivity].
    unfold bind at 1.
    destruct (weatherapi_search_request cfg q w) as [[ge|e] w1]; [|reflexivity].
    unfold bind, lift. destruct (iterate ge); [|reflexivity].
    destruct (comprehension found a); reflexivity.
Qed.

Lemma search_body_status : forall q w resp w1,
  search_body cfg q w = (Ok resp, w1) ->
  search_status resp = 200 \/ search_status resp = 500.
Proof.
  intros q w resp w1. unfold search_body.
  destruct (configured (OPENWEATHER_API_KEY cfg)).
  - unfold bind at 1.
    destruct (openweather_search_request cfg q w) as [[ge|e] w2]; [|discriminate].
    unfold bind, lift. destruct (iterate ge); [|discriminate].
    destruct (comprehension found a); [|discriminate].
    cbn. intros H. inversion H. left. reflexivity.
  - destruct (configured (WEATHERAPI_KEY cfg)).
    + unfold bind at 1.
      destruct (weatherapi_search_request cfg q w) as [[ge|e] w2]; [|discriminate].
      unfold bind, lift. destruct (iterate ge); [|discriminate].
      destruct (comprehension found a); [|discriminate].
      cbn. intros H. inversion H. left. reflexivity.
    + cbn. intros H. inversion H. right. reflexivity.
Qed.

(** A query of whitespace is turned away at once. *)
Lemma locations_search_blank : forall q w,
  blank (or_default q "") = true ->
  locations_search cfg q w =
  (Ok (reply (Failure "q query parameter required") 400), w).
Proof.
  intros q w B. unfold locations_search. rewrite strip_empty, B. reflexivity.
Qed.

End SearchFacts.

Section SearchProperties.
Import Py Py.Notations Net Agg Routes Reports Search Traffic Describe.
Context `{RT : Runtime}.
Variable cfg : config.

(** X1.  [locations_search] answers a query that is missing or made of
    whitespace only with 400, and a proper query with 500 when neither
    key is set; in both cases it asks nothing of any provider and logs
    nothing. *)
Theorem search_rejects_before_any_request :
  (forall q w,
     blank (or_default q "") = true ->
     locations_search cfg q w =
     (Ok (reply (Failure "q query parameter required") 400), w)) /\
  (forall q w,
     blank (or_default q "") = false ->
     configured (OPENWEATHER_API_KEY cfg) = false ->
     configured (WEATHERAPI_KEY cfg) = false ->
     locations_search cfg q w =
     (Ok (reply (Failure
        "No geocoding provider configured (set OPENWEATHER_API_KEY or WEATHERAPI_KEY).")
        500), w)).
Proof.
  split.
  - apply locations_search_blank.
  - intros q w B C1 C2. rewrite search_guard by (rewrite strip_empty; exact B).
    unfold search_body. rewrite C1, C2. reflexivity.
Qed.

(** X2.  A search asks one provider only: OpenWeather's geocoder when
    its key is set, whether or not the request succeeds and whether or
    not WeatherAPI's key is set too, otherwise WeatherAPI's search.  The
    request carries the stripped query and goes out once or twice. *)
Theorem search_asks_one_provider : forall q w,
  blank (or_default q "") = false ->
  let query := strip (or_default q "") in
  exists n,
    (n = 1 \/ n = 2)%nat /\
    requested
      (if configured (OPENWEATHER_API_KEY cfg)
       then repeat (openweather_search_get cfg query) n
       else if configured (WEATHERAPI_KEY cfg)
       then repeat (weatherapi_search_get cfg query) n
       else [])
      w (snd (locations_search cfg q w)).
Proof.
  intros q w B query.
  rewrite search_guard by (rewrite strip_empty; exact B). fold query.
  pose proof (search_body_world cfg query w) as W.
  assert (G : forall l,
            requested l w (snd (search_body cfg query w)) ->
            requested l w
              (snd (match search_body cfg query w with
                    | (Ok resp, w1) => (Ok resp, w1)
                    | (Raise e, w1) =>
                        (Ok (reply (FailureDetails "Failed to search locations" e)
                               502),
                         {| clock := clock w1; network := network w1;
                            trace := trace w1 ++
                                     [Log ERROR "locations_search error: %s"] |})
                    end))).
  { intros l H. destruct (search_body cfg query w) as [[resp|e] w1]; [exact H|].
    eapply requested_quiet; [exact H|]. cbn [snd].
    exists [Log ERROR "locations_search error: %s"]. split; [reflexivity|].
    constructor; [reflexivity|constructor]. }
  destruct (configured (OPENWEATHER_API_KEY cfg)).
  - destruct (safe_request_requests
                "http://api.openweathermap.org/geo/1.0/direct"
                [("q", JStr query); ("limit", JInt 10);
                 ("appid", JStr (OPENWEATHER_API_KEY cfg))] w)
      as (n & Hn & R & _).
    exists n. split; [exact Hn|]. apply G. rewrite W. exact R.
  - destruct (configured (WEATHERAPI_KEY cfg)).
    + destruct (safe_request_requests
                  "http://api.weatherapi.com/v1/search.json"
                  [("key", JStr (WEATHERAPI_KEY cfg)); ("q", JStr query)] w)
        as (n & Hn & R & _).
      exists n. split; [exact Hn|]. apply G. rewrite W. exact R.
    + exists 1%nat. split; [left; reflexivity|]. apply G. rewrite W.
      apply requested_refl.
Qed.

(** X3.  When the provider answers with a list of objects, the search
    answers 200 with one entry per object, in the provider's order, a
    missing name or country printed as [None] and a missing coordinate
    given as [None]: the first ten objects with OpenWeather, all of them
    with WeatherAPI. *)
Theorem search_lists_what_the_provider_found :
  (forall q w kvs w1,
     blank (or_default q "") = false ->
     configured (OPENWEATHER_API_KEY cfg) = true ->
     openweather_search_request cfg (strip (or_default q "")) w =
       (Ok (JArr (map JObj kvs)), w1) ->
     locations_search cfg q w =
       (Ok (reply (Results (firstn 10 (map entry_of kvs))) 200), w1)) /\
  (forall q w kvs w1,
     blank (or_default q "") = false ->
     configured (OPENWEATHER_API_KEY cfg) = false ->
     configured (WEATHERAPI_KEY cfg) = true ->
     weatherapi_search_request cfg (strip (or_default q "")) w =
       (Ok (JArr (map JObj kvs)), w1) ->
     locations_search cfg q w =
       (Ok (reply (Results (map entry_of kvs)) 200), w1)).
Proof.
  split.
  - intros q w kvs w1 B C R.
    rewrite search_guard by (rewrite strip_empty; exact B).
    unfold search_body. rewrite C. unfold bind at 1. rewrite R.
    unfold bind, lift. cbn [iterate]. rewrite comprehension_objects.
    reflexivity.
  - intros q w kvs w1 B C1 C2 R.
    rewrite search_guard by (rewrite strip_empty; exact B).
    unfold search_body. rewrite C1, C2. unfold bind at 1. rewrite R.
    unfold bind, lift. cbn [iterate]. rewrite comprehension_objects.
    reflexivity.
Qed.

(** X4.  One item that is not an object spoils the whole search: the
    provider's list is not filtered, the [AttributeError] of the item
    ends the comprehension and the answer is 502, after one log entry. *)
Theorem search_fails_on_one_bad_item : forall q w items w1,
  blank (or_default q "") = false ->
  configured (OPENWEATHER_API_KEY cfg) = true ->
  openweather_search_request cfg (strip (or_default q "")) w =
    (Ok (JArr items), w1) ->
  forallb is_object items = false ->
  locations_search cfg q w =
    (Ok (reply (FailureDetails "Failed to search locations" AttributeError) 502),
     {| clock := clock w1; network := network w1;
        trace := trace w1 ++ [Log ERROR "locations_search error: %s"] |}).
Proof.
  intros q w items w1 B C R S.
  rewrite search_guard by (rewrite strip_empty; exact B).
  unfold search_body. rewrite C. unfold bind at 1. rewrite R.
  unfold bind, lift. cbn [iterate]. rewrite (comprehension_spoiled items S).
  reflexivity.
Qed.

(** X5.  [locations_search] never raises: whatever the query and the
    world it answers, with 200, 400, 500 or 502; and what it reports
    with 502 is a failed request, a payload that cannot be iterated
    over, or an item that is not an object. *)
Theorem search_always_answers : forall q w,
  exists resp,
    fst (locations_search cfg q w) = Ok resp /\
    In (search_status resp) [200; 400; 500; 502] /\
    (search_status resp = 502 ->
     exists e,
       search_payload_of resp = FailureDetails "Failed to search locations" e /\
       (is_RequestException e = true \/ e = TypeError \/ e = AttributeError)).
Proof.
  intros q w. destruct (blank (or_default q "")) eqn:B.
  - rewrite (locations_search_blank cfg q w B).
    eexists. split; [reflexivity|]. split; [cbn; auto|]. cbn. discriminate.
  - rewrite search_guard by (rewrite strip_empty; exact B).
    set (query := strip (or_default q "")).
    destruct (search_body cfg query w) as [[resp|e] w1] eqn:S.
    + exists resp. split; [reflexivity|].
      destruct (search_body_status cfg _ _ _ _ S) as [E|E]; rewrite E;
        (split; [cbn; auto|discriminate]).
    + eexists. split; [reflexivity|]. split; [cbn; auto|].
      intros _. exists e. split; [reflexivity|].
      revert S. unfold search_body.
      assert (K : forall (m : M world json) (cap : list json -> list json),
                (forall e', fst (m w) = Raise e' -> is_RequestException e' = true) ->
                (ge <- m ;;
                 items <- lift (iterate ge) ;;
                 results <- lift (comprehension found items) ;;
                 ret (reply (Results (cap results)) 200))%py w = (Raise e, w1) ->
                is_RequestException e = true \/ e = TypeError \/ e = AttributeError).
      { intros m cap Hm. unfold bind at 1.
        destruct (m w) as [[ge|e'] w2] eqn:Em.
        - unfold bind, lift. destruct ge; cbn;
            try (intros H; inversion H; right; left; reflexivity).
          + destruct (comprehension found (chars s)) eqn:C; cbn;
              [discriminate|]. intros H. inversion H. subst.
            right. right. eapply comprehension_raises. exact C.
          + destruct (comprehension found l) eqn:C; cbn; [discriminate|].
            intros H. inversion H. subst.
            right. right. eapply comprehension_raises. exact C.
          + destruct (comprehension found _) eqn:C; cbn; [discriminate|].
            intros H. inversion H. subst.
            right. right. eapply comprehension_raises. exact C.
        - intros H. inversion H. subst. left. apply Hm. reflexivity. }
      destruct (configured (OPENWEATHER_API_KEY cfg)).
      * apply (K _ (slice_to 10)). intros e'. apply safe_request_raises.
      * destruct (configured (WEATHERAPI_KEY cfg)).
        -- apply (K _ (fun l => l)). intros e'. apply safe_request_raises.
        -- discriminate.
Qed.

End SearchProperties.

(* ================================================================== *)
(** * The requests of the two aggregators *)
(* ================================================================== *)

Section CurrentTraffic.
Import Py Py.Notations Net Agg Reports Traffic Describe.
Context `{RT : Runtime}.
Variable cfg : config.

(** The final merge reads its frame and leaves it as it is. *)
Lemma merge_current_frame : forall f, snd (merge_current f) = f.
Proof.
  intros f. unfold merge_current, bind, get, lift.
  destruct (results_empty (results f)); [reflexivity|].
  destruct (subscript "temps" (temps (results f))); [|reflexivity].
  destruct (mean a); [|reflexivity].
  destruct (subscript "feels" (feels (results f))); [|reflexivity].
  destruct (mean a1); [|reflexivity].
  destruct (subscript "humidities" (humidities (results f))); [|reflexivity].
  destruct (mean (map inject_Z a3)); [|reflexivity].
  destruct (subscript "conds" (conds (results f))); [|reflexivity].
  destruct (read_location (location f)); reflexivity.
Qed.

(** A [try] block adds at most a log entry to what its body did. *)
Lemma provider_block_world : forall key fmt body f res f',
  configured key = true ->
  body f = (res, f') ->
  exists w2,
    provider_block key fmt body f =
    (Ok tt, {| results := results f'; sources := sources f';
               location := location f'; cur_world := w2 |}) /\
    extends (fun e => is_request e = false) (cur_world f') w2.
Proof.
  intros key fmt body f res f' Hc Hb. unfold provider_block, try_except.
  rewrite Hc, Hb. destruct res as [[]|e].
  - exists (cur_world f'). destruct f'. split; [reflexivity|].
    apply extends_refl.
  - cbn. eexists. split; [reflexivity|]. cbn.
    exists [Log ERROR fmt]. split; [reflexivity|].
    constructor; [reflexivity|constructor].
Qed.

Lemma current_program_requests : forall city w,
  exists n1 n2,
    attempts (OPENWEATHER_API_KEY cfg) n1 /\
    attempts (WEATHERAPI_KEY cfg) n2 /\
    requested (repeat (openweather_current_get cfg city) n1 ++
               repeat (weatherapi_current_get cfg city) n2)
      w (cur_world (snd (current_program cfg city (cur_enter w)))).
Proof.
  intros city w. unfold current_program, attempts.
  assert (B2 : forall f,
            exists n2,
              (if configured (WEATHERAPI_KEY cfg)
               then n2 = 1%nat \/ n2 = 2%nat else n2 = 0%nat) /\
              requested (repeat (weatherapi_current_get cfg city) n2)
                (cur_world f)
                (cur_world
                   (snd ((provider_block (WEATHERAPI_KEY cfg)
                            "WeatherAPI failed: %s"
                            (weatherapi_current_body cfg city) ;;
                          merge_current)%py f)))).
  { intros f. unfold bind.
    destruct (configured (WEATHERAPI_KEY cfg)) eqn:C2.
    - destruct (weatherapi_body cfg city f) as (res & E & _).
      destruct (provider_block_world _ "WeatherAPI failed: %s" _ f res _ C2 E)
        as (w2 & H2 & Q2).
      rewrite H2, merge_current_frame. cbn [cur_world] in *.
      destruct (safe_request_requests
                  "http://api.weatherapi.com/v1/current.json"
                  [("key", JStr (WEATHERAPI_KEY cfg)); ("q", JStr city)]
                  (cur_world f)) as (n & Hn & R & _).
      exists n. split; [exact Hn|].
      eapply requested_quiet; [exact R|exact Q2].
    - unfold provider_block. rewrite C2. cbn [ret].
      rewrite merge_current_frame. exists 0%nat. split; [reflexivity|].
      apply requested_refl. }
  unfold bind at 1.
  destruct (configured (OPENWEATHER_API_KEY cfg)) eqn:C1.
  - destruct (openweather_body cfg city (cur_enter w)) as (res & E & _).
    destruct (provider_block_world _ "OpenWeather failed: %s" _ _ res _ C1 E)
      as (w1 & H1 & Q1).
    rewrite H1. cbn [cur_world cur_enter] in *.
    destruct (safe_request_requests
                "https://api.openweathermap.org/data/2.5/weather"
                [("q", JStr city); ("appid", JStr (OPENWEATHER_API_KEY cfg));
                 ("units", JStr "metric")] w) as (n1 & Hn1 & R1 & _).
    match goal with
    | |- context [snd (?m ?f)] => destruct (B2 f) as (n2 & Hn2 & R2)
    end.
    exists n1, n2. split; [exact Hn1|]. split; [exact Hn2|].
    eapply requested_trans; [|exact R2]. cbn [cur_world].
    eapply requested_quiet; [exact R1|exact Q1].
  - unfold provider_block at 1. rewrite C1. cbn [ret].
    destruct (B2 (cur_enter w)) as (n2 & Hn2 & R2).
    exists 0%nat, n2. split; [reflexivity|]. split; [exact Hn2|]. exact R2.
Qed.

End CurrentTraffic.

Section ForecastTraffic.
Import Py Py.Notations Net Agg Reports Traffic Describe.
Context `{RT : Runtime}.
Variable cfg : config.

Ltac frame_op :=
  match goal with
  | |- emits_only _ _ (fc_set_source _ _) => apply emits_modify; reflexivity
  | |- emits_only _ _ (fc_set_location _) => apply emits_modify; reflexivity
  | |- emits_only _ _ (append_day_temps _ _) => apply emits_modify; reflexivity
  | |- emits_only _ _ (append_day_mins _ _) => apply emits_modify; reflexivity
  | |- emits_only _ _ (append_day_maxs _ _) => apply emits_modify; reflexivity
  | |- emits_only _ _ (append_day_conds _ _) => apply emits_modify; reflexivity
  | |- emits_only _ _ (setdefault_day ?x) =>
      unfold setdefault_day; destruct (hashable x);
      [apply emits_modify; reflexivity|apply emits_raise]
  end.

Ltac quiet :=
  repeat first
    [ apply emits_ret | apply emits_lift | apply emits_raise | frame_op
    | apply emits_bind; [|intros ?]
    | match goal with
      | |- emits_only _ _ (match ?x with _ => _ end) => destruct x
      end ].

Lemma quiet_weatherapi_day : forall day,
  emits_only fc_world no_request (weatherapi_day day).
Proof. intros day. unfold weatherapi_day. quiet. Qed.

Lemma quiet_openweather_day : forall city lat lon day,
  emits_only fc_world no_request (openweather_day city lat lon day).
Proof. intros city lat lon day. unfold openweather_day. quiet. Qed.

Lemma merge_forecast_frame : forall d f, snd (merge_forecast d f) = f.
Proof.
  intros d f. unfold merge_forecast, bind, get, lift.
  destruct (daily_aggregate f); [reflexivity|].
  destruct (sorted_items _); [|reflexivity].
  destruct (summarize_all _); [|reflexivity].
  destruct (read_location _); reflexivity.
Qed.

Lemma fc_provider_block_requests : forall key fmt body l f,
  requested l (fc_world f) (fc_world (snd (body f))) ->
  configured key = true ->
  requested l (fc_world f) (fc_world (snd (fc_provider_block key fmt body f))).
Proof.
  intros key fmt body l f H C. unfold fc_provider_block, try_except.
  rewrite C. destruct (body f) as [[[]|e] f']; [exact H|].
  cbn [any_exception]. eapply requested_quiet; [exact H|].
  unfold fc_io, log, emit, modify. cbn.
  exists [Log ERROR fmt]. split; [reflexivity|].
  constructor; [reflexivity|constructor].
Qed.

Lemma weatherapi_forecast_requests : forall city d f,
  exists n,
    (n = 1 \/ n = 2)%nat /\
    requested (repeat (weatherapi_forecast_get cfg city d) n) (fc_world f)
      (fc_world (snd (weatherapi_forecast_body cfg city d f))).
Proof.
  intros city d f. unfold weatherapi_forecast_body.
  destruct (safe_request_requests
              "http://api.weatherapi.com/v1/forecast.json"
              [("key", JStr (WEATHERAPI_KEY cfg)); ("q", JStr city);
               ("days", JInt d)] (fc_world f)) as (n & Hn & R & _).
  exists n. split; [exact Hn|].
  unfold bind at 1, fc_io at 1, weatherapi_forecast_request.
  destruct (safe_request _ _ (fc_world f)) as [[wa|e] w1]; [|exact R].
  cbn [snd] in R.
  match goal with
  | |- requested _ _ (fc_world (snd (?m ?f1))) =>
      assert (Q : emits_only fc_world no_request m)
  end.
  { quiet. apply emits_for_each. apply quiet_weatherapi_day. }
  eapply requested_quiet; [exact R|]. exact (Q _).
Qed.

Lemma openweather_forecast_requests : forall city d f,
  exists n2 n3 lat lon,
    (n2 = 1 \/ n2 = 2)%nat /\ (n3 <= 2)%nat /\
    requested (repeat (geocode_get cfg city) n2 ++
               repeat (onecall_get cfg lat lon) n3) (fc_world f)
      (fc_world (snd (openweather_forecast_body cfg city d f))).
Proof.
  intros city d f. unfold openweather_forecast_body.
  destruct (safe_request_requests
              "http://api.openweathermap.org/geo/1.0/direct"
              [("q", JStr city); ("limit", JInt 1);
               ("appid", JStr (OPENWEATHER_API_KEY cfg))] (fc_world f))
    as (n2 & Hn2 & R2 & _).
  exists n2.
  assert (Z0 : forall w', requested (repeat (geocode_get cfg city) n2)
                            (fc_world f) w' ->
               requested (repeat (geocode_get cfg city) n2 ++
                          repeat (onecall_get cfg JNull JNull) 0)
                 (fc_world f) w').
  { intros w' H. cbn [repeat]. rewrite app_nil_r. exact H. }
  unfold bind at 1, fc_io at 1.
  destruct (safe_request _ _ (fc_world f)) as [[ge|e] w1];
    [|exists 0%nat, JNull, JNull; repeat split; [exact Hn2|lia|apply Z0; exact R2]].
  cbn [snd] in R2.
  destruct (truthy ge);
    [|exists 0%nat, JNull, JNull; repeat split; [exact Hn2|lia|apply Z0; exact R2]].
  unfold bind at 1, lift at 1.
  destruct (getitem0 ge) as [g0|e];
    [|exists 0%nat, JNull, JNull; repeat split; [exact Hn2|lia|apply Z0; exact R2]].
  unfold bind at 1, lift at 1.
  destruct (getitem g0 "lat") as [lat|e];
    [|exists 0%nat, JNull, JNull; repeat split; [exact Hn2|lia|apply Z0; exact R2]].
  unfold bind at 1, lift at 1. unfold bind at 1, lift at 1.
  destruct (getitem g0 "lon") as [lon|e];
    [|exists 0%nat, JNull, JNull; repeat split; [exact Hn2|lia|apply Z0; exact R2]].
  destruct (safe_request_requests
              "https://api.openweathermap.org/data/2.5/onecall"
              [("lat", lat); ("lon", lon);
               ("appid", JStr (OPENWEATHER_API_KEY cfg));
               ("units", JStr "metric");
               ("exclude", JStr "minutely,hourly,alerts")] w1)
    as (n3 & Hn3 & R3 & _).
  exists n3, lat, lon. split; [exact Hn2|]. split; [lia|].
  eapply requested_trans; [exact R2|].
  unfold bind at 1, fc_io at 1. cbn [fc_world].
  destruct (safe_request _ _ w1) as [[oc|e] w2]; [|exact R3].
  cbn [snd] in R3.
  match goal with
  | |- requested _ _ (fc_world (snd (?m ?f1))) =>
      assert (Q : emits_only fc_world no_request m)
  end.
  { quiet. apply emits_for_each. apply quiet_openweather_day. }
  eapply requested_quiet; [exact R3|]. exact (Q _).
Qed.

Lemma forecast_program_requests : forall city days w,
  let d := Z.min days MAX_FORECAST_DAYS in
  exists n1 n2 n3 lat lon,
    attempts (WEATHERAPI_KEY cfg) n1 /\
    attempts (OPENWEATHER_API_KEY cfg) n2 /\
    (n3 <= 2)%nat /\ (n2 = 0%nat -> n3 = 0%nat) /\
    requested (repeat (weatherapi_forecast_get cfg city d) n1 ++
               repeat (geocode_get cfg city) n2 ++
               repeat (onecall_get cfg lat lon) n3)
      w (fc_world (snd (forecast_program cfg city days (fc_enter w)))).
Proof.
  intros city days w d. rewrite forecast_program_merge, merge_forecast_frame.
  unfold collected_frame, attempts. fold d. unfold bind.
  pose proof (fc_provider_block_ok (WEATHERAPI_KEY cfg)
                "WeatherAPI forecast failed: %s"
                (weatherapi_forecast_body cfg city d) (fc_enter w)) as O1.
  assert (R1 : exists n1,
             (if configured (WEATHERAPI_KEY cfg)
              then n1 = 1%nat \/ n1 = 2%nat else n1 = 0%nat) /\
             requested (repeat (weatherapi_forecast_get cfg city d) n1) w
               (fc_world (snd (fc_provider_block (WEATHERAPI_KEY cfg)
                  "WeatherAPI forecast failed: %s"
                  (weatherapi_forecast_body cfg city d) (fc_enter w))))).
  { destruct (configured (WEATHERAPI_KEY cfg)) eqn:C.
    - destruct (weatherapi_forecast_requests city d (fc_enter w)) as (n & Hn & R).
      exists n. split; [exact Hn|].
      apply (fc_provider_block_requests _ _ _ _ (fc_enter w) R C).
    - exists 0%nat. split; [reflexivity|]. unfold fc_provider_block.
      rewrite C. apply requested_refl. }
  destruct (fc_provider_block (WEATHERAPI_KEY cfg) _ _ (fc_enter w)) as [r1 f1].
  cbn [fst snd] in O1, R1. subst r1. destruct R1 as (n1 & Hn1 & R1).
  assert (R2 : exists n2 n3 lat lon,
             (if configured (OPENWEATHER_API_KEY cfg)
              then n2 = 1%nat \/ n2 = 2%nat else n2 = 0%nat) /\
             (n3 <= 2)%nat /\ (n2 = 0%nat -> n3 = 0%nat) /\
             requested (repeat (geocode_get cfg city) n2 ++
                        repeat (onecall_get cfg lat lon) n3) (fc_world f1)
               (fc_world (snd (fc_provider_block (OPENWEATHER_API_KEY cfg)
                  "OpenWeather forecast failed: %s"
                  (openweather_forecast_body cfg city d) f1)))).
  { destruct (configured (OPENWEATHER_API_KEY cfg)) eqn:C.
    - destruct (openweather_forecast_requests city d f1)
        as (n2 & n3 & lat & lon & Hn2 & Hn3 & R).
      exists n2, n3, lat, lon. split; [exact Hn2|]. split; [exact Hn3|].
      split; [destruct Hn2; lia|].
      apply (fc_provider_block_requests _ _ _ _ f1 R C).
    - exists 0%nat, 0%nat, JNull, JNull. split; [reflexivity|].
      split; [lia|]. split; [reflexivity|].
      unfold fc_provider_block. rewrite C. apply requested_refl. }
  destruct R2 as (n2 & n3 & lat & lon & Hn2 & Hn3 & Hz & R2).
  exists n1, n2, n3, lat, lon. split; [exact Hn1|]. split; [exact Hn2|].
  split; [exact Hn3|]. split; [exact Hz|].
  destruct (fc_provider_block (OPENWEATHER_API_KEY cfg) _ _ f1) as [r2 f2].
  cbn [snd] in *. eapply requested_trans; [exact R1|exact R2].
Qed.

End ForecastTraffic.

(* ================================================================== *)
(** * Means, rounding and truncation *)
(* ================================================================== *)

Section Arithmetic.
Import Py.

(** The integer [round_half_even] picks is a nearest one, and an even
    one when two are nearest. *)
Lemma round_half_even_spec : forall q,
  let z := round_half_even q in
  let n := Qnum q in
  let d := Zpos (Qden q) in
  ((2 * z - 1) * d < 2 * n /\ 2 * n < (2 * z + 1) * d) \/
  (2 * n = (2 * z + 1) * d /\ Z.even z = true) \/
  (2 * n = (2 * z - 1) * d /\ Z.even z = true).
Proof.
  intros q z n d. subst z. unfold round_half_even. cbv zeta. fold n d.
  assert (Hd : 0 < d) by (unfold d; lia).
  pose proof (Z.div_mod n d ltac:(lia)) as E.
  pose proof (Z.mod_pos_bound n d Hd) as B.
  set (f := n / d) in *. set (r := n mod d) in *. clearbody f r.
  clearbody d n.
  subst n.
  destruct (2 * r ?= d) eqn:C.
  - apply Z.compare_eq in C. destruct (Z.even f) eqn:Ev.
    + right. left. split; [rewrite <- C; ring|exact Ev].
    + right. right. split; [rewrite <- C; ring|].
      rewrite Z.add_1_r, Z.even_succ, <- Z.negb_even, Ev. reflexivity.
  - change (2 * r < d) in C. left. split; nia.
  - apply Z.compare_gt_iff in C. left. split; nia.
Qed.

Lemma round_half_even_monotone : forall p q,
  (p <= q)%Q -> round_half_even p <= round_half_even q.
Proof.
  intros p q L. unfold Qle in L.
  pose proof (round_half_even_spec p) as Sp.
  pose proof (round_half_even_spec q) as Sq.
  cbv zeta in Sp, Sq.
  set (zp := round_half_even p) in *. set (zq := round_half_even q) in *.
  set (np := Qnum p) in *. set (nq := Qnum q) in *.
  assert (Hp : 0 < Zpos (Qden p)) by lia.
  assert (Hq : 0 < Zpos (Qden q)) by lia.
  set (dp := Zpos (Qden p)) in *. set (dq := Zpos (Qden q)) in *.
  clearbody zp zq np nq dp dq.
  destruct (Z.le_gt_cases zp zq) as [G|G]; [exact G|exfalso].
  assert (Lo : (2 * zp - 1) * dp <= 2 * np)
    by (destruct Sp as [[? ?]|[[? ?]|[? ?]]]; nia).
  assert (Hi : 2 * nq <= (2 * zq + 1) * dq)
    by (destruct Sq as [[? ?]|[[? ?]|[? ?]]]; nia).
  assert (M : (2 * zq + 1) * (dp * dq) <= (2 * zp - 1) * (dp * dq)) by nia.
  assert (C1 : (2 * zp - 1) * (dp * dq) <= 2 * np * dq) by nia.
  assert (C2 : 2 * nq * dp <= (2 * zq + 1) * (dp * dq)) by nia.
  assert (C3 : 2 * np * dq <= 2 * nq * dp) by nia.
  assert (E1 : (2 * zp - 1) * (dp * dq) = 2 * np * dq) by lia.
  assert (E2 : 2 * nq * dp = (2 * zq + 1) * (dp * dq)) by lia.
  assert (E3 : (2 * zq + 1) * (dp * dq) = (2 * zp - 1) * (dp * dq)) by lia.
  assert (Z1 : zp = zq + 1) by nia.
  assert (T1 : 2 * np = (2 * zp - 1) * dp) by nia.
  assert (T2 : 2 * nq = (2 * zq + 1) * dq) by nia.
  assert (Ep : Z.even zp = true).
  { destruct Sp as [[? ?]|[[? ?]|[? ?]]]; [lia|nia|assumption]. }
  assert (Eq' : Z.even zq = true).
  { destruct Sq as [[? ?]|[[? ?]|[? ?]]]; [lia|assumption|nia]. }
  rewrite Z1, Z.add_1_r, Z.even_succ, <- Z.negb_even, Eq' in Ep.
  discriminate Ep.
Qed.

(** [round(x, 2)] keeps the order. *)
Lemma round2_monotone : forall p q, (p <= q)%Q -> (round2 p <= round2 q)%Q.
Proof.
  intros p q L. unfold round2. rewrite !Qred_correct.
  assert (M : (p * 100 <= q * 100)%Q).
  { apply Qmult_le_compat_r; [exact L|]. unfold Qle. cbn. lia. }
  apply round_half_even_monotone in M. unfold Qle. cbn. lia.
Qed.

Lemma Qlen_cons : forall A (x : A) l, (Qlen (x :: l) == 1 + Qlen l)%Q.
Proof.
  intros A x l. unfold Qlen. cbn [List.length].
  rewrite Nat2Z.inj_succ, <- Z.add_1_l, inject_Z_plus. reflexivity.
Qed.

Lemma Qlen_nonneg : forall A (l : list A), (0 <= Qlen l)%Q.
Proof. intros A l. unfold Qlen, Qle. cbn. lia. Qed.

Lemma fold_left_Qplus : forall l acc,
  (fold_left Qplus l acc == acc + fold_left Qplus l 0)%Q.
Proof.
  induction l as [|x l IH]; intros acc; cbn [fold_left].
  - ring.
  - rewrite (IH (acc + x)%Q), (IH (0 + x)%Q). ring.
Qed.

Lemma Qsum_bounds : forall lo hi l,
  (forall x, In x l -> lo <= x /\ x <= hi)%Q ->
  (lo * Qlen l <= Qsum l /\ Qsum l <= hi * Qlen l)%Q.
Proof.
  intros lo hi. induction l as [|x l IH]; intros H.
  - unfold Qsum, Qlen. cbn. split; ring_simplify; apply Qle_refl.
  - unfold Qsum in *. cbn [fold_left]. rewrite fold_left_Qplus.
    rewrite Qlen_cons.
    destruct (H x (or_introl eq_refl)) as [L U].
    destruct (IH (fun y Hy => H y (or_intror Hy))) as [L' U'].
    split; lra.
Qed.

(** The mean of a list that is not empty lies between any two bounds of
    its items. *)
Lemma average_bounds : forall lo hi l,
  l <> [] ->
  (forall x, In x l -> lo <= x /\ x <= hi)%Q ->
  (lo <= average l /\ average l <= hi)%Q.
Proof.
  intros lo hi l N H. unfold average. rewrite Qred_correct.
  destruct (Qsum_bounds lo hi l H) as [L U].
  assert (P : (0 < Qlen l)%Q).
  { destruct l as [|x l]; [contradiction|]. rewrite Qlen_cons.
    pose proof (Qlen_nonneg _ l). lra. }
  split.
  - apply Qle_shift_div_l; assumption.
  - apply Qle_shift_div_r; assumption.
Qed.

(** [int(x)] of a number between two integers lies between them. *)
Lemma Qtruncate_bounds : forall lo hi q,
  (inject_Z lo <= q /\ q <= inject_Z hi)%Q ->
  lo <= Qtruncate q <= hi.
Proof.
  intros lo hi [n d] [L U]. unfold Qtruncate, Qle in *. cbn in *.
  rewrite Z.mul_1_r in *.
  assert (Hd : 0 < Zpos d) by lia. split.
  - rewrite <- (Z.quot_mul lo (Zpos d)) by lia.
    apply Z.quot_le_mono; lia.
  - rewrite <- (Z.quot_mul hi (Zpos d)) by lia.
    apply Z.quot_le_mono; lia.
Qed.

End Arithmetic.

(* ================================================================== *)
(** * More on an answer for current conditions *)
(* ================================================================== *)

Section CurrentSources.
Import Py Py.Notations Net Agg Reports Traffic Describe.
Context `{RT : Runtime}.
Variable cfg : config.

(** The frame the final merge starts from, [sources] included. *)
Lemma current_program_sources : forall city w,
  exists w2,
    current_program cfg city (cur_enter w) =
    merge_current
      {| results := absorb_all (responses cfg city w);
         sources := returned (responses cfg city w);
         location := rebind_all (responses cfg city w);
         cur_world := w2 |}.
Proof.
  intros city w. unfold current_program, responses, absorb_all, rebind_all,
    returned.
  unfold bind at 1.
  destruct (configured (OPENWEATHER_API_KEY cfg)) eqn:C1.
  - destruct (openweather_block cfg city (cur_enter w) C1) as (w1 & H1 & N1).
    rewrite H1. cbn [cur_enter cur_world results sources location] in *.
    destruct (openweather_current_request cfg city w) as [r1 w1'] eqn:R1.
    cbn [fst snd] in *. unfold bind at 1.
    destruct (configured (WEATHERAPI_KEY cfg)) eqn:C2.
    + match goal with
      | |- context [provider_block _ _ _ ?f] =>
          destruct (weatherapi_block cfg city f C2) as (w2 & H2 & N2); rewrite H2
      end.
      cbn [cur_world results sources location] in *.
      destruct (safe_request_network
                  "http://api.weatherapi.com/v1/current.json"
                  [("key", JStr (WEATHERAPI_KEY cfg)); ("q", JStr city)]
                  w1' w1 N1) as [E _].
      unfold weatherapi_current_request in *. rewrite E.
      exists w2. destruct r1 as [j1|e1];
        destruct (fst (safe_request _ _ w1')) as [j2|e2]; reflexivity.
    + unfold provider_block at 1. rewrite C2. cbn [ret].
      eexists. destruct r1 as [j1|e1]; reflexivity.
  - unfold provider_block at 1. rewrite C1. cbn [ret]. unfold bind at 1.
    destruct (configured (WEATHERAPI_KEY cfg)) eqn:C2.
    + match goal with
      | |- context [provider_block _ _ _ ?f] =>
          destruct (weatherapi_block cfg city f C2) as (w2 & H2 & N2); rewrite H2
      end.
      cbn [cur_world cur_enter results sources location] in *.
      exists w2.
      destruct (fst (weatherapi_current_request cfg city w)) as [j2|e2];
        reflexivity.
    + unfold provider_block at 1. rewrite C2. cbn. eexists. reflexivity.
Qed.

Lemma merge_current_sources : forall f a f',
  merge_current f = (Ok a, f') -> cur_sources a = sources f.
Proof.
  intros f a f'. unfold merge_current, bind, get, lift.
  destruct (results_empty (results f)); [discriminate|].
  destruct (subscript "temps" (temps (results f))); [|discriminate].
  destruct (mean a0); [|discriminate].
  destruct (subscript "feels" (feels (results f))); [|discriminate].
  destruct (mean a2); [|discriminate].
  destruct (subscript "humidities" (humidities (results f))); [|discriminate].
  destruct (mean (map inject_Z a4)); [|discriminate].
  destruct (subscript "conds" (conds (results f))); [|discriminate].
  destruct (read_location (location f)); [|discriminate].
  cbn. intros H. inversion H. reflexivity.
Qed.

End CurrentSources.

Section CurrentProperties.
Import Py Py.Notations Net Agg Reports Traffic Describe.
Context `{RT : Runtime}.
Variable cfg : config.

(** X6.  In any world, one whose scripted answers have run out
    included, [safe_request] sends its request once or twice and never
    more, both times with the same URL and parameters, uses up as many
    scripted answers, and lets nothing through but a
    [RequestException]. *)
Theorem safe_request_sends_once_or_twice : forall url params w,
  (exists n,
     (n = 1 \/ n = 2)%nat /\
     requested (repeat (Get url params) n) w (snd (safe_request url params w)) /\
     network (snd (safe_request url params w)) = skipn n (network w)) /\
  (forall e, fst (safe_request url params w) = Raise e ->
             exists f, e = RequestException f).
Proof.
  intros url params w. split.
  - destruct (safe_request_requests url params w) as (n & Hn & R & N & _).
    exists n. auto.
  - intros e H. apply safe_request_raises in H.
    destruct e; try discriminate H. eexists. reflexivity.
Qed.

(** X7.  The current-conditions aggregator asks OpenWeather first and
    WeatherAPI second, each once or twice if its key is set and never
    otherwise, always with the parameters of the source: a provider's
    key goes to that provider only, and a call costs at most four
    requests. *)
Theorem current_fan_out : forall city w,
  exists n1 n2,
    attempts (OPENWEATHER_API_KEY cfg) n1 /\
    attempts (WEATHERAPI_KEY cfg) n2 /\
    requested (repeat (openweather_current_get cfg city) n1 ++
               repeat (weatherapi_current_get cfg city) n2)
      w (snd (aggregated_current_from_providers cfg city w)).
Proof.
  intros city w. unfold aggregated_current_from_providers.
  destruct (current_program_requests cfg city w) as (n1 & n2 & H1 & H2 & R).
  exists n1, n2. split; [exact H1|]. split; [exact H2|].
  destruct (current_program cfg city (cur_enter w)) as [r f]. exact R.
Qed.

(** X9.  The [sources] of an answer for current conditions hold the
    payload of every provider whose request returned one, in call
    order, whether or not the provider's fields could then be read, and
    nothing else. *)
Theorem current_sources_are_the_payloads : forall city w a w',
  aggregated_current_from_providers cfg city w = (Ok a, w') ->
  cur_sources a = returned (responses cfg city w).
Proof.
  intros city w a w' H. unfold aggregated_current_from_providers in H.
  destruct (current_program_sources cfg city w) as (w2 & P).
  rewrite P in H. clear P.
  destruct (merge_current _) as [r f] eqn:M. inversion H; subst r.
  apply merge_current_sources in M. exact M.
Qed.

(** X10.  The merged temperature and the merged feels-like value of an
    answer never leave the range of what the providers reported: they
    lie between the rounded bounds of the reported values. *)
Theorem merged_temperature_within_reports : forall city w a w' lo hi,
  aggregated_current_from_providers cfg city w = (Ok a, w') ->
  ((forall t, In t (reported_temps (responses cfg city w)) ->
              lo <= t /\ t <= hi)%Q ->
   (round2 lo <= temperature_c a /\ temperature_c a <= round2 hi)%Q) /\
  ((forall t, In t (reported_feels (responses cfg city w)) ->
              lo <= t /\ t <= hi)%Q ->
   (round2 lo <= feels_like_c a /\ feels_like_c a <= round2 hi)%Q).
Proof.
  intros city w a w' lo hi H.
  destruct (aggregated_current_answer cfg city w a w' H)
    as (T & F & _ & _ & _ & NT & NF & _).
  split; intros B.
  - rewrite T. destruct (average_bounds lo hi _ NT B) as [L U].
    split; apply round2_monotone; assumption.
  - rewrite F. destruct (average_bounds lo hi _ NF B) as [L U].
    split; apply round2_monotone; assumption.
Qed.

(** X11.  The merged humidity lies between the least and the greatest
    of the humidities the providers reported, although it is cut and not
    rounded. *)
Theorem merged_humidity_within_reports : forall city w a w' lo hi,
  aggregated_current_from_providers cfg city w = (Ok a, w') ->
  (forall h, In h (reported_humidities (responses cfg city w)) ->
             lo <= h <= hi) ->
  lo <= humidity a <= hi.
Proof.
  intros city w a w' lo hi H B.
  destruct (aggregated_current_answer cfg city w a w' H)
    as (_ & _ & Hu & _ & _ & _ & _ & NH).
  rewrite Hu. apply Qtruncate_bounds. apply average_bounds.
  - intros E. apply NH. apply map_eq_nil in E. exact E.
  - intros x Hx. apply in_map_iff in Hx. destruct Hx as (h & <- & Hh).
    destruct (B h Hh) as [L U]. split; rewrite <- Zle_Qle; assumption.
Qed.

End CurrentProperties.

(* ================================================================== *)
(** * The days of a forecast answer *)
(* ================================================================== *)

Section Ordering.
Import Py Describe.

Lemma ascii_compare_trans : forall a b c,
  Ascii.compare a b = Lt -> Ascii.compare b c = Lt -> Ascii.compare a c = Lt.
Proof.
  intros a b c. unfold Ascii.compare. rewrite !N.compare_lt_iff.
  apply N.lt_trans.
Qed.

Lemma string_compare_trans : forall s t u,
  String.compare s t = Lt -> String.compare t u = Lt -> String.compare s u = Lt.
Proof.
  induction s as [|a s IH]; intros [|b t] [|c u]; cbn; try discriminate;
    try reflexivity.
  destruct (Ascii.compare a b) eqn:AB; try discriminate;
    destruct (Ascii.compare b c) eqn:BC; try discriminate.
  - apply Ascii.compare_eq_iff in AB, BC. subst.
    rewrite (proj2 (N.compare_eq_iff _ _) eq_refl : Ascii.compare c c = Eq).
    apply IH.
  - apply Ascii.compare_eq_iff in AB. subst. rewrite BC. reflexivity.
  - apply Ascii.compare_eq_iff in BC. subst. rewrite AB. reflexivity.
  - rewrite (ascii_compare_trans _ _ _ AB BC). reflexivity.
Qed.

(** [<] between two keys of one kind is transitive. *)
Lemma py_ltb_trans_str : forall a b c,
  is_str a = true -> is_str b = true -> is_str c = true ->
  py_ltb a b = true -> py_ltb b c = true -> py_ltb a c = true.
Proof.
  intros [] [] [] A B C; try discriminate. cbn. unfold String.ltb.
  destruct (String.compare s s0) eqn:E1; try discriminate.
  destruct (String.compare s0 s1) eqn:E2; try discriminate.
  rewrite (string_compare_trans _ _ _ E1 E2). reflexivity.
Qed.

Lemma py_ltb_numbers : forall a b p q,
  as_number a = Some p -> as_number b = Some q ->
  py_ltb a b = match Qcompare p q with Lt => true | _ => false end.
Proof.
  intros a b p q A B. destruct a; try discriminate A;
    destruct b; try discriminate B; cbn in *;
    inversion A; inversion B; reflexivity.
Qed.

Lemma py_eqb_numbers : forall a b p q,
  as_number a = Some p -> as_number b = Some q ->
  py_eqb a b = Qeq_bool p q.
Proof.
  intros a b p q A B. destruct a; try discriminate A;
    destruct b; try discriminate B; cbn in *;
    inversion A; inversion B; reflexivity.
Qed.

Lemma is_num_number : forall a, is_num a = true -> exists p, as_number a = Some p.
Proof.
  intros a. unfold is_num. destruct (as_number a) as [p|]; [|discriminate].
  intros _. exists p. reflexivity.
Qed.

Lemma py_ltb_trans_num : forall a b c,
  is_num a = true -> is_num b = true -> is_num c = true ->
  py_ltb a b = true -> py_ltb b c = true -> py_ltb a c = true.
Proof.
  intros a b c A B C.
  destruct (is_num_number a A) as (p & Hp).
  destruct (is_num_number b B) as (q & Hq).
  destruct (is_num_number c C) as (r & Hr).
  rewrite (py_ltb_numbers a b p q Hp Hq), (py_ltb_numbers b c q r Hq Hr),
    (py_ltb_numbers a c p r Hp Hr).
  destruct (Qcompare p q) eqn:E1; try discriminate.
  destruct (Qcompare q r) eqn:E2; try discriminate.
  intros _ _. apply Qlt_alt in E1, E2.
  rewrite (proj1 (Qlt_alt p r) (Qlt_trans _ _ _ E1 E2)). reflexivity.
Qed.

(** Of two keys of one kind that are not equal, one is before the
    other. *)
Lemma py_ltb_total_str : forall a b,
  is_str a = true -> is_str b = true ->
  py_eqb b a = false -> py_ltb a b = false -> py_ltb b a = true.
Proof.
  intros [] [] A B; try discriminate. cbn. unfold String.ltb.
  rewrite (String.compare_antisym s0 s).
  destruct (String.compare s s0) eqn:E; cbn; try discriminate; try reflexivity.
  apply String.compare_eq_iff in E. subst. rewrite String.eqb_refl.
  discriminate.
Qed.

Lemma py_ltb_total_num : forall a b,
  is_num a = true -> is_num b = true ->
  py_eqb b a = false -> py_ltb a b = false -> py_ltb b a = true.
Proof.
  intros a b A B.
  destruct (is_num_number a A) as (p & Hp).
  destruct (is_num_number b B) as (q & Hq).
  rewrite (py_eqb_numbers b a q p Hq Hp), (py_ltb_numbers a b p q Hp Hq),
    (py_ltb_numbers b a q p Hq Hp).
  rewrite <- (Qcompare_antisym p q).
  destruct (Qcompare p q) eqn:E; cbn; try discriminate; try reflexivity.
  apply Qeq_alt in E. intros N. apply Qeq_bool_neq in N.
  exfalso. apply N. symmetry. exact E.
Qed.

Lemma py_eqb_sym : forall a b,
  hashable a = true -> hashable b = true -> py_eqb a b = py_eqb b a.
Proof.
  intros [] [] A B; try discriminate; try reflexivity; cbn;
    try apply Qeq_bool_comm.
  apply String.eqb_sym.
Qed.

Lemma distinct_snoc : forall ks k,
  distinct ks -> hashable k = true ->
  existsb (fun k' => py_eqb k' k) ks = false ->
  distinct (ks ++ [k]).
Proof.
  induction ks as [|x ks IH]; intros k D H E; cbn in *.
  - split; [exact H|]. split; [reflexivity|exact I].
  - destruct D as (Hx & Ex & D). apply orb_false_iff in E. destruct E as [E1 E2].
    split; [exact Hx|]. split; [|apply IH; assumption].
    rewrite existsb_app, Ex. cbn. rewrite orb_false_r.
    rewrite py_eqb_sym by assumption. exact E1.
Qed.

Section OneKind.
Variable kind : json -> bool.
Hypothesis kind_trans : forall a b c,
  kind a = true -> kind b = true -> kind c = true ->
  py_ltb a b = true -> py_ltb b c = true -> py_ltb a c = true.
Hypothesis kind_total : forall a b,
  kind a = true -> kind b = true ->
  py_eqb b a = false -> py_ltb a b = false -> py_ltb b a = true.
Context {A : Type}.

Lemma insert_sorted_ascending : forall (x : json * A) l,
  ascending (map fst l) ->
  kind (fst x) = true ->
  (forall y, In y l -> kind (fst y) = true /\ py_eqb (fst y) (fst x) = false) ->
  ascending (map fst (insert_sorted x l)).
Proof.
  intros x. induction l as [|y l IH]; intros S Kx H; cbn.
  - split; [constructor|exact I].
  - cbn in S. destruct S as [Sy S].
    destruct (H y (or_introl eq_refl)) as [Ky Ny].
    destruct (py_ltb (fst x) (fst y)) eqn:L; cbn.
    + split; [|split; assumption].
      constructor; [exact L|].
      rewrite Forall_forall in *. intros z Hz.
      apply (kind_trans (fst x) (fst y) z Kx Ky).
      * apply in_map_iff in Hz. destruct Hz as (z' & <- & Hz').
        apply (H z' (or_intror Hz')).
      * exact L.
      * apply Sy. exact Hz.
    + split.
      * rewrite Forall_forall in *. intros z Hz.
        apply in_map_iff in Hz. destruct Hz as (z' & <- & Hz').
        apply insert_sorted_in in Hz'. destruct Hz' as [->|Hz'].
        -- apply kind_total; assumption.
        -- apply Sy. apply in_map. exact Hz'.
      * apply IH; [exact S|exact Kx|].
        intros z Hz. apply H. right. exact Hz.
Qed.

Lemma sort_items_ascending : forall (l : list (json * A)),
  distinct (map fst l) ->
  forallb kind (map fst l) = true ->
  ascending (map fst (sort_items l)).
Proof.
  induction l as [|x l IH]; intros D K; cbn; [exact I|].
  cbn in D, K. destruct D as (_ & E & D).
  apply andb_true_iff in K. destruct K as [Kx K].
  apply insert_sorted_ascending; [apply IH; assumption|exact Kx|].
  intros y Hy. apply sort_items_in in Hy. split.
  - rewrite forallb_forall in K. apply K. apply in_map. exact Hy.
  - destruct (py_eqb (fst y) (fst x)) eqn:Q; [|reflexivity].
    assert (X : existsb (fun k' => py_eqb k' (fst x)) (map fst l) = true).
    { apply existsb_exists. exists (fst y). split; [apply in_map; exact Hy|exact Q]. }
    rewrite X in E. discriminate E.
Qed.

End OneKind.

(** What [sorted] returns is in ascending order of the keys. *)
Lemma sorted_items_ascending : forall A (l items : list (json * A)),
  distinct (map fst l) ->
  sorted_items l = Ok items ->
  ascending (map fst items).
Proof.
  intros A l items D. unfold sorted_items.
  destruct l as [|a [|b l]].
  - intros H; inversion H. exact I.
  - intros H; inversion H. cbn. split; [constructor|exact I].
  - unfold classify.
    destruct (forallb is_str (map fst (a :: b :: l))) eqn:S.
    + intros H.
      assert (E : items = sort_items (a :: b :: l)) by (inversion H; reflexivity).
      rewrite E.
      apply (sort_items_ascending is_str py_ltb_trans_str py_ltb_total_str);
        assumption.
    + destruct (forallb is_num (map fst (a :: b :: l))) eqn:N; [|discriminate].
      intros H.
      assert (E : items = sort_items (a :: b :: l)) by (inversion H; reflexivity).
      rewrite E.
      apply (sort_items_ascending is_num py_ltb_trans_num py_ltb_total_num);
        assumption.
Qed.

Lemma ascending_app : forall l1 l2,
  ascending (l1 ++ l2) ->
  ascending l1 /\
  (forall a b, In a l1 -> In b l2 -> py_ltb a b = true).
Proof.
  induction l1 as [|x l1 IH]; intros l2 H; cbn in *.
  - split; [exact I|]. intros a b [].
  - destruct H as [F H]. destruct (IH l2 H) as [S1 X].
    apply Forall_app in F. destruct F as [F1 F2]. split; [split; assumption|].
    intros a b [<-|Ha] Hb.
    + rewrite Forall_forall in F2. apply F2. exact Hb.
    + apply X; assumption.
Qed.

Lemma slice_to_prefix : forall A n (l : list A),
  exists m, slice_to n l = firstn m l.
Proof.
  intros A n l. unfold slice_to. destruct (0 <=? n); eexists; reflexivity.
Qed.

Lemma insert_sorted_length : forall A (x : json * A) l,
  List.length (insert_sorted x l) = S (List.length l).
Proof.
  induction l as [|y l IH]; cbn; [reflexivity|].
  destruct (py_ltb (fst x) (fst y)); cbn; [reflexivity|]. rewrite IH. reflexivity.
Qed.

Lemma sorted_items_length : forall A (l items : list (json * A)),
  sorted_items l = Ok items -> List.length items = List.length l.
Proof.
  intros A l items. unfold sorted_items.
  assert (S : forall l' : list (json * A),
            List.length (sort_items l') = List.length l').
  { induction l' as [|x l' IH]; [reflexivity|].
    change (sort_items (x :: l')) with (insert_sorted x (sort_items l')).
    rewrite insert_sorted_length, IH. reflexivity. }
  destruct l as [|a [|b l]]; try (intros H; inversion H; reflexivity; fail).
  destruct (classify _); intros H; try discriminate H;
    (assert (E : items = sort_items (a :: b :: l))
       by (inversion H; reflexivity)); rewrite E; apply S.
Qed.

Lemma insert_sorted_has : forall A (x y : json * A) l,
  y = x \/ In y l -> In y (insert_sorted x l).
Proof.
  induction l as [|z l IH]; cbn; intros H.
  - destruct H as [->|[]]. left. reflexivity.
  - destruct (py_ltb (fst x) (fst z)); cbn.
    + destruct H as [->|H]; [left; reflexivity|right; exact H].
    + destruct H as [->|[->|H]];
        [right; apply IH; left; reflexivity|left; reflexivity|].
      right. apply IH. right. exact H.
Qed.

Lemma sorted_items_has : forall A (l items : list (json * A)) y,
  sorted_items l = Ok items -> In y l -> In y items.
Proof.
  intros A l items y. unfold sorted_items.
  assert (S : forall l' : list (json * A), In y l' -> In y (sort_items l')).
  { induction l' as [|x l' IH]; [auto|].
    change (sort_items (x :: l')) with (insert_sorted x (sort_items l')).
    intros [->|H]; apply insert_sorted_has; [left; reflexivity|].
    right. apply IH. exact H. }
  destruct l as [|a [|b l]]; try (intros H; inversion H; subst; auto; fail).
  destruct (classify _); intros H; try discriminate H;
    (assert (E : items = sort_items (a :: b :: l))
       by (inversion H; reflexivity)); rewrite E; apply S.
Qed.

End Ordering.

(* ================================================================== *)
(** * The dates the forecast blocks collect *)
(* ================================================================== *)

Section ForecastKeys.
Import Py Py.Notations Net Agg Reports Traffic Describe.
Context `{RT : Runtime}.
Variable cfg : config.

Lemma has_key_keys : forall A k (d : list (json * A)),
  has_key k d = existsb (fun k' => py_eqb k' k) (map fst d).
Proof.
  intros A k. induction d as [|p d IH]; cbn; [reflexivity|].
  rewrite <- IH. reflexivity.
Qed.

Lemma update_day_keys : forall date g d,
  map fst (update_day date g d) = map fst d.
Proof.
  intros date g. induction d as [|[k v] d IH]; cbn; [reflexivity|].
  destruct (py_eqb k date); cbn; [reflexivity|]. rewrite IH. reflexivity.
Qed.

Lemma preserves_keys_io : forall A (m : M world A),
  preserves keys_distinct (fc_io m).
Proof.
  intros A m f H. unfold fc_io. destruct (m (fc_world f)) as [r w']. exact H.
Qed.

Lemma preserves_keys_on_day : forall date g,
  preserves keys_distinct (on_day date g).
Proof.
  intros date g. apply preserves_modify. intros f H.
  unfold keys_distinct in *. cbn. rewrite update_day_keys. exact H.
Qed.

Lemma preserves_keys_setdefault : forall date,
  preserves keys_distinct (setdefault_day date).
Proof.
  intros date. unfold setdefault_day.
  destruct (hashable date) eqn:Hd; [|apply preserves_raise].
  apply preserves_modify. intros f H. unfold keys_distinct in *. cbn.
  destruct (has_key date (daily_aggregate f)) eqn:K; [exact H|].
  rewrite map_app. cbn. apply distinct_snoc; [exact H|exact Hd|].
  rewrite <- has_key_keys. exact K.
Qed.

Ltac keep_op :=
  match goal with
  | |- preserves _ (fc_set_source _ _) =>
      apply preserves_modify; intros ? ?; assumption
  | |- preserves _ (fc_set_location _) =>
      apply preserves_modify; intros ? ?; assumption
  | |- preserves _ (append_day_temps _ _) => apply preserves_keys_on_day
  | |- preserves _ (append_day_mins _ _) => apply preserves_keys_on_day
  | |- preserves _ (append_day_maxs _ _) => apply preserves_keys_on_day
  | |- preserves _ (append_day_conds _ _) => apply preserves_keys_on_day
  | |- preserves _ (setdefault_day _) => apply preserves_keys_setdefault
  | |- preserves _ (fc_io _) => apply preserves_keys_io
  end.

Ltac keeps :=
  repeat first
    [ apply preserves_ret | apply preserves_lift | apply preserves_raise
    | keep_op
    | apply preserves_bind; [|intros ?]
    | match goal with
      | |- preserves _ (match ?x with _ => _ end) => destruct x
      end ].

Lemma preserves_keys_weatherapi_day : forall day,
  preserves keys_distinct (weatherapi_day day).
Proof. intros day. unfold weatherapi_day. keeps. Qed.

Lemma preserves_keys_openweather_day : forall city lat lon day,
  preserves keys_distinct (openweather_day city lat lon day).
Proof. intros city lat lon day. unfold openweather_day. keeps. Qed.

Lemma preserves_keys_block : forall key fmt body,
  preserves keys_distinct body ->
  preserves keys_distinct (fc_provider_block key fmt body).
Proof.
  intros key fmt body H. unfold fc_provider_block.
  destruct (configured key); [|apply preserves_ret].
  apply preserves_try; [exact H|]. intros e. apply preserves_keys_io.
Qed.

(** The dates the two blocks leave behind are pairwise different. *)
Lemma collected_distinct : forall city days w,
  distinct (map fst (collected cfg city days w)).
Proof.
  intros city days w. unfold collected, collected_frame.
  set (d := Z.min days MAX_FORECAST_DAYS).
  assert (P : preserves keys_distinct
                (fc_provider_block (WEATHERAPI_KEY cfg)
                   "WeatherAPI forecast failed: %s"
                   (weatherapi_forecast_body cfg city d) ;;
                 fc_provider_block (OPENWEATHER_API_KEY cfg)
                   "OpenWeather forecast failed: %s"
                   (openweather_forecast_body cfg city d))%py).
  { apply preserves_bind; [|intros _]; apply preserves_keys_block.
    - unfold weatherapi_forecast_body. keeps.
      apply preserves_for_each. apply preserves_keys_weatherapi_day.
    - unfold openweather_forecast_body. keeps.
      apply preserves_for_each. apply preserves_keys_openweather_day. }
  apply (P (fc_enter w)). exact I.
Qed.

Lemma summarize_all_dates : forall items ss,
  summarize_all items = Ok ss -> map date ss = map fst items.
Proof.
  intros items ss H. apply summarize_all_each in H.
  induction H as [|[d data] s items ss Hs H IH]; [reflexivity|].
  cbn. apply summarize_day in Hs. destruct Hs as [-> _]. rewrite IH.
  reflexivity.
Qed.

Lemma ascending_firstn : forall m l, ascending l -> ascending (firstn m l).
Proof.
  intros m l H. rewrite <- (firstn_skipn m l) in H.
  apply ascending_app in H. apply H.
Qed.

(** What the final merge of a forecast lists: the days of a prefix of
    the collected dates put in order. *)
Lemma forecast_days : forall city days w a w',
  aggregated_forecast_from_providers cfg city days w = (Ok a, w') ->
  exists items m,
    sorted_items (collected cfg city days w) = Ok items /\
    slice_to (Z.min days MAX_FORECAST_DAYS) items = firstn m items /\
    map date (forecast a) = map fst (firstn m items) /\
    ascending (map fst items) /\
    collected cfg city days w <> [].
Proof.
  intros city days w a w' H. unfold aggregated_forecast_from_providers in H.
  rewrite forecast_program_merge in H.
  destruct (merge_forecast _ _) as [r f'] eqn:M. inversion H; subst r w'.
  apply merge_forecast_answer in M.
  destruct M as (items & S & A & _ & _ & N).
  destruct (slice_to_prefix _ (Z.min days MAX_FORECAST_DAYS) items) as (m & Em).
  exists items, m. split; [exact S|]. split; [exact Em|].
  split; [rewrite <- Em; apply summarize_all_dates; exact A|].
  split; [|exact N].
  eapply sorted_items_ascending; [|exact S]. apply collected_distinct.
Qed.

End ForecastKeys.

Section ForecastProperties.
Import Py Py.Notations Net Agg Reports Traffic Describe.
Context `{RT : Runtime}.
Variable cfg : config.

(** X8.  The forecast aggregator asks WeatherAPI first, then
    OpenWeather's geocoder, then One Call for one pair of coordinates,
    each once or twice and always with the parameters of the source; a
    provider whose key is not set is never asked, One Call is asked only
    after the geocoder and may not be asked at all, and a call costs at
    most six requests. *)
Theorem forecast_fan_out : forall city days w,
  exists n1 n2 n3 lat lon,
    attempts (WEATHERAPI_KEY cfg) n1 /\
    attempts (OPENWEATHER_API_KEY cfg) n2 /\
    (n3 <= 2)%nat /\ (n2 = 0%nat -> n3 = 0%nat) /\
    requested
      (repeat (weatherapi_forecast_get cfg city (Z.min days MAX_FORECAST_DAYS)) n1 ++
       repeat (geocode_get cfg city) n2 ++
       repeat (onecall_get cfg lat lon) n3)
      w (snd (aggregated_forecast_from_providers cfg city days w)).
Proof.
  intros city days w. unfold aggregated_forecast_from_providers.
  destruct (forecast_program_requests cfg city days w)
    as (n1 & n2 & n3 & lat & lon & H1 & H2 & H3 & H4 & R).
  exists n1, n2, n3, lat, lon. repeat (split; [assumption|]).
  destruct (forecast_program cfg city days (fc_enter w)) as [r f]. exact R.
Qed.

(** X12.  The days of a forecast answer come in strictly ascending
    order of their dates: no date is listed twice. *)
Theorem forecast_dates_ascend : forall city days w a w',
  aggregated_forecast_from_providers cfg city days w = (Ok a, w') ->
  ascending (map date (forecast a)).
Proof.
  intros city days w a w' H.
  destruct (forecast_days cfg city days w a w' H) as (items & m & _ & _ & D & S & _).
  rewrite D, <- firstn_map. apply ascending_firstn. exact S.
Qed.

(** X13.  When more dates were collected than the answer may list, the
    earliest are kept: a collected date that is not in the answer comes
    after every date that is. *)
Theorem forecast_keeps_the_earliest_dates : forall city days w a w' k,
  aggregated_forecast_from_providers cfg city days w = (Ok a, w') ->
  In k (map fst (collected cfg city days w)) ->
  In k (map date (forecast a)) \/
  Forall (fun d => py_ltb d k = true) (map date (forecast a)).
Proof.
  intros city days w a w' k H K.
  destruct (forecast_days cfg city days w a w' H) as (items & m & So & _ & D & S & _).
  rewrite D. apply in_map_iff in K. destruct K as (item & <- & K).
  apply (sorted_items_has _ _ _ _ So) in K.
  rewrite <- (firstn_skipn m items) in K, S.
  apply in_app_or in K. destruct K as [K|K].
  - left. apply in_map. exact K.
  - right. rewrite map_app in S. apply ascending_app in S. destruct S as [_ S].
    apply Forall_forall. intros d Hd. apply S; [exact Hd|].
    apply in_map. exact K.
Qed.

(** X14.  A forecast answer lists as many days as dates were collected,
    up to the day count capped at [MAX_FORECAST_DAYS]; asked for one day
    or more it lists at least one. *)
Theorem forecast_day_count : forall city days w a w',
  aggregated_forecast_from_providers cfg city days w = (Ok a, w') ->
  (0 <= days ->
   List.length (forecast a) =
   Nat.min (Z.to_nat (Z.min days MAX_FORECAST_DAYS))
           (List.length (collected cfg city days w))) /\
  (1 <= days -> forecast a <> []).
Proof.
  intros city days w a w' H.
  destruct (forecast_days cfg city days w a w' H) as (items & m & So & Sl & D & _ & N).
  assert (L : 0 <= days ->
              List.length (forecast a) =
              Nat.min (Z.to_nat (Z.min days MAX_FORECAST_DAYS))
                      (List.length (collected cfg city days w))).
  { intros P. rewrite <- (length_map date), D, <- Sl, length_map.
    unfold slice_to.
    assert (Q : (0 <=? Z.min days MAX_FORECAST_DAYS) = true)
      by (apply Z.leb_le; unfold MAX_FORECAST_DAYS; lia).
    rewrite Q, length_firstn, (sorted_items_length _ _ _ So). reflexivity. }
  split; [exact L|]. intros P E.
  specialize (L ltac:(lia)). rewrite E in L. cbn in L.
  destruct (collected cfg city days w) as [|x l]; [apply N; reflexivity|].
  cbn [List.length] in L. unfold MAX_FORECAST_DAYS in L. lia.
Qed.

(** X15.  The forecast aggregator fails in three ways only: its own
    [RuntimeError] when no date was collected, a [TypeError] from
    sorting dates of two kinds or from averaging values that are not
    numbers, and the unbound variable [location].  A division by zero
    cannot happen, and no provider's exception gets out. *)
Theorem forecast_raises_only : forall city days w e,
  fst (aggregated_forecast_from_providers cfg city days w) = Raise e ->
  e = RuntimeError "No forecast data available from configured providers." \/
  e = TypeError \/ e = UnboundLocalError "location".
Proof.
  intros city days w e. unfold aggregated_forecast_from_providers.
  rewrite forecast_program_merge. unfold merge_forecast, bind, get, lift.
  destruct (daily_aggregate _) as [|x l].
  - cbn. intros H. inversion H. left. reflexivity.
  - destruct (sorted_items (x :: l)) as [items|e1] eqn:S.
    2:{ cbn. intros H. inversion H. subst. right. left.
        eapply sorted_items_raises. exact S. }
    destruct (summarize_all _) as [ss|e2] eqn:A.
    2:{ cbn. intros H. inversion H. subst. right. left.
        eapply summarize_all_raises. exact A. }
    destruct (fc_location _); cbn; [discriminate|].
    intros H. inversion H. right. right. reflexivity.
Qed.

End ForecastProperties.

(* ================================================================== *)
(** * The size of the cache and the life of an entry *)
(* ================================================================== *)

Section CacheSize.
Import Py Py.Notations Net Agg Cache Threads Routes Reports Traffic Describe.
Context `{RT : Runtime}.
Variable cfg : config.

Lemma remove_length : forall k c,
  (List.length (remove k c) <= List.length c)%nat.
Proof. intros k c. unfold remove. apply filter_length_le. Qed.

Lemma remove_found : forall k c e,
  find k c = Some e -> (List.length (remove k c) < List.length c)%nat.
Proof.
  induction c as [|x c IH]; cbn; intros e H; [discriminate|].
  destruct (key_eqb (key x) k) eqn:E; cbn.
  - pose proof (remove_length k c). unfold remove in *. lia.
  - specialize (IH e H). unfold remove in *. lia.
Qed.

Lemma make_room_length : forall maxsize fuel c,
  1 <= maxsize -> (List.length c <= fuel)%nat ->
  Z.of_nat (List.length (make_room fuel maxsize c)) + 1 <= maxsize.
Proof.
  intros maxsize. induction fuel as [|fuel IH]; intros c Hm Hf; cbn.
  - destruct c; [cbn; lia|cbn in Hf; lia].
  - destruct (maxsize <? Z.of_nat (List.length c) + 1) eqn:E.
    + apply IH; [exact Hm|]. destruct c; cbn in *; lia.
    + apply Z.ltb_ge in E. lia.
Qed.

(** A lookup never makes the cache longer. *)
Lemma cache_getitem_length : forall now k c,
  (List.length (snd (cache_getitem now k c)) <= List.length c)%nat.
Proof.
  intros now k c. unfold cache_getitem.
  destruct (find k c) as [e|] eqn:F; cbn; [|lia].
  pose proof (remove_found k c e F). rewrite length_app. cbn. lia.
Qed.

(** A store leaves the cache within its capacity if it was. *)
Lemma cache_setitem_length : forall maxsize ttl now k v c,
  Z.of_nat (List.length c) <= maxsize ->
  Z.of_nat (List.length (snd (cache_setitem maxsize ttl now k v c))) <= maxsize.
Proof.
  intros maxsize ttl now k v c H. unfold cache_setitem.
  assert (X : (List.length (expire now c) <= List.length c)%nat)
    by apply filter_length_le.
  destruct (maxsize <? 1) eqn:E; cbn [snd]; [lia|].
  apply Z.ltb_ge in E. rewrite length_app. cbn [List.length].
  destruct (find k (expire now c)) as [e|] eqn:F.
  - pose proof (remove_found k _ e F). lia.
  - pose proof (make_room_length maxsize (List.length (expire now c))
                  (expire now c) E (le_n _)) as R.
    pose proof (remove_length k
                  (make_room (List.length (expire now c)) maxsize (expire now c))).
    lia.
Qed.

Lemma capacity_lookup : forall k, preserves (within_capacity cfg) (lookup k).
Proof.
  intros k s H. unfold within_capacity, lookup in *.
  pose proof (cache_getitem_length (clock (env s)) k (cache s)).
  destruct (cache_getitem _ _ _) as [hit c']. cbn in *. lia.
Qed.

Lemma capacity_store : forall k v, preserves (within_capacity cfg) (store cfg k v).
Proof.
  intros k v s H. unfold within_capacity, store in *.
  pose proof (cache_setitem_length (CACHE_MAXSIZE cfg) (ttl_ms cfg)
                (clock (env s)) k v (cache s) H).
  destruct (cache_setitem _ _ _ _ _ _) as [o c']. cbn in *. assumption.
Qed.

Lemma capacity_io : forall A (m : M world A),
  preserves (within_capacity cfg) (io m).
Proof.
  intros A m s H. unfold io. destruct (m (env s)) as [r w']. exact H.
Qed.

Lemma capacity_cached : forall k func,
  preserves (within_capacity cfg) (cached cfg k func).
Proof.
  intros k func. unfold cached.
  apply preserves_bind; [apply capacity_lookup|]. intros [v|].
  - apply preserves_ret.
  - apply preserves_bind; [apply capacity_io|]. intros v.
    apply preserves_bind; [apply capacity_store|]. intros _.
    apply preserves_ret.
Qed.

Lemma capacity_guarded : forall call f1 f2,
  preserves (within_capacity cfg) call ->
  preserves (within_capacity cfg) (guarded call f1 f2).
Proof.
  intros call f1 f2 H. unfold guarded. apply preserves_try.
  - apply preserves_bind; [exact H|]. intros v. apply preserves_ret.
  - intros e. destruct (is_RuntimeError e);
      (apply preserves_bind; [apply capacity_io|]; intros _; apply preserves_ret).
Qed.

Lemma capacity_step : forall k func P i,
  within_capacity cfg (shared P) ->
  within_capacity cfg (shared (step cfg k func P i)).
Proof.
  intros k func P i H. unfold step.
  destruct (nth_error (callers P) i) as [p|]; [|exact H].
  destruct p as [| |v|r]; cbn [step_caller].
  - pose proof (capacity_lookup k (shared P) H) as L.
    destruct (lookup k (shared P)) as [[[v|]|e] s']; exact L.
  - pose proof (capacity_io _ func (shared P) H) as L.
    destruct (io func (shared P)) as [[v|e] s']; exact L.
  - exact (capacity_store k v (shared P) H).
  - exact H.
Qed.

(** A miss that ends well leaves an entry that expires one TTL after
    the store, which is made when the wrapped function has returned. *)
Lemma cached_miss_stores : forall k func s v s1,
  1 <= CACHE_MAXSIZE cfg ->
  find k (cache s) = None ->
  cached cfg k func s = (Ok v, s1) ->
  exists e,
    find k (cache s1) = Some e /\ value e = v /\
    expires e = clock (env s1) + ttl_ms cfg /\
    env s1 = snd (func (env s)).
Proof.
  intros k func s v s1 Hm F H. unfold cached, bind, lookup, cache_getitem in H.
  rewrite F in H. unfold io in H. cbn [env cache] in H.
  destruct (func (env s)) as [[v1|e1] w1]; [|discriminate].
  unfold store, cache_setitem in H. cbn [env cache] in H.
  destruct (CACHE_MAXSIZE cfg <? 1) eqn:E; [apply Z.ltb_lt in E; lia|].
  cbn in H. inversion H; subst. cbn [cache env snd].
  eexists. split; [apply find_moved; cbn; apply key_eqb_refl|].
  cbn. repeat split.
Qed.

Lemma lookup_by_expiry : forall k s e,
  find k (cache s) = Some e ->
  exists c',
    lookup k s =
    (Ok (if clock (env s) <? expires e then Some (value e) else None),
     {| cache := c'; env := env s |}).
Proof.
  intros k s e F. unfold lookup, cache_getitem. rewrite F.
  eexists. reflexivity.
Qed.

End CacheSize.

Section CacheProperties.
Import Py Py.Notations Net Agg Cache Threads Routes Reports Traffic Describe.
Context `{RT : Runtime}.
Variable cfg : config.

(** X16.  The cache never outgrows [CACHE_MAXSIZE]: a cache within its
    capacity stays within it through [/weather/current], through
    [/weather/forecast], and through the steps of any number of callers
    of a cached function in any interleaving. *)
Theorem cache_stays_within_capacity :
  (forall req s,
     within_capacity cfg s ->
     within_capacity cfg (snd (current_weather cfg req s))) /\
  (forall req s,
     within_capacity cfg s ->
     within_capacity cfg (snd (forecast_weather cfg req s))) /\
  (forall k func schedule P,
     within_capacity cfg (shared P) ->
     within_capacity cfg (shared (run cfg k func schedule P))).
Proof.
  split; [|split].
  - intros req s H. unfold current_weather.
    destruct (String.eqb _ ""); [exact H|].
    apply capacity_guarded; [apply capacity_cached|exact H].
  - intros req s H. unfold forecast_weather.
    destruct (parse_days req) as [days|]; [|exact H].
    destruct (String.eqb _ ""); [exact H|].
    destruct ((days <=? 0) || (MAX_FORECAST_DAYS <? days)); [exact H|].
    apply capacity_guarded; [apply capacity_cached|exact H].
  - intros k func schedule. unfold run.
    induction schedule as [|i schedule IH]; intros P H; [exact H|].
    cbn [fold_left]. apply IH. apply capacity_step. exact H.
Qed.

(** X17.  An entry lives one TTL from the moment it was stored.  After
    a miss that ended well, the same call made less than
    [CACHE_TTL_SECONDS] later is answered from the cache and the world
    is left alone; made at that time or later it runs the wrapped
    function again. *)
Theorem cached_entry_lives_one_ttl : forall k func s v s1,
  1 <= CACHE_MAXSIZE cfg ->
  find k (cache s) = None ->
  cached cfg k func s = (Ok v, s1) ->
  (forall ms, ms < ttl_ms cfg ->
     exists c2,
       cached cfg k func (later ms s1) =
       (Ok v, {| cache := c2; env := env (later ms s1) |})) /\
  (forall ms, ttl_ms cfg <= ms ->
     fst (cached cfg k func (later ms s1)) = fst (func (env (later ms s1))) /\
     env (snd (cached cfg k func (later ms s1))) =
       snd (func (env (later ms s1)))).
Proof.
  intros k func s v s1 Hm F H.
  destruct (cached_miss_stores cfg k func s v s1 Hm F H) as (e & Fe & Ve & Xe & _).
  split; intros ms L.
  - destruct (lookup_by_expiry k (later ms s1) e Fe) as (c2 & Lk).
    exists c2. unfold cached, bind. rewrite Lk. cbn [later env clock].
    assert (T : (clock (env s1) + ms <? expires e) = true)
      by (apply Z.ltb_lt; lia).
    rewrite T, Ve. reflexivity.
  - destruct (lookup_by_expiry k (later ms s1) e Fe) as (c2 & Lk).
    unfold cached, bind. rewrite Lk. cbn [later env clock].
    assert (T : (clock (env s1) + ms <? expires e) = false)
      by (apply Z.ltb_ge; lia).
    rewrite T. unfold io. cbn [env cache].
    destruct (func _) as [[v2|e2] w2]; cbn [fst snd]; [|split; reflexivity].
    unfold store. cbn [env cache].
    destruct (cache_setitem _ _ _ _ _ _) as [o c3]. cbn. split; reflexivity.
Qed.

End CacheProperties.

(* ================================================================== *)
(** * The two weather views and [/health] *)
(* ================================================================== *)

Section ViewFacts.
Import Py Py.Notations Net Agg Cache Routes Reports Traffic Describe.
Context `{RT : Runtime}.
Variable cfg : config.

(** The [try] of a view turns whatever the cached function does into a
    response. *)
Lemma guarded_answers : forall call f1 f2 s,
  exists resp,
    fst (guarded call f1 f2 s) = Ok resp /\
    (status resp = 200 \/ status resp = 502 \/ status resp = 500) /\
    (status resp = 200 <-> exists v, payload_of resp = Data v).
Proof.
  intros call f1 f2 s. unfold guarded, try_except, bind.
  destruct (call s) as [[v|e] s1]; cbn.
  - eexists. split; [reflexivity|]. cbn. split; [auto|].
    split; [intros _; exists v; reflexivity|reflexivity].
  - destruct (is_RuntimeError e); cbn; eexists; (split; [reflexivity|]); cbn;
      (split; [auto|]); (split; [discriminate|]); intros (v & H);
      discriminate H.
Qed.

Lemma guarded_not_400 : forall call f1 f2 s resp s1,
  guarded call f1 f2 s = (Ok resp, s1) -> status resp <> 400.
Proof.
  intros call f1 f2 s resp s1 H.
  destruct (guarded_answers call f1 f2 s) as (resp' & E & [S|[S|S]] & _);
    rewrite H in E; cbn in E; inversion E; subst; lia.
Qed.

End ViewFacts.

Section ViewProperties.
Import Py Py.Notations Net Agg Cache Routes Reports Traffic Describe.
Context `{RT : Runtime}.
Variable cfg : config.

(** X18.  The two weather views never raise: whatever the request, the
    cache and the world, each answers with 200, 400, 500 or 502, and
    with 200 exactly when its payload is the data. *)
Theorem weather_views_always_answer : forall req s,
  (exists resp,
     fst (current_weather cfg req s) = Ok resp /\
     In (status resp) [200; 400; 500; 502] /\
     (status resp = 200 <-> exists v, payload_of resp = Data v)) /\
  (exists resp,
     fst (forecast_weather cfg req s) = Ok resp /\
     In (status resp) [200; 400; 500; 502] /\
     (status resp = 200 <-> exists v, payload_of resp = Data v)).
Proof.
  intros req s.
  assert (B : forall msg,
            exists resp : http_response,
              Ok (respond (Error msg) 400) = Ok resp /\
              In (status resp) [200; 400; 500; 502] /\
              (status resp = 200 <-> exists v, payload_of resp = Data v)).
  { intros msg. eexists. split; [reflexivity|]. cbn. split; [auto|].
    split; [discriminate|]. intros (v & H). discriminate H. }
  assert (G : forall call f1 f2,
            exists resp,
              fst (guarded call f1 f2 s) = Ok resp /\
              In (status resp) [200; 400; 500; 502] /\
              (status resp = 200 <-> exists v, payload_of resp = Data v)).
  { intros call f1 f2.
    destruct (guarded_answers call f1 f2 s) as (resp & E & S & D).
    exists resp. split; [exact E|]. split; [|exact D].
    cbn. destruct S as [S|[S|S]]; rewrite S; auto. }
  split.
  - unfold current_weather. destruct (String.eqb _ ""); [apply B|apply G].
  - unfold forecast_weather.
    destruct (parse_days req) as [days|]; [|apply B].
    destruct (String.eqb _ ""); [apply B|].
    destruct ((days <=? 0) || (MAX_FORECAST_DAYS <? days)); [apply B|apply G].
Qed.

(** X19.  A request is checked before anything is done.  For a
    forecast the day count is read first, so that a count that is no
    integer is reported even when the location is missing, and a
    missing location before a count out of range; and whenever a view
    answers 400 it has left the cache, the clock, the network and the
    log as they were. *)
Theorem bad_request_changes_nothing :
  (forall req s,
     parse_days req = None ->
     forecast_weather cfg req s =
     (Ok (respond (Error "days must be an integer") 400), s)) /\
  (forall req s days,
     parse_days req = Some days ->
     blank (or_default (arg_location req) "") = true ->
     forecast_weather cfg req s =
     (Ok (respond (Error "location query parameter is required") 400), s)) /\
  (forall req s,
     blank (or_default (arg_location req) "") = true ->
     current_weather cfg req s =
     (Ok (respond (Error "location query parameter is required") 400), s)) /\
  (forall req s resp s',
     current_weather cfg req s = (Ok resp, s') \/
     forecast_weather cfg req s = (Ok resp, s') ->
     status resp = 400 -> s' = s).
Proof.
  split; [|split; [|split]].
  - intros req s P. unfold forecast_weather. rewrite P. reflexivity.
  - intros req s days P B. unfold forecast_weather.
    rewrite P, strip_empty, B. reflexivity.
  - intros req s B. unfold current_weather. rewrite strip_empty, B.
    reflexivity.
  - intros req s resp s' [H|H] S.
    + unfold current_weather in H.
      destruct (String.eqb _ ""); [inversion H; reflexivity|].
      exfalso. exact (guarded_not_400 _ _ _ _ _ _ H S).
    + unfold forecast_weather in H.
      destruct (parse_days req) as [days|]; [|inversion H; reflexivity].
      destruct (String.eqb _ ""); [inversion H; reflexivity|].
      destruct ((days <=? 0) || (MAX_FORECAST_DAYS <? days));
        [inversion H; reflexivity|].
      exfalso. exact (guarded_not_400 _ _ _ _ _ _ H S).
Qed.

End ViewProperties.

Section HealthProperties.
Import Py Py.Notations Net Health.

(** The hook sets the start time once: what later requests find is what
    the first request recorded. *)
Lemma start_time_recorded : forall s,
  start_time (snd (_record_start_time s)) =
  Some (match start_time s with Some t0 => t0 | None => time_time s end) /\
  outside (snd (_record_start_time s)) = outside s.
Proof.
  intros [[t0|] o]; split; reflexivity.
Qed.

Lemma requests_keep_start_time : forall delays s t0,
  start_time s = Some t0 ->
  let s' := fold_left (fun s ms => snd (_record_start_time (wait ms s)))
              delays s in
  start_time s' = Some t0 /\
  time_time s' = time_time s + fold_right Z.add 0 delays.
Proof.
  induction delays as [|ms delays IH]; intros s t0 H; cbv zeta;
    cbn [fold_left fold_right].
  - split; [exact H|]. lia.
  - destruct (start_time_recorded (wait ms s)) as [E O].
    cbn [wait start_time] in E. rewrite H in E.
    destruct (IH _ t0 E) as [E1 E2]. split; [exact E1|].
    cbv zeta in E2. rewrite E2. unfold time_time at 1. rewrite O.
    unfold time_time. cbn. lia.
Qed.

(** X20.  [/health] counts from the first request, not from the start
    of the process.  The hook that runs before every request records
    the time of the first and leaves it alone afterwards, so that after
    any later requests [health] answers 200 with the whole seconds gone
    by since the first one, which is 0 or more when no wait was
    negative. *)
Theorem health_counts_from_the_first_request : forall s delays,
  start_time s = None ->
  let first := snd (_record_start_time s) in
  let s' := fold_left (fun s ms => snd (_record_start_time (wait ms s)))
              delays first in
  health s' =
  (Ok {| health_state := "ok";
         uptime_seconds := Z.quot (fold_right Z.add 0 delays) 1000;
         health_status := 200 |}, s') /\
  (Forall (fun ms => 0 <= ms) delays ->
   0 <= Z.quot (fold_right Z.add 0 delays) 1000).
Proof.
  intros s delays N first s'.
  destruct (start_time_recorded s) as [E O]. rewrite N in E.
  destruct (requests_keep_start_time delays first (time_time s) E) as [E1 E2].
  fold s' in E1, E2. split.
  - unfold health. rewrite E1.
    replace (time_time s' - time_time s) with (fold_right Z.add 0 delays).
    + reflexivity.
    + rewrite E2. unfold first, time_time. rewrite O. ring.
  - intros F. apply Z.quot_pos; [|lia]. clear E1 E2. clear s'.
    induction F as [|ms l H F IH]; cbn [fold_right]; lia.
Qed.

End HealthProperties.

(* ================================================================== *)
(** * The shape of an answer and the kinds of cached values *)
(* ================================================================== *)

Section ShapeFacts.
Import Py Py.Notations Net Agg Cache Routes Reports Traffic Describe.
Context `{RT : Runtime}.
Variable cfg : config.

Lemma location_of_record : forall p j l,
  location_of p j = Ok l ->
  exists name lat lon, l = location_record name lat lon.
Proof.
  intros p j l. destruct p; unfold location_of.
  - destruct (dict_get j "name" (JStr "")) as [name|]; [|discriminate].
    cbn [and_then].
    destruct (dict_get j "sys" (JObj [])) as [sys|]; [|discriminate].
    cbn [and_then].
    destruct (dict_get sys "country" (JStr "")) as [country|]; [|discriminate].
    cbn [and_then].
    destruct (dict_get j "coord" (JObj [])) as [coord|]; [|discriminate].
    cbn [and_then].
    destruct (dict_get coord "lat" JNull) as [lat|]; [|discriminate].
    cbn [and_then].
    destruct (dict_get coord "lon" JNull) as [lon|]; [|discriminate].
    cbn [and_then]. intros H. inversion H. eexists _, _, _. reflexivity.
  - destruct (dict_get j "location" (JObj [])) as [loc|]; [|discriminate].
    cbn [and_then].
    destruct (dict_get loc "name" (JStr "")) as [name|]; [|discriminate].
    cbn [and_then].
    destruct (dict_get loc "country" (JStr "")) as [country|]; [|discriminate].
    cbn [and_then].
    destruct (dict_get loc "lat" JNull) as [lat|]; [|discriminate].
    cbn [and_then].
    destruct (dict_get loc "lon" JNull) as [lon|]; [|discriminate].
    cbn [and_then]. intros H. inversion H. eexists _, _, _. reflexivity.
Qed.

Lemma report_location : forall pr l,
  x_location (report pr) = Some l ->
  exists j, location_of (fst pr) j = Ok l.
Proof.
  intros [p r] l. unfold report. cbn [fst snd].
  destruct r as [j|e]; [|discriminate]. unfold extract.
  destruct (temp_of p j); [|discriminate].
  destruct (feels_of p j); [|discriminate].
  destruct (humidity_of p j); [|discriminate].
  destruct (cond_of p j); [|discriminate]. cbn.
  destruct (location_of p j) as [l'|] eqn:L; [|discriminate].
  cbn. intros H. inversion H. subst. exists j. exact L.
Qed.

Lemma forallb_filter : forall A (f g : A -> bool) l,
  forallb f l = true -> forallb f (filter g l) = true.
Proof.
  induction l as [|x l IH]; cbn; intros H; [reflexivity|].
  apply andb_true_iff in H. destruct H as [H1 H2].
  destruct (g x); cbn; [rewrite H1|]; apply IH; exact H2.
Qed.

Lemma forallb_tl : forall A (f : A -> bool) l,
  forallb f l = true -> forallb f (tl l) = true.
Proof.
  intros A f [|x l]; cbn; intros H; [reflexivity|].
  apply andb_true_iff in H. apply H.
Qed.

Lemma forallb_make_room : forall (f : entry -> bool) fuel maxsize c,
  forallb f c = true -> forallb f (make_room fuel maxsize c) = true.
Proof.
  intros f. induction fuel as [|fuel IH]; intros maxsize c H; cbn; [exact H|].
  destruct (maxsize <? Z.of_nat (List.length c) + 1); [|exact H].
  apply IH. apply forallb_tl. exact H.
Qed.

Lemma key_eqb_fits : forall k k' v,
  key_eqb k' k = true -> fits k' v = fits k v.
Proof. intros [c|c d] [c'|c' d'] v H; try discriminate H; reflexivity. Qed.

(** A lookup serves a value of the kind of the key, and leaves the
    cache unmixed. *)
Lemma unmixed_lookup : forall k s,
  unmixed s ->
  unmixed (snd (lookup k s)) /\
  (forall v, fst (lookup k s) = Ok (Some v) -> fits k v = true).
Proof.
  intros k s U. unfold unmixed, lookup, cache_getitem in *.
  destruct (find k (cache s)) as [e|] eqn:F; cbn.
  - assert (Fe : fits (key e) (value e) = true).
    { rewrite forallb_forall in U. apply U. eapply find_in. exact F. }
    split.
    + rewrite forallb_app. cbn. rewrite Fe.
      unfold remove. rewrite forallb_filter by exact U. reflexivity.
    + intros v. destruct (clock (env s) <? expires e); [|discriminate].
      intros H. inversion H. subst.
      rewrite <- (key_eqb_fits k (key e)); [exact Fe|].
      eapply find_key. exact F.
  - split; [exact U|discriminate].
Qed.

Lemma unmixed_store : forall k v s,
  unmixed s -> fits k v = true -> unmixed (snd (store cfg k v s)).
Proof.
  intros k v s U Fv. unfold unmixed, store, cache_setitem in *.
  cbn [env cache].
  assert (E : forallb (fun e => fits (key e) (value e))
                (expire (clock (env s)) (cache s)) = true)
    by (unfold expire; apply forallb_filter; exact U).
  destruct (CACHE_MAXSIZE cfg <? 1); cbn; [exact E|].
  rewrite forallb_app. cbn. rewrite Fv. unfold remove.
  rewrite forallb_filter; [reflexivity|].
  destruct (find k _); [exact E|]. apply forallb_make_room. exact E.
Qed.

(** The wrapper hands out values of the kind of its key if the wrapped
    function returns such values, and keeps the cache unmixed. *)
Lemma unmixed_cached : forall k func s,
  (forall w v w', func w = (Ok v, w') -> fits k v = true) ->
  unmixed s ->
  unmixed (snd (cached cfg k func s)) /\
  (forall v, fst (cached cfg k func s) = Ok v -> fits k v = true).
Proof.
  intros k func s Hf U. unfold cached, bind.
  destruct (unmixed_lookup k s U) as [U1 V1].
  destruct (lookup k s) as [[[v|]|e] s1] eqn:L; cbn [fst snd] in *.
  - split; [exact U1|]. intros v' H. inversion H. subst. apply V1. reflexivity.
  - unfold io. destruct (func (env s1)) as [[v|e] w1] eqn:F; cbn [fst snd].
    + pose proof (Hf _ _ _ F) as Fv.
      pose proof (unmixed_store k v {| cache := cache s1; env := w1 |} U1 Fv)
        as U2.
      destruct (store cfg k v _) as [[[]|e] s2] eqn:St; cbn [fst snd] in *.
      * split; [exact U2|]. intros v' H. inversion H. subst. exact Fv.
      * split; [exact U2|discriminate].
    + split; [exact U1|discriminate].
  - split; [exact U1|discriminate].
Qed.

Lemma unmixed_guarded : forall k func f1 f2 s,
  (forall w v w', func w = (Ok v, w') -> fits k v = true) ->
  unmixed s ->
  unmixed (snd (guarded (cached cfg k func) f1 f2 s)) /\
  (forall v, payload_of
               (match fst (guarded (cached cfg k func) f1 f2 s) with
                | Ok resp => resp
                | Raise _ => respond (Error "") 0
                end) = Data v ->
             fits k v = true).
Proof.
  intros k func f1 f2 s Hf U. unfold guarded, try_except, bind.
  destruct (unmixed_cached k func s Hf U) as [U1 V1].
  destruct (cached cfg k func s) as [[v|e] s1]; cbn [fst snd] in *.
  - split; [exact U1|]. cbn. intros v' H. inversion H. subst.
    apply V1. reflexivity.
  - destruct (is_RuntimeError e); cbn; (split; [exact U1|discriminate]).
Qed.

Lemma current_func_fits : forall city w v w',
  current_func cfg city w = (Ok v, w') -> fits (KeyCurrent city) v = true.
Proof.
  intros city w v w'. unfold current_func, bind, log, emit, modify, ret.
  destruct (aggregated_current_from_providers cfg city _) as [[a|e] w1];
    [|discriminate].
  intros H. inversion H. reflexivity.
Qed.

Lemma forecast_func_fits : forall city days w v w',
  forecast_func cfg city days w = (Ok v, w') ->
  fits (KeyForecast city days) v = true.
Proof.
  intros city days w v w'. unfold forecast_func, bind, log, emit, modify, ret.
  destruct (aggregated_forecast_from_providers cfg city days _) as [[a|e] w1];
    [|discriminate].
  intros H. inversion H. reflexivity.
Qed.

End ShapeFacts.

Section ShapeProperties.
Import Py Py.Notations Net Agg Cache Routes Reports Traffic Describe.
Context `{RT : Runtime}.
Variable cfg : config.

(** X21.  The location of an answer, for current conditions as for a
    forecast, is always an object with the three keys ["name"], ["lat"]
    and ["lon"], in this order, whose name is a string. *)
Theorem answers_locate_with_name_lat_lon :
  (forall city w a w',
     aggregated_current_from_providers cfg city w = (Ok a, w') ->
     exists name lat lon,
       cur_location a = JObj [("name", JStr name); ("lat", lat); ("lon", lon)]) /\
  (forall city days w a w',
     aggregated_forecast_from_providers cfg city days w = (Ok a, w') ->
     exists name lat lon,
       fc_answer_location a =
       JObj [("name", JStr name); ("lat", lat); ("lon", lon)]).
Proof.
  split.
  - intros city w a w' H.
    destruct (aggregated_current_answer cfg city w a w' H)
      as (_ & _ & _ & _ & (front & L) & _).
    assert (I : In (cur_location a)
                  (reported_locations (responses cfg city w))).
    { rewrite L. apply in_or_app. right. left. reflexivity. }
    unfold reported_locations in I. apply in_flat_map in I.
    destruct I as (pr & _ & I).
    destruct (x_location (report pr)) as [l|] eqn:X; [|destruct I].
    destruct I as [<-|[]].
    destruct (report_location pr l X) as (j & Lj).
    exact (location_of_record _ _ _ Lj).
  - intros city days w a w' H.
    destruct (aggregated_forecast_location cfg city days w a w' H)
      as [(_ & wa & _ & L)|(_ & lat & lon & L)].
    + exact (location_of_record _ _ _ L).
    + exists city, lat, lon. exact L.
Qed.

(** X22.  The one cache the two cached functions share never serves one
    for the other: in a cache whose entries are of the kind of their
    keys, [/weather/current] answers 200 with an answer for current
    conditions only, [/weather/forecast] with a forecast only, and both
    leave the cache such. *)
Theorem shared_cache_keeps_the_kinds_apart :
  (forall req s resp s',
     unmixed s ->
     current_weather cfg req s = (Ok resp, s') ->
     unmixed s' /\
     (forall v, payload_of resp = Data v -> exists a, v = VCurrent a)) /\
  (forall req s resp s',
     unmixed s ->
     forecast_weather cfg req s = (Ok resp, s') ->
     unmixed s' /\
     (forall v, payload_of resp = Data v -> exists a, v = VForecast a)).
Proof.
  split.
  - intros req s resp s' U H. unfold current_weather in H.
    destruct (String.eqb _ "").
    { inversion H; subst. split; [exact U|]. cbn. discriminate. }
    unfold cached_current in H.
    match type of H with
    | guarded (cached cfg ?k ?func) ?f1 ?f2 s = _ =>
        destruct (unmixed_guarded cfg k func f1 f2 s
                    (current_func_fits cfg _) U) as [U1 V1]
    end.
    rewrite H in U1, V1. cbn [fst snd] in U1, V1. split; [exact U1|].
    intros v D. specialize (V1 v D). destruct v; [|discriminate V1].
    eexists. reflexivity.
  - intros req s resp s' U H. unfold forecast_weather in H.
    destruct (parse_days req) as [days|].
    2:{ inversion H; subst. split; [exact U|]. cbn. discriminate. }
    destruct (String.eqb _ "").
    { inversion H; subst. split; [exact U|]. cbn. discriminate. }
    destruct ((days <=? 0) || (MAX_FORECAST_DAYS <? days)).
    { inversion H; subst. split; [exact U|]. cbn. discriminate. }
    unfold cached_forecast in H.
    match type of H with
    | guarded (cached cfg ?k ?func) ?f1 ?f2 s = _ =>
        destruct (unmixed_guarded cfg k func f1 f2 s
                    (forecast_func_fits cfg _ _) U) as [U1 V1]
    end.
    rewrite H in U1, V1. cbn [fst snd] in U1, V1. split; [exact U1|].
    intros v D. specialize (V1 v D). destruct v; [discriminate V1|].
    eexists. reflexivity.
Qed.

End ShapeProperties.

(* ================================================================== *)
(** * The properties above at concrete worlds *)
(* ================================================================== *)

Section PropertyExamples.
Import Py Py.Notations Net Agg Cache Threads Routes Reports.
Import Search Health Traffic Describe Examples Cases.
#[local] Existing Instance example_runtime.

(** X1 at a query of two spaces, and at "Paris" with no key set. *)
Lemma search_rejects_before_any_request_witness :
  locations_search both_keys (Some "  ") paris_found =
    (Ok (reply (Failure "q query parameter required") 400), paris_found) /\
  locations_search no_keys (Some "Paris") paris_found =
    (Ok (reply (Failure
       "No geocoding provider configured (set OPENWEATHER_API_KEY or WEATHERAPI_KEY).")
       500), paris_found).
Proof.
  split.
  - refine (proj1 (search_rejects_before_any_request both_keys)
              (Some "  ") paris_found _).
    reflexivity.
  - refine (proj2 (search_rejects_before_any_request no_keys)
              (Some "Paris") paris_found _ _ _); reflexivity.
Defined.

(** X2 at " Paris " with both keys set: only OpenWeather is asked. *)
Lemma search_asks_one_provider_witness :
  exists n,
    (n = 1 \/ n = 2)%nat /\
    requested (repeat (openweather_search_get both_keys "Paris") n)
      paris_found
      (snd (locations_search both_keys (Some " Paris ") paris_found)).
Proof.
  refine (search_asks_one_provider both_keys (Some " Paris ") paris_found _).
  reflexivity.
Defined.

(** X3 at [paris], found by OpenWeather and found by WeatherAPI. *)
Lemma search_lists_what_the_provider_found_witness :
  locations_search both_keys (Some " Paris ") paris_found =
    (Ok (reply (Results (firstn 10 (map entry_of paris))) 200),
     snd (openweather_search_request both_keys "Paris" paris_found)) /\
  locations_search weatherapi_only (Some " Paris ") paris_found =
    (Ok (reply (Results (map entry_of paris)) 200),
     snd (weatherapi_search_request weatherapi_only "Paris" paris_found)) /\
  map entry_of paris = paris_entries.
Proof.
  split; [|split].
  - refine (proj1 (search_lists_what_the_provider_found both_keys)
              (Some " Paris ") paris_found paris _ _ _ _).
    + reflexivity.
    + reflexivity.
    + vm_compute. reflexivity.
  - refine (proj2 (search_lists_what_the_provider_found weatherapi_only)
              (Some " Paris ") paris_found paris _ _ _ _ _).
    + reflexivity.
    + reflexivity.
    + reflexivity.
    + vm_compute. reflexivity.
  - vm_compute. reflexivity.
Defined.

(** X4 at [paris_spoiled]. *)
Lemma search_fails_on_one_bad_item_witness :
  locations_search both_keys (Some "Paris") paris_spoiled =
    (Ok (reply (FailureDetails "Failed to search locations" AttributeError) 502),
     {| clock := 120; network := [];
        trace := trace (snd (openweather_search_request both_keys "Paris"
                               paris_spoiled)) ++
                 [Log ERROR "locations_search error: %s"] |}).
Proof.
  refine (search_fails_on_one_bad_item both_keys (Some "Paris") paris_spoiled
            [JObj (hd [] paris); JStr "Paris, Texas"]
            (snd (openweather_search_request both_keys "Paris" paris_spoiled))
            _ _ _ _).
  - reflexivity.
  - reflexivity.
  - vm_compute. reflexivity.
  - reflexivity.
Defined.

(** X5 at [paris_spoiled]. *)
Lemma search_always_answers_witness :
  exists resp,
    fst (locations_search both_keys (Some "Paris") paris_spoiled) = Ok resp /\
    In (search_status resp) [200; 400; 500; 502] /\
    (search_status resp = 502 ->
     exists e,
       search_payload_of resp = FailureDetails "Failed to search locations" e /\
       (is_RequestException e = true \/ e = TypeError \/ e = AttributeError)).
Proof.
  exact (search_always_answers both_keys (Some "Paris") paris_spoiled).
Defined.

(** X6 at a world in which every connection is refused. *)
Lemma safe_request_sends_once_or_twice_witness :
  (exists n,
     (n = 1 \/ n = 2)%nat /\
     requested (repeat (Get "http://example.org/" []) n) (world_of [])
       (snd (safe_request "http://example.org/" [] (world_of []))) /\
     network (snd (safe_request "http://example.org/" [] (world_of []))) =
       skipn n []) /\
  exists f, RequestException ConnectionError = RequestException f.
Proof.
  split.
  - exact (proj1 (safe_request_sends_once_or_twice "http://example.org/" []
                    (world_of []))).
  - refine (proj2 (safe_request_sends_once_or_twice "http://example.org/" []
                     (world_of [])) (RequestException ConnectionError) _).
    vm_compute. reflexivity.
Defined.

(** X8 at [forecast_two]. *)
Lemma forecast_fan_out_witness :
  exists n1 n2 n3 lat lon,
    attempts (WEATHERAPI_KEY both_keys) n1 /\
    attempts (OPENWEATHER_API_KEY both_keys) n2 /\
    (n3 <= 2)%nat /\ (n2 = 0%nat -> n3 = 0%nat) /\
    requested
      (repeat (weatherapi_forecast_get both_keys "London"
                 (Z.min 3 MAX_FORECAST_DAYS)) n1 ++
       repeat (geocode_get both_keys "London") n2 ++
       repeat (onecall_get both_keys lat lon) n3)
      forecast_two
      (snd (aggregated_forecast_from_providers both_keys "London" 3
              forecast_two)).
Proof. exact (forecast_fan_out both_keys "London" 3 forecast_two). Defined.

(** X9 at [two_providers]. *)
Lemma current_sources_are_the_payloads_witness :
  cur_sources london = returned (responses both_keys "London" two_providers).
Proof.
  refine (current_sources_are_the_payloads both_keys "London" two_providers
            london
            (snd (aggregated_current_from_providers both_keys "London"
                    two_providers)) _).
  vm_compute. reflexivity.
Defined.

(** X10 at [two_providers], where the reports are 20 and 22. *)
Lemma merged_temperature_within_reports_witness :
  (round2 20 <= temperature_c london /\ temperature_c london <= round2 22)%Q /\
  (round2 20 <= feels_like_c london /\ feels_like_c london <= round2 22)%Q.
Proof.
  split.
  - refine (proj1 (merged_temperature_within_reports both_keys "London"
                     two_providers london
                     (snd (aggregated_current_from_providers both_keys "London"
                             two_providers)) 20%Q 22%Q _) _).
    + vm_compute. reflexivity.
    + intros t H. vm_compute in H.
      destruct H as [<-|[<-|[]]]; split; vm_compute; discriminate.
  - refine (proj2 (merged_temperature_within_reports both_keys "London"
                     two_providers london
                     (snd (aggregated_current_from_providers both_keys "London"
                             two_providers)) 20%Q 22%Q _) _).
    + vm_compute. reflexivity.
    + intros t H. vm_compute in H.
      destruct H as [<-|[<-|[]]]; split; vm_compute; discriminate.
Defined.

(** X11 at [two_providers], where the reports are 71 and 72. *)
Lemma merged_humidity_within_reports_witness :
  71 <= humidity london <= 72.
Proof.
  refine (merged_humidity_within_reports both_keys "London" two_providers
            london
            (snd (aggregated_current_from_providers both_keys "London"
                    two_providers)) 71 72 _ _).
  - vm_compute. reflexivity.
  - intros h H. vm_compute in H. destruct H as [<-|[<-|[]]]; lia.
Defined.

(** X12 at [two_days], whose dates WeatherAPI gives in descending
    order. *)
Lemma forecast_dates_ascend_witness :
  ascending (map date (forecast both_days)) /\
  map date (forecast both_days) = [JStr "2025-09-26"; JStr "2025-09-27"] /\
  map fst (collected weatherapi_only "London" 2 two_days) =
    [JStr "2025-09-27"; JStr "2025-09-26"].
Proof.
  split; [|split].
  - refine (forecast_dates_ascend weatherapi_only "London" 2 two_days both_days
              (snd (aggregated_forecast_from_providers weatherapi_only "London"
                      2 two_days)) _).
    vm_compute. reflexivity.
  - vm_compute. reflexivity.
  - vm_compute. reflexivity.
Defined.

(** X13 at [two_days] asked for one day: the 27th is left out, and it
    comes after the 26th. *)
Lemma forecast_keeps_the_earliest_dates_witness :
  In (JStr "2025-09-27") (map date (forecast first_day)) \/
  Forall (fun d => py_ltb d (JStr "2025-09-27") = true)
    (map date (forecast first_day)).
Proof.
  refine (forecast_keeps_the_earliest_dates weatherapi_only "London" 1 two_days
            first_day
            (snd (aggregated_forecast_from_providers weatherapi_only "London"
                    1 two_days)) (JStr "2025-09-27") _ _).
  - vm_compute. reflexivity.
  - vm_compute. left. reflexivity.
Defined.

(** X14 at [two_days] asked for one day. *)
Lemma forecast_day_count_witness :
  List.length (forecast first_day) =
    Nat.min (Z.to_nat (Z.min 1 MAX_FORECAST_DAYS))
            (List.length (collected weatherapi_only "London" 1 two_days)) /\
  forecast first_day <> [].
Proof.
  split.
  - refine (proj1 (forecast_day_count weatherapi_only "London" 1 two_days
                     first_day
                     (snd (aggregated_forecast_from_providers weatherapi_only
                             "London" 1 two_days)) _) _).
    + vm_compute. reflexivity.
    + lia.
  - refine (proj2 (forecast_day_count weatherapi_only "London" 1 two_days
                     first_day
                     (snd (aggregated_forecast_from_providers weatherapi_only
                             "London" 1 two_days)) _) _).
    + vm_compute. reflexivity.
    + lia.
Defined.

(** X15 with no key set. *)
Lemma forecast_raises_only_witness :
  RuntimeError "No forecast data available from configured providers." =
    RuntimeError "No forecast data available from configured providers." \/
  RuntimeError "No forecast data available from configured providers." =
    TypeError \/
  RuntimeError "No forecast data available from configured providers." =
    UnboundLocalError "location".
Proof.
  refine (forecast_raises_only no_keys "London" 3 (world_of [])
            (RuntimeError "No forecast data available from configured providers.")
            _).
  vm_compute. reflexivity.
Defined.

(** X16 at the first request of a fresh process, for the two views and
    for two callers in a stampede. *)
Lemma cache_stays_within_capacity_witness :
  within_capacity both_keys after_London /\
  within_capacity both_keys after_forecast /\
  within_capacity both_keys (shared two_callers).
Proof.
  split; [|split].
  - refine (proj1 (cache_stays_within_capacity both_keys) (query "London")
              (fresh two_fanouts) _).
    vm_compute. discriminate.
  - refine (proj1 (proj2 (cache_stays_within_capacity both_keys))
              (query_days "London" "3")
              {| cache := []; env := forecast_two |} _).
    vm_compute. discriminate.
  - refine (proj2 (proj2 (cache_stays_within_capacity both_keys))
              (KeyCurrent "London") (current_func both_keys "London")
              (stampede 2) (start 2 (fresh two_fanouts)) _).
    vm_compute. discriminate.
Defined.

(** X17 at [London_cached], one millisecond before the entry expires
    and at the millisecond it does. *)
Lemma cached_entry_lives_one_ttl_witness :
  (exists c2,
     cached both_keys (KeyCurrent "London") (current_func both_keys "London")
       (later 299999 London_cached) =
     (Ok (VCurrent london),
      {| cache := c2; env := env (later 299999 London_cached) |})) /\
  fst (cached both_keys (KeyCurrent "London") (current_func both_keys "London")
         (later 300000 London_cached)) =
    fst (current_func both_keys "London" (env (later 300000 London_cached))) /\
  env (snd (cached both_keys (KeyCurrent "London")
              (current_func both_keys "London") (later 300000 London_cached))) =
    snd (current_func both_keys "London" (env (later 300000 London_cached))).
Proof.
  split.
  - refine (proj1 (cached_entry_lives_one_ttl both_keys (KeyCurrent "London")
                     (current_func both_keys "London") (fresh two_fanouts)
                     (VCurrent london) London_cached _ _ _) 299999 _).
    + vm_compute. discriminate.
    + reflexivity.
    + vm_compute. reflexivity.
    + vm_compute. reflexivity.
  - refine (proj2 (cached_entry_lives_one_ttl both_keys (KeyCurrent "London")
                     (current_func both_keys "London") (fresh two_fanouts)
                     (VCurrent london) London_cached _ _ _) 300000 _).
    + vm_compute. discriminate.
    + reflexivity.
    + vm_compute. reflexivity.
    + vm_compute. discriminate.
Defined.

(** X18 at the first request for London. *)
Lemma weather_views_always_answer_witness :
  (exists resp,
     fst (current_weather both_keys (query "London") (fresh two_fanouts)) =
       Ok resp /\
     In (status resp) [200; 400; 500; 502] /\
     (status resp = 200 <-> exists v, payload_of resp = Data v)) /\
  (exists resp,
     fst (forecast_weather both_keys (query "London") (fresh two_fanouts)) =
       Ok resp /\
     In (status resp) [200; 400; 500; 502] /\
     (status resp = 200 <-> exists v, payload_of resp = Data v)).
Proof.
  exact (weather_views_always_answer both_keys (query "London")
           (fresh two_fanouts)).
Defined.

(** X19 at a forecast request with no location and [days=soon], at one
    with no location and [days=3], at a current-conditions request
    with no location, and at a forecast request for nine days. *)
Lemma bad_request_changes_nothing_witness :
  forecast_weather both_keys (query_days "" "soon") (fresh two_fanouts) =
    (Ok (respond (Error "days must be an integer") 400), fresh two_fanouts) /\
  forecast_weather both_keys (query_days "" "3") (fresh two_fanouts) =
    (Ok (respond (Error "location query parameter is required") 400),
     fresh two_fanouts) /\
  current_weather both_keys (query "  ") (fresh two_fanouts) =
    (Ok (respond (Error "location query parameter is required") 400),
     fresh two_fanouts) /\
  snd (forecast_weather both_keys (query_days "London" "9") (fresh two_fanouts)) =
    fresh two_fanouts.
Proof.
  split; [|split; [|split]].
  - refine (proj1 (bad_request_changes_nothing both_keys)
              (query_days "" "soon") (fresh two_fanouts) _).
    reflexivity.
  - refine (proj1 (proj2 (bad_request_changes_nothing both_keys))
              (query_days "" "3") (fresh two_fanouts) 3 _ _); reflexivity.
  - refine (proj1 (proj2 (proj2 (bad_request_changes_nothing both_keys)))
              (query "  ") (fresh two_fanouts) _).
    reflexivity.
  - refine (proj2 (proj2 (proj2 (bad_request_changes_nothing both_keys)))
              (query_days "London" "9") (fresh two_fanouts)
              (respond (Error "days must be between 1 and 7") 400)
              (snd (forecast_weather both_keys (query_days "London" "9")
                      (fresh two_fanouts))) _ _).
    + right. vm_compute. reflexivity.
    + reflexivity.
Defined.

(** X20 at an application whose second request comes 1.5 s after the
    first and whose third 2.7 s after the second. *)
Lemma health_counts_from_the_first_request_witness :
  health (fold_left (fun s ms => snd (_record_start_time (wait ms s)))
            [1500; 2700] (snd (_record_start_time just_started))) =
  (Ok {| health_state := "ok"; uptime_seconds := Z.quot (1500 + (2700 + 0)) 1000;
         health_status := 200 |},
   fold_left (fun s ms => snd (_record_start_time (wait ms s)))
     [1500; 2700] (snd (_record_start_time just_started))) /\
  0 <= Z.quot (1500 + (2700 + 0)) 1000.
Proof.
  split.
  - refine (proj1 (health_counts_from_the_first_request just_started
                     [1500; 2700] _)).
    reflexivity.
  - refine (proj2 (health_counts_from_the_first_request just_started
                     [1500; 2700] _) _).
    + reflexivity.
    + repeat constructor; lia.
Defined.

(** X21 at [two_providers] and at [forecast_two]. *)
Lemma answers_locate_with_name_lat_lon_witness :
  (exists name lat lon,
     cur_location london = JObj [("name", JStr name); ("lat", lat); ("lon", lon)]) /\
  (exists name lat lon,
     fc_answer_location london_forecast =
     JObj [("name", JStr name); ("lat", lat); ("lon", lon)]).
Proof.
  split.
  - refine (proj1 (answers_locate_with_name_lat_lon both_keys) "London"
              two_providers london
              (snd (aggregated_current_from_providers both_keys "London"
                      two_providers)) _).
    vm_compute. reflexivity.
  - refine (proj2 (answers_locate_with_name_lat_lon both_keys) "London" 3
              forecast_two london_forecast
              (snd (aggregated_forecast_from_providers both_keys "London" 3
                      forecast_two)) _).
    vm_compute. reflexivity.
Defined.

(** X22 at the first request for London, for current conditions and
    for a forecast. *)
Lemma shared_cache_keeps_the_kinds_apart_witness :
  (unmixed after_London /\ exists a, VCurrent london = VCurrent a) /\
  (unmixed after_forecast /\
   exists a, VForecast london_forecast = VForecast a).
Proof.
  split.
  - destruct (proj1 (shared_cache_keeps_the_kinds_apart both_keys)
                (query "London") (fresh two_fanouts)
                (respond (Data (VCurrent london)) 200) after_London)
      as [U V].
    + reflexivity.
    + vm_compute. reflexivity.
    + split; [exact U|]. apply V. reflexivity.
  - destruct (proj2 (shared_cache_keeps_the_kinds_apart both_keys)
                (query_days "London" "3")
                {| cache := []; env := forecast_two |}
                (respond (Data (VForecast london_forecast)) 200) after_forecast)
      as [U V].
    + reflexivity.
    + vm_compute. reflexivity.
    + split; [exact U|]. apply V. reflexivity.
Defined.

(** X23 at [forecast_two]. *)
Lemma forecast_sources_are_the_payloads_witness :
  fc_answer_sources london_forecast =
    forecast_returned both_keys "London" 3 forecast_two /\
  map fst (fc_answer_sources london_forecast) = ["weatherapi"; "openweathermap"].
Proof.
  split.
  - refine (forecast_sources_are_the_payloads both_keys "London" 3 forecast_two
              london_forecast
              (snd (aggregated_forecast_from_providers both_keys "London" 3
                      forecast_two)) _).
    vm_compute. reflexivity.
  - vm_compute. reflexivity.
Defined.

End PropertyExamples.
